(** * wopr-plugin-obsidian: the vault client, the tool adapter and the
      plugin lifecycle, as a shallow embedding

    The TypeScript sources are [obsidian-client.ts] (class [ObsidianClient]),
    [a2a-tools.ts] ([buildA2ATools]) and [index.ts] (the plugin object with
    its module-level state).  Asynchronous functions are modelled run to
    completion: an [await] is a sequencing point, and no other task is
    interleaved between the statements of one handler.

    Conventions of the embedding:
    - a JavaScript string is a sequence of code units; the model keeps the
      code units below 256, which is what Rocq's [string] holds;
    - integral JavaScript numbers (ports, limits, status codes) are [Z];
      the relevance score of a search hit, a floating-point number that the
      code only passes through, is an abstract type of the environment;
    - a thrown value is an [Exn]; a computation is a function from the world
      to a result and a new world, and the world keeps every effect made
      before a throw, as in JavaScript;
    - argument objects, configuration and response bodies have the shapes
      the TypeScript casts declare; the argument of a tool may also be
      [undefined] or [null]; a body may fail to parse;
    - URLs are those the client builds, [http://127.0.0.1:<port>] and a
      path; [new URL] is modelled on these;
    - the vault server and the host are parameters ([Env]): the server
      answers each request as it likes, the host's unsubscribe closures and
      unregistrations may throw, its logger and [getConfig] do not. *)

From Stdlib Require Import ZArith String Ascii List Bool Lia DecimalString DecimalZ.
From stdpp Require Import base list strings.

Set Warnings "-register-all".
Local Open Scope string_scope.
Local Open Scope Z_scope.

(** ** The parts of the JavaScript library the plugin uses *)

Module Js.

(** A thrown value: an instance of [Error] (with its name and message), or
    any other value, kept as the text [String(value)] yields. *)
Inductive Exn : Type :=
| JsError (name message : string)
| JsOther (text : string).

(** [error instanceof Error ? error.message : String(error)] *)
Definition error_message (error : Exn) : string :=
  match error with
  | JsError _ message => message
  | JsOther text => text
  end.

(** Characters that string literals cannot hold directly. *)
Definition chr (n : N) : string := String (ascii_of_N n) EmptyString.
Definition nl : string := chr 10.
Definition dquote : string := chr 34.
Definition backslash : string := chr 92.

(** [${n}] for an integral number. *)
Definition decimal (n : Z) : string := NilZero.string_of_int (Z.to_int n).

(** *** Array.prototype.slice and String.prototype.slice *)

(** A relative index: negative counts from the end, and the result is
    clamped to [0 .. len]. *)
Definition relative_index (len i : Z) : Z :=
  if i <? 0 then Z.max (len + i) 0 else Z.min i len.

Definition slice {A : Type} (start end_ : Z) (l : list A) : list A :=
  let len := Z.of_nat (length l) in
  let k := relative_index len start in
  let final := relative_index len end_ in
  take (Z.to_nat (final - k)) (drop (Z.to_nat k) l).

Definition string_slice (start end_ : Z) (s : string) : string :=
  string_of_list_ascii (slice start end_ (list_ascii_of_string s)).

(** *** String.prototype.trim *)

(** White space and line terminators among the code units below 256:
    TAB, LF, VT, FF, CR, SP and NBSP. *)
Definition is_whitespace (c : ascii) : bool :=
  let n := N_of_ascii c in
  ((9 <=? n) && (n <=? 13) || (n =? 32) || (n =? 160))%N.

Fixpoint trim_start (l : list ascii) : list ascii :=
  match l with
  | [] => []
  | c :: l' => if is_whitespace c then trim_start l' else l
  end.

Definition trim_end (l : list ascii) : list ascii := rev (trim_start (rev l)).

Definition trim (s : string) : string :=
  string_of_list_ascii (trim_end (trim_start (list_ascii_of_string s))).

(** Truthiness of a string: only the empty string is falsy. *)
Definition truthy (s : string) : bool :=
  match s with
  | EmptyString => false
  | String _ _ => true
  end.

(** *** Array.prototype.join on an array of strings *)
Fixpoint join (sep : string) (parts : list string) : string :=
  match parts with
  | [] => EmptyString
  | [p] => p
  | p :: rest => p +:+ sep +:+ join sep rest
  end.

(** *** encodeURIComponent *)

Definition hex_digit (upper : bool) (n : N) : ascii :=
  if (n <? 10)%N then ascii_of_N (48 + n)
  else ascii_of_N ((if upper then 55 else 87) + n).

Definition percent (n : N) : string :=
  String "%" (String (hex_digit true (n / 16)) (String (hex_digit true (n mod 16)) EmptyString)).

(** Letters, digits and [- _ . ! ~ * ' ( )] are left as they are. *)
Definition uri_unreserved (c : ascii) : bool :=
  let n := N_of_ascii c in
  ((48 <=? n) && (n <=? 57) || (65 <=? n) && (n <=? 90) || (97 <=? n) && (n <=? 122)
   || (n =? 45) || (n =? 95) || (n =? 46) || (n =? 33) || (n =? 126)
   || (n =? 42) || (n =? 39) || (n =? 40) || (n =? 41))%N.

(** Every other code unit is written as the percent-escaped bytes of its
    UTF-8 encoding: one byte below 128, two bytes from 128 to 255. *)
Definition encode_unit (c : ascii) : string :=
  let n := N_of_ascii c in
  if uri_unreserved c then String c EmptyString
  else if (n <? 128)%N then percent n
  else percent (192 + n / 64) +:+ percent (128 + n mod 64).

Fixpoint encodeURIComponent (s : string) : string :=
  match s with
  | EmptyString => EmptyString
  | String c s' => encode_unit c +:+ encodeURIComponent s'
  end.

(** *** The parts of a URL that [new URL] reads *)

Definition is_digit (c : ascii) : bool :=
  let n := N_of_ascii c in
  ((48 <=? n) && (n <=? 57))%N.

(** [s] without the prefix [p], when it starts with it. *)
Fixpoint strip_prefix (p s : string) : option string :=
  match p, s with
  | EmptyString, _ => Some s
  | String a p', String b s' => if Ascii.eqb a b then strip_prefix p' s' else None
  | String _ _, EmptyString => None
  end.

(** The port of a URL: whether a digit was read, the value of the digits,
    and what follows them. *)
Fixpoint read_port (s : string) (seen : bool) (value : N) : bool * N * string :=
  match s with
  | String c rest =>
      if is_digit c then read_port rest true (10 * value + (N_of_ascii c - 48))%N
      else (seen, value, s)
  | EmptyString => (seen, value, s)
  end.

Definition invalid_url : Exn := JsError "TypeError" "Invalid URL".

(** *** JSON.stringify(value, null, 2) *)

Inductive Json (Num : Type) : Type :=
| JNull
| JBool (b : bool)
| JNum (n : Num)
| JStr (s : string)
| JArr (items : list (Json Num))
| JObj (props : list (string * Json Num)).
Arguments JNull {Num}.
Arguments JBool {Num} b.
Arguments JNum {Num} n.
Arguments JStr {Num} s.
Arguments JArr {Num} items.
Arguments JObj {Num} props.

(** QuoteJSONString: the quote, the backslash and the control characters
    are escaped. *)
Definition json_escape (c : ascii) : string :=
  let n := N_of_ascii c in
  if (n =? 34)%N then backslash +:+ dquote
  else if (n =? 92)%N then backslash +:+ backslash
  else if (n =? 8)%N then backslash +:+ "b"
  else if (n =? 12)%N then backslash +:+ "f"
  else if (n =? 10)%N then backslash +:+ "n"
  else if (n =? 13)%N then backslash +:+ "r"
  else if (n =? 9)%N then backslash +:+ "t"
  else if (n <? 32)%N then
    backslash +:+ "u00" +:+
    String (hex_digit false (n / 16)) (String (hex_digit false (n mod 16)) EmptyString)
  else String c EmptyString.

Fixpoint json_escape_all (s : string) : string :=
  match s with
  | EmptyString => EmptyString
  | String c s' => json_escape c +:+ json_escape_all s'
  end.

Definition json_quote (s : string) : string := dquote +:+ json_escape_all s +:+ dquote.

(** [show] prints a number; [indent] is the indentation of the enclosing
    line.  Each level adds two spaces; empty arrays and objects are
    written without a line break. *)
Fixpoint stringify_at {Num : Type} (show : Num -> string) (indent : string)
    (v : Json Num) : string :=
  let inner := indent +:+ "  " in
  match v with
  | JNull => "null"
  | JBool true => "true"
  | JBool false => "false"
  | JNum n => show n
  | JStr s => json_quote s
  | JArr [] => "[]"
  | JArr items =>
      "[" +:+ nl +:+ inner
      +:+ join ("," +:+ nl +:+ inner) (map (stringify_at show inner) items)
      +:+ nl +:+ indent +:+ "]"
  | JObj [] => "{}"
  | JObj props =>
      "{" +:+ nl +:+ inner
      +:+ join ("," +:+ nl +:+ inner)
            (map (fun kv => json_quote (fst kv) +:+ ": " +:+ stringify_at show inner (snd kv)) props)
      +:+ nl +:+ indent +:+ "}"
  end.

Definition stringify {Num : Type} (show : Num -> string) (v : Json Num) : string :=
  stringify_at show EmptyString v.

(** *** Date *)

(** A date, by its UTC fields ([month] from 1 to 12). *)
Record Date : Type := {
  year : Z; month : Z; day : Z;
  hours : Z; minutes : Z; seconds : Z; milliseconds : Z
}.

Definition digit (n : Z) : ascii := ascii_of_N (48 + Z.to_N (n mod 10)).
Definition pad2 (n : Z) : string := String (digit (n / 10)) (String (digit n) EmptyString).
Definition pad3 (n : Z) : string := String (digit (n / 100)) (pad2 n).
Definition pad4 (n : Z) : string := String (digit (n / 1000)) (pad3 n).
Definition pad6 (n : Z) : string :=
  String (digit (n / 100000)) (String (digit (n / 10000)) (pad4 n)).

(** Years from 0 to 9999 take four digits, the others a sign and six. *)
Definition iso_year (y : Z) : string :=
  if (0 <=? y) && (y <=? 9999) then pad4 y
  else (if y <? 0 then "-" else "+") +:+ pad6 (Z.abs y).

Definition toISOString (d : Date) : string :=
  iso_year (year d) +:+ "-" +:+ pad2 (month d) +:+ "-" +:+ pad2 (day d)
  +:+ "T" +:+ pad2 (hours d) +:+ ":" +:+ pad2 (minutes d) +:+ ":" +:+ pad2 (seconds d)
  +:+ "." +:+ pad3 (milliseconds d) +:+ "Z".

(** The calendar date [YYYY-MM-DD]. *)
Definition calendar_date (d : Date) : string :=
  pad4 (year d) +:+ "-" +:+ pad2 (month d) +:+ "-" +:+ pad2 (day d).

(** *** Primitive values and String(value) *)

(** A configuration value read from the host, not checked against the
    declared type of its field. *)
Inductive Prim : Type :=
| Undefined
| Null
| Boolean (b : bool)
| Number (n : Z)
| Str (s : string).

Definition to_string (v : Prim) : string :=
  match v with
  | Undefined => "undefined"
  | Null => "null"
  | Boolean true => "true"
  | Boolean false => "false"
  | Number n => decimal n
  | Str s => s
  end.

End Js.

Import Js.

(** ** Results of computations that may throw *)

Inductive Result (A : Type) : Type :=
| Ok (a : A)
| Throw (e : Exn).
Arguments Ok {A} a.
Arguments Throw {A} e.

(** [new URL(s)], by the href of the URL it builds.  Every URL of the
    client starts with [http://127.0.0.1:], which the constructor writes,
    and goes on with [${port}] and a path the client writes itself; the
    model reads such strings only, and rejects any other.  The port is the
    digits up to the path: a value above 65535 is rejected, and so is any
    other character where the path should start (the sign of a negative
    port, a decimal point).  The href writes the port in decimal and leaves
    it out when it is 80, the default of the scheme, or when no digit was
    given; the path is kept, and is [/] when the string ends with the
    port. *)
Definition new_URL (s : string) : Result string :=
  match strip_prefix "http://127.0.0.1:" s with
  | None => Throw invalid_url
  | Some after =>
      let '(seen, value, path) := read_port after false 0 in
      let origin :=
        "http://127.0.0.1"
        +:+ (if seen && negb (value =? 80)%N
             then ":" +:+ decimal (Z.of_N value) else EmptyString) in
      match path with
      | String c _ =>
          if Ascii.eqb c "/" && (value <=? 65535)%N
          then Ok (origin +:+ path)
          else Throw invalid_url
      | EmptyString =>
          if (value <=? 65535)%N then Ok (origin +:+ "/") else Throw invalid_url
      end
  end.

(** ** The data model (types.ts) *)

Record NoteStat : Type := { ctime : Z; mtime : Z; size : Z }.

Record ObsidianNote : Type := {
  note_path : string;
  note_content : string;
  stat : NoteStat
}.

Record SearchMatch : Type := {
  match_start : Z;
  match_end : Z;
  context : string
}.

Record ObsidianSearchResult (Score : Type) : Type := {
  filename : string;
  score : Score;
  matches : list SearchMatch
}.
Arguments filename {Score} _.
Arguments score {Score} _.
Arguments matches {Score} _.

(** The configuration the host hands out.  A field the host does not hold
    reads as [None] (the code guards these reads with [??]); the archive
    setting is declared [boolean], but the plugin's schema offers it as a
    choice between the strings ["true"] and ["false"], and the code accepts
    both forms, so it is kept as a primitive value. *)
Record ObsidianConfig : Type := {
  apiKey : option string;
  port : option Z;
  vaultPath : option string;
  injectContext : option string;
  maxContextNotes : option Z;
  sessionArchive : Prim
}.

(** ** The vault server, seen through fetch *)

Inductive Method : Type := GET | PUT | POST.

(** A request: [req_query] holds the search parameters set on the URL. *)
Record Request : Type := {
  req_method : Method;
  req_url : string;
  req_query : list (string * string);
  req_headers : list (string * string);
  req_body : option string
}.

(** What [res.json()] yields, read at each of the three types the client
    casts a body to; [Throw] where [res.json()] rejects. *)
Record Body (Score : Type) : Type := {
  as_note : Result ObsidianNote;
  as_results : Result (list (ObsidianSearchResult Score));
  as_listing : Result (option (list string))
}.
Arguments as_note {Score} _.
Arguments as_results {Score} _.
Arguments as_listing {Score} _.

Record Response (Score : Type) : Type := {
  status : Z;
  statusText : string;
  body : Body Score
}.
Arguments status {Score} _.
Arguments statusText {Score} _.
Arguments body {Score} _.

(** [res.ok]: the status is in the range 200 to 299. *)
Definition ok_status {Score : Type} (res : Response Score) : bool :=
  (200 <=? status res) && (status res <=? 299).

(** [fetch] resolves with a response or rejects (a transport failure). *)
Inductive FetchOutcome (Score : Type) : Type :=
| NetworkError (e : Exn)
| Responded (res : Response Score).
Arguments NetworkError {Score} e.
Arguments Responded {Score} res.

(** ** The host runtime, seen through the plugin context *)

Definition Handle : Type := nat.
Definition TimerId : Type := nat.

(** The calls of the host that [shutdown] makes: an unsubscribe closure that
    [events.on] returned, and the three unregistrations.  Each may throw. *)
Inductive HostCall : Type :=
| Unsubscribe (h : Handle)
| UnregisterConfigSchema (pluginId : string)
| UnregisterContextProvider (name : string)
| UnregisterExtension (name : string).

Inductive LogLevel : Type := Info | Warn.

(** The one context object the host passes to [init]. *)
Inductive WOPRPluginContext : Type := HostContext.

(** ** The environment of a run *)

Record Env : Type := {
  (** relevance scores, and their text in JSON *)
  Score : Type;
  show_score : Score -> string;
  (** the vault server: its answer to a request, and its next state *)
  ServerState : Type;
  serve : ServerState -> Request -> FetchOutcome Score * ServerState;
  (** the host: the configuration it holds now ([getConfig]), and what a
      call does, the exception being the one it throws, if any *)
  HostState : Type;
  host_config : HostState -> ObsidianConfig;
  host_call : HostState -> HostCall -> option Exn * HostState;
  (** the date the n-th reading of the clock gives *)
  clock : nat -> Date
}.

(** ** The client object *)

Definition ClientRef : Type := nat.

Record ObsidianClient : Type := {
  baseUrl : string;
  headers : list (string * string);
  connected : bool
}.

(** [{ ...headers, [key]: value }]: an existing key keeps its place. *)
Fixpoint set_header (key value : string) (hs : list (string * string)) : list (string * string) :=
  match hs with
  | [] => [(key, value)]
  | (k, v) :: rest =>
      if String.eqb k key then (k, value) :: rest else (k, v) :: set_header key value rest
  end.

Declare Scope js_scope.
Delimit Scope js_scope with js.

Section Worlds.

Context {E : Env}.

(** ** The world: module state, objects and environment *)

Record World : Type := {
  (** the module-level variables of index.ts *)
  ctx : option WOPRPluginContext;
  client : option ClientRef;
  healthTimer : option TimerId;
  cleanups : list Handle;
  (** the [ObsidianClient] instances; a reference is an index *)
  heap : list ObsidianClient;
  (** the running intervals *)
  timers : list TimerId;
  (** the host, the calls made to it and what was logged *)
  host : HostState E;
  host_calls : list HostCall;
  logs : list (LogLevel * string);
  (** the vault server and the requests sent to it, oldest first *)
  vault : ServerState E;
  requests : list Request;
  (** how many times the clock was read *)
  ticks : nat
}.

Definition set_ctx (v : option WOPRPluginContext) (w : World) : World :=
  {| ctx := v; client := client w; healthTimer := healthTimer w; cleanups := cleanups w;
     heap := heap w; timers := timers w; host := host w; host_calls := host_calls w;
     logs := logs w; vault := vault w; requests := requests w; ticks := ticks w |}.

Definition set_client (v : option ClientRef) (w : World) : World :=
  {| ctx := ctx w; client := v; healthTimer := healthTimer w; cleanups := cleanups w;
     heap := heap w; timers := timers w; host := host w; host_calls := host_calls w;
     logs := logs w; vault := vault w; requests := requests w; ticks := ticks w |}.

Definition set_healthTimer (v : option TimerId) (w : World) : World :=
  {| ctx := ctx w; client := client w; healthTimer := v; cleanups := cleanups w;
     heap := heap w; timers := timers w; host := host w; host_calls := host_calls w;
     logs := logs w; vault := vault w; requests := requests w; ticks := ticks w |}.

Definition set_cleanups (v : list Handle) (w : World) : World :=
  {| ctx := ctx w; client := client w; healthTimer := healthTimer w; cleanups := v;
     heap := heap w; timers := timers w; host := host w; host_calls := host_calls w;
     logs := logs w; vault := vault w; requests := requests w; ticks := ticks w |}.

Definition set_heap (v : list ObsidianClient) (w : World) : World :=
  {| ctx := ctx w; client := client w; healthTimer := healthTimer w; cleanups := cleanups w;
     heap := v; timers := timers w; host := host w; host_calls := host_calls w;
     logs := logs w; vault := vault w; requests := requests w; ticks := ticks w |}.

Definition set_timers (v : list TimerId) (w : World) : World :=
  {| ctx := ctx w; client := client w; healthTimer := healthTimer w; cleanups := cleanups w;
     heap := heap w; timers := v; host := host w; host_calls := host_calls w;
     logs := logs w; vault := vault w; requests := requests w; ticks := ticks w |}.

Definition set_host (v : HostState E) (calls : list HostCall) (w : World) : World :=
  {| ctx := ctx w; client := client w; healthTimer := healthTimer w; cleanups := cleanups w;
     heap := heap w; timers := timers w; host := v; host_calls := calls;
     logs := logs w; vault := vault w; requests := requests w; ticks := ticks w |}.

Definition set_logs (v : list (LogLevel * string)) (w : World) : World :=
  {| ctx := ctx w; client := client w; healthTimer := healthTimer w; cleanups := cleanups w;
     heap := heap w; timers := timers w; host := host w; host_calls := host_calls w;
     logs := v; vault := vault w; requests := requests w; ticks := ticks w |}.

Definition set_vault (v : ServerState E) (reqs : list Request) (w : World) : World :=
  {| ctx := ctx w; client := client w; healthTimer := healthTimer w; cleanups := cleanups w;
     heap := heap w; timers := timers w; host := host w; host_calls := host_calls w;
     logs := logs w; vault := v; requests := reqs; ticks := ticks w |}.

Definition set_ticks (v : nat) (w : World) : World :=
  {| ctx := ctx w; client := client w; healthTimer := healthTimer w; cleanups := cleanups w;
     heap := heap w; timers := timers w; host := host w; host_calls := host_calls w;
     logs := logs w; vault := vault w; requests := requests w; ticks := v |}.

(** ** Computations *)

Definition M (A : Type) : Type := World -> Result A * World.

Definition ret {A : Type} (a : A) : M A := fun w => (Ok a, w).

Definition throw {A : Type} (e : Exn) : M A := fun w => (Throw e, w).

Definition bind {A B : Type} (m : M A) (k : A -> M B) : M B :=
  fun w =>
    match m w with
    | (Ok a, w') => k a w'
    | (Throw e, w') => (Throw e, w')
    end.

(** [try { m } catch (error) { handler }] *)
Definition try_catch {A : Type} (m : M A) (handler : Exn -> M A) : M A :=
  fun w =>
    match m w with
    | (Ok a, w') => (Ok a, w')
    | (Throw e, w') => handler e w'
    end.

End Worlds.

Arguments World E : clear implicits.
Arguments M E A : clear implicits.

Notation "'let!' x ':=' m 'in' k" := (bind m (fun x => k))
  (at level 10, x name, m at level 100, k at level 200) : js_scope.
Notation "m ';;' k" := (bind m (fun _ => k))
  (at level 100, k at level 200, right associativity) : js_scope.
Local Open Scope js_scope.

Section Primitives.

Context {E : Env}.

(** [Promise.all(items.map(f))]: every task runs, in the order of the
    items; the result keeps that order, and a rejection of one task
    rejects the whole without stopping the others. *)
Fixpoint promise_all_map {A B : Type} (f : A -> M E B) (items : list A) : M E (list B) :=
  match items with
  | [] => ret []
  | a :: rest =>
      fun w =>
        match f a w with
        | (Ok b, w1) =>
            match promise_all_map f rest w1 with
            | (Ok bs, w2) => (Ok (b :: bs), w2)
            | (Throw e, w2) => (Throw e, w2)
            end
        | (Throw e, w1) => (Throw e, snd (promise_all_map f rest w1))
        end
  end.

(** [for (const x of items) body(x)] *)
Fixpoint for_of {A : Type} (items : list A) (body : A -> M E unit) : M E unit :=
  match items with
  | [] => ret tt
  | a :: rest => body a;; for_of rest body
  end.

(** Reading and assigning a variable of the world. *)
Definition gets {A : Type} (var : World E -> A) : M E A := fun w => (Ok (var w), w).
Definition modify (assign : World E -> World E) : M E unit := fun w => (Ok tt, assign w).

(** ** Primitives of the environment *)

(** [fetch(url, init)]: the request reaches the server, which answers or
    not. *)
Definition fetch (req : Request) : M E (Response (Score E)) :=
  fun w =>
    let '(outcome, s) := serve E (vault w) req in
    let w' := set_vault s (requests w ++ [req]) w in
    match outcome with
    | NetworkError e => (Throw e, w')
    | Responded res => (Ok res, w')
    end.

(** A call of the library that returns or throws and touches nothing. *)
Definition library {A : Type} (outcome : Result A) : M E A := fun w => (outcome, w).

(** [await res.json()] read at one of the body's types. *)
Definition json {A : Type} (parsed : Result A) : M E A :=
  match parsed with
  | Ok a => ret a
  | Throw e => throw e
  end.

(** [new Date()] *)
Definition new_Date : M E Date :=
  fun w => (Ok (clock E (ticks w)), set_ticks (S (ticks w)) w).

(** [clearInterval(t)] *)
Definition clearInterval (t : TimerId) : M E unit :=
  fun w => (Ok tt, set_timers (List.filter (fun t' => negb (Nat.eqb t' t)) (timers w)) w).

(** A call of the host: recorded, and it returns or throws as the host
    decides. *)
Definition call_host (c : HostCall) : M E unit :=
  fun w =>
    let '(thrown, h) := host_call E (host w) c in
    let w' := set_host h (host_calls w ++ [c]) w in
    match thrown with
    | Some e => (Throw e, w')
    | None => (Ok tt, w')
    end.

Definition null_access (property : string) : Exn :=
  JsError "TypeError" ("Cannot read properties of null (reading '" +:+ property +:+ "')").

(** Reading a field of a client object.  A reference that denotes no
    object does not arise in a run; the model throws there. *)
Definition deref (this : ClientRef) : M E ObsidianClient :=
  fun w =>
    match heap w !! this with
    | Some o => (Ok o, w)
    | None => (Throw (JsError "ReferenceError" "no such object"), w)
    end.

(** [this.connected = value] *)
Definition assign_connected (this : ClientRef) (value : bool) : M E unit :=
  let! o := deref this in
  fun w =>
    (Ok tt,
     set_heap (<[this := {| baseUrl := baseUrl o; headers := headers o; connected := value |}]>
                 (heap w)) w).

End Primitives.

(** ** obsidian-client.ts: class ObsidianClient *)

Module Client.
Section Client.

Context {E : Env}.

Definition new_ObsidianClient (port : Z) (apiKey : string) : M E ClientRef :=
  fun w =>
    (Ok (length (heap w)),
     set_heap (heap w ++ [{| baseUrl := "http://127.0.0.1:" +:+ decimal port;
                             headers := [("Authorization", "Bearer " +:+ apiKey);
                                         ("Content-Type", "application/json")];
                             connected := false |}]) w).

Definition isConnected (this : ClientRef) : M E bool :=
  let! o := deref this in ret (connected o).

Definition ping (this : ClientRef) : M E bool :=
  try_catch
    (let! o := deref this in
     let! res := fetch {| req_method := GET; req_url := baseUrl o +:+ "/";
                          req_query := []; req_headers := headers o; req_body := None |} in
     assign_connected this (ok_status res);;
     isConnected this)
    (fun _ => assign_connected this false;; ret false).

Definition request_failed (what : string) (res : Response (Score E)) : Exn :=
  JsError "Error" (what +:+ ": " +:+ decimal (status res) +:+ " " +:+ statusText res).

Definition quoted (s : string) : string := dquote +:+ s +:+ dquote.

Definition read (this : ClientRef) (path : string) : M E ObsidianNote :=
  let! o := deref this in
  let! res := fetch {| req_method := GET;
                       req_url := baseUrl o +:+ "/vault/" +:+ encodeURIComponent path;
                       req_query := [];
                       req_headers := set_header "Accept" "application/json" (headers o);
                       req_body := None |} in
  if negb (ok_status res)
  then throw (request_failed ("Failed to read note " +:+ quoted path) res)
  else json (as_note (body res)).

Definition write (this : ClientRef) (path content : string) : M E unit :=
  let! o := deref this in
  let! res := fetch {| req_method := PUT;
                       req_url := baseUrl o +:+ "/vault/" +:+ encodeURIComponent path;
                       req_query := [];
                       req_headers := set_header "Content-Type" "text/markdown" (headers o);
                       req_body := Some content |} in
  if negb (ok_status res)
  then throw (request_failed ("Failed to write note " +:+ quoted path) res)
  else ret tt.

Definition append (this : ClientRef) (path content : string) : M E unit :=
  let! o := deref this in
  let! res := fetch {| req_method := POST;
                       req_url := baseUrl o +:+ "/vault/" +:+ encodeURIComponent path;
                       req_query := [];
                       req_headers := set_header "Content-Type" "text/markdown" (headers o);
                       req_body := Some content |} in
  if negb (ok_status res)
  then throw (request_failed ("Failed to append to note " +:+ quoted path) res)
  else ret tt.

(** [search(query, contextLength = 200)]: [None] is the omitted argument.
    The URL is built with [new URL], which throws on a base URL it cannot
    parse, before anything is sent; [url.toString()] is the href, and the
    two search parameters set on it are kept in [req_query]. *)
Definition search (this : ClientRef) (query : string) (contextLength : option Z)
    : M E (list (ObsidianSearchResult (Score E))) :=
  let contextLength := default 200 contextLength in
  let! o := deref this in
  let! url := library (new_URL (baseUrl o +:+ "/search/simple/")) in
  let! res := fetch {| req_method := GET;
                       req_url := url;
                       req_query := [("query", query); ("contextLength", decimal contextLength)];
                       req_headers := headers o;
                       req_body := None |} in
  if negb (ok_status res)
  then throw (JsError "Error" ("Search failed: " +:+ decimal (status res) +:+ " " +:+ statusText res))
  else json (as_results (body res)).

(** [list(folder = "")] *)
Definition list (this : ClientRef) (folder : option string) : M E (list string) :=
  let folder := default EmptyString folder in
  let path := if truthy folder then encodeURIComponent folder +:+ "/" else EmptyString in
  let! o := deref this in
  let! res := fetch {| req_method := GET;
                       req_url := baseUrl o +:+ "/vault/" +:+ path;
                       req_query := [];
                       req_headers := headers o;
                       req_body := None |} in
  if negb (ok_status res)
  then throw (request_failed ("Failed to list folder " +:+ quoted folder) res)
  else
    let! files := json (as_listing (body res)) in
    ret (default [] files).

End Client.
End Client.

(** ** a2a-tools.ts: the tool adapter *)

Module Tools.

Record ContentItem : Type := { type : string; text : string }.

(** [ToolResult]: one text item, and the error flag when it is set. *)
Record ToolResult : Type := { content : list ContentItem; isError : option bool }.

(** The argument objects, at the types the handlers cast them to
    ([write_path] and [write_content] are the fields [path] and [content]
    of the write and append tools). *)
Record SearchArgs : Type := { query : string; limit : option Z }.
Record ReadArgs : Type := { path : string }.
Record WriteArgs : Type := { write_path : string; write_content : string }.
Record ListArgs : Type := { folder : option string }.

(** The argument of a handler is declared [unknown]: besides an argument
    object it may be [undefined] (also when the handler is called with
    nothing) or [null]. *)
Inductive Missing : Type := IsUndefined | IsNull.

Inductive Arg (A : Type) : Type :=
| Absent (v : Missing)
| Given (a : A).
Arguments Absent {A} v.
Arguments Given {A} a.

(** A call of one of the five tools.  The list tool reads [args ?? {}],
    which makes no difference between [undefined] and [null]: there [None]
    stands for both. *)
Inductive ToolCall : Type :=
| obsidian_search (args : Arg SearchArgs)
| obsidian_read (args : Arg ReadArgs)
| obsidian_write (args : Arg WriteArgs)
| obsidian_append (args : Arg WriteArgs)
| obsidian_list (args : option ListArgs).

(** What destructuring [undefined] or [null] throws; the text is the
    runtime's, and names the first property of the pattern. *)
Definition cannot_destructure (property : string) (v : Missing) : Exn :=
  JsError "TypeError"
    ("Cannot destructure property '" +:+ property +:+ "' of 'args' as it is "
     +:+ match v with
         | IsUndefined => "undefined"
         | IsNull => "null"
         end +:+ ".").

Definition tool_name (call : ToolCall) : string :=
  match call with
  | obsidian_search _ => "obsidian.search"
  | obsidian_read _ => "obsidian.read"
  | obsidian_write _ => "obsidian.write"
  | obsidian_append _ => "obsidian.append"
  | obsidian_list _ => "obsidian.list"
  end.

Section Tools.

Context {E : Env}.

Definition ok (data : Json (Score E)) : ToolResult :=
  {| content := [{| type := "text"; text := stringify (show_score E) data |}];
     isError := None |}.

Definition err (error : Exn) : ToolResult :=
  {| content := [{| type := "text"; text := error_message error |}];
     isError := Some true |}.

(** [r.matches[0]?.context ?? ""] *)
Definition first_context (r : ObsidianSearchResult (Score E)) : string :=
  match matches r with
  | m :: _ => context m
  | [] => EmptyString
  end.

(** [{ path: r.filename, score: r.score, context: ... }] *)
Definition search_item (r : ObsidianSearchResult (Score E)) : Json (Score E) :=
  JObj [("path", JStr (filename r)); ("score", JNum (score r));
        ("context", JStr (first_context r))].

(** [const { property, ... } = args], the first statement of a handler,
    outside its [try]. *)
Definition destructure {A : Type} (property : string) (args : Arg A) : M E A :=
  match args with
  | Given a => ret a
  | Absent v => throw (cannot_destructure property v)
  end.

Definition search_handler (client : ClientRef) (args : Arg SearchArgs) : M E ToolResult :=
  let! args := destructure "query" args in
  let query := query args in
  let limit := default 5 (limit args) in
  try_catch
    (let! results := Client.search client query None in
     ret (ok (JArr (map search_item (slice 0 limit results)))))
    (fun error => ret (err error)).

Definition read_handler (client : ClientRef) (args : Arg ReadArgs) : M E ToolResult :=
  let! args := destructure "path" args in
  let path := path args in
  try_catch
    (let! note := Client.read client path in
     ret (ok (JObj [("path", JStr (note_path note)); ("content", JStr (note_content note))])))
    (fun error => ret (err error)).

Definition write_handler (client : ClientRef) (args : Arg WriteArgs) : M E ToolResult :=
  let! args := destructure "path" args in
  let path := write_path args in
  let content := write_content args in
  try_catch
    (Client.write client path content;;
     ret (ok (JObj [("success", JBool true); ("path", JStr path)])))
    (fun error => ret (err error)).

Definition append_handler (client : ClientRef) (args : Arg WriteArgs) : M E ToolResult :=
  let! args := destructure "path" args in
  let path := write_path args in
  let content := write_content args in
  try_catch
    (Client.append client path content;;
     ret (ok (JObj [("success", JBool true); ("path", JStr path)])))
    (fun error => ret (err error)).

Definition list_handler (client : ClientRef) (args : option ListArgs) : M E ToolResult :=
  let folder := default EmptyString (args ≫= folder) in
  try_catch
    (let! files := Client.list client (Some folder) in
     ret (ok (JObj [("folder", JStr folder); ("files", JArr (map JStr files))])))
    (fun error => ret (err error)).

(** [buildA2ATools(client)]: the handler of the tool a call names. *)
Definition buildA2ATools (client : ClientRef) (call : ToolCall) : M E ToolResult :=
  match call with
  | obsidian_search args => search_handler client args
  | obsidian_read args => read_handler client args
  | obsidian_write args => write_handler client args
  | obsidian_append args => append_handler client args
  | obsidian_list args => list_handler client args
  end.

End Tools.
End Tools.

(** ** index.ts: the plugin *)

Module Plugin.

(** The field of the inbound message the provider reads. *)
Record MessageInfo : Type := { content : option string }.

Record ContextMetadata : Type := { source : string; priority : Z; noteCount : Z }.

(** The context block a provider returns. *)
Record ContextPart : Type := {
  part_content : string;
  role : string;
  metadata : ContextMetadata
}.

Record HistoryEntry : Type := { entry_role : string; entry_content : string }.

Record SessionDestroyEvent : Type := { session : string; history : list HistoryEntry }.

(** [cfg.injectContext !== "always"] *)
Definition not_always (mode : option string) : bool :=
  match mode with
  | Some s => negb (String.eqb s "always")
  | None => true
  end.

(** [cfg.sessionArchive !== true && String(cfg.sessionArchive) !== "true"] *)
Definition archive_off (setting : Prim) : bool :=
  negb (match setting with Boolean true => true | _ => false end)
  && negb (String.eqb (to_string setting) "true").

Definition notes_heading : string := "## Relevant notes from your Obsidian vault:".
Definition rule : string := nl +:+ nl +:+ "---" +:+ nl +:+ nl.
Definition could_not_read : string := "*(could not read)*".

Section Plugin.

Context {E : Env}.

(** [getCtx().getConfig<ObsidianConfig>()]: the configuration as the host
    holds it now. *)
Definition getConfig : M E ObsidianConfig :=
  fun w =>
    match ctx w with
    | Some HostContext => (Ok (host_config E (host w)), w)
    | None => (Throw (null_access "getConfig"), w)
    end.

(** [getClient().method(...)]: the receiver of the call. *)
Definition getClient (method : string) : M E ClientRef :=
  fun w =>
    match client w with
    | Some c => (Ok c, w)
    | None => (Throw (null_access method), w)
    end.

(** [ctx?.log.info(message)] and [ctx?.log.warn(message)] *)
Definition log (level : LogLevel) (message : string) : M E unit :=
  fun w =>
    match ctx w with
    | Some HostContext => (Ok tt, set_logs (logs w ++ [(level, message)]) w)
    | None => (Ok tt, w)
    end.

(** [ctx?.call(...)] *)
Definition if_ctx (call : M E unit) : M E unit :=
  fun w =>
    match ctx w with
    | Some HostContext => call w
    | None => (Ok tt, w)
    end.

(** *** The context provider *)

(** The task started for one search hit. *)
Definition note_section (r : ObsidianSearchResult (Score E)) : M E string :=
  try_catch
    (let! c := getClient "read" in
     let! note := Client.read c (filename r) in
     ret ("### " +:+ filename r +:+ nl +:+ string_slice 0 2000 (note_content note)))
    (fun _ => ret ("### " +:+ filename r +:+ nl +:+ could_not_read)).

Definition context_block (top : list (ObsidianSearchResult (Score E))) (notes : list string)
    : ContextPart :=
  {| part_content := notes_heading +:+ nl +:+ nl +:+ join rule notes;
     role := "system";
     metadata := {| source := "obsidian"; priority := 30;
                    noteCount := Z.of_nat (length top) |} |}.

Definition getContext (_session : string) (message : MessageInfo) : M E (option ContextPart) :=
  let! cfg := getConfig in
  if not_always (injectContext cfg) then ret None else
  let! c := getClient "isConnected" in
  let! isconnected := Client.isConnected c in
  if negb isconnected then ret None else
  match content message with
  | None => ret None
  | Some query =>
      if negb (truthy (trim query)) then ret None else
      try_catch
        (let! c := getClient "search" in
         let! results := Client.search c query None in
         let top := slice 0 (default 3 (maxContextNotes cfg)) results in
         if (length top =? 0)%nat then ret None else
         let! notes := promise_all_map note_section top in
         ret (Some (context_block top notes)))
        (fun error =>
           log Warn ("Obsidian context fetch failed: " +:+ error_message error);;
           ret None)
  end.

(** *** The session:destroy handler *)

Definition archive_path (cfg : ObsidianConfig) (date session : string) : string :=
  default "WOPR" (vaultPath cfg) +:+ "/sessions/" +:+ date +:+ "-" +:+ session +:+ ".md".

Definition archive_lines (history : list HistoryEntry) : string :=
  join (nl +:+ nl)
    (map (fun m => "**" +:+ entry_role m +:+ ":** " +:+ entry_content m) history).

Definition archive_document (session stamp lines : string) : string :=
  "# Session " +:+ session +:+ nl +:+ "*" +:+ stamp +:+ "*" +:+ nl +:+ nl +:+ lines.

Definition on_session_destroy (payload : SessionDestroyEvent) : M E unit :=
  let session := session payload in
  let history := history payload in
  let! cfg := getConfig in
  if archive_off (sessionArchive cfg) then ret tt else
  let! held := gets client in
  match held with
  | None => ret tt
  | Some c =>
      let! isconnected := Client.isConnected c in
      if negb isconnected then ret tt else
      try_catch
        (let! today := new_Date in
         let date := string_slice 0 10 (toISOString today) in
         let path := archive_path cfg date session in
         let lines := archive_lines history in
         let! c := getClient "write" in
         let! now := new_Date in
         Client.write c path (archive_document session (toISOString now) lines);;
         log Info ("Session archived to vault: " +:+ path))
        (fun error => log Warn ("Failed to archive session: " +:+ error_message error))
  end.

(** *** The extension object *)

(** [search: (query, limit = 10) => ...]: [None] is the omitted limit. *)
Definition extension_search (query : string) (limit : option Z)
    : M E (list (ObsidianSearchResult (Score E))) :=
  let limit := default 10 limit in
  let! c := getClient "search" in
  let! r := Client.search c query None in
  ret (slice 0 limit r).

Definition extension_read (path : string) : M E ObsidianNote :=
  let! c := getClient "read" in Client.read c path.

Definition extension_write (path content : string) : M E unit :=
  let! c := getClient "write" in Client.write c path content.

Definition extension_append (path content : string) : M E unit :=
  let! c := getClient "append" in Client.append c path content.

Definition extension_list (folder : option string) : M E (list string) :=
  let! c := getClient "list" in Client.list c folder.

(** [isConnected: () => client?.isConnected() ?? false] *)
Definition extension_isConnected : M E bool :=
  let! held := gets client in
  match held with
  | Some c => Client.isConnected c
  | None => ret false
  end.

(** *** shutdown *)

Definition shutdown : M E unit :=
  (let! timer := gets healthTimer in
   match timer with
   | Some t => clearInterval t;; modify (set_healthTimer None)
   | None => ret tt
   end);;
  (let! registry := gets cleanups in
   for_of registry (fun cleanup =>
     try_catch (call_host (Unsubscribe cleanup)) (fun _ => ret tt)));;
  modify (set_cleanups []);;
  if_ctx (call_host (UnregisterConfigSchema "wopr-plugin-obsidian"));;
  if_ctx (call_host (UnregisterContextProvider "obsidian"));;
  if_ctx (call_host (UnregisterExtension "obsidian"));;
  modify (set_client None);;
  modify (set_ctx None).

End Plugin.
End Plugin.

(** ** index.ts: the two hooks [init] installs besides the session handler *)

Module Hooks.

Import Plugin.

(** The event of a semantic search: the query, and the collection of results
    the host shares with every listener (absent in some events). *)
Record MemoryResult (Score : Type) : Type := {
  memory_content : string;
  memory_source : string;
  memory_score : Score
}.
Arguments memory_content {Score} _.
Arguments memory_source {Score} _.
Arguments memory_score {Score} _.

Record MemorySearchEvent (Score : Type) : Type := {
  memory_query : string;
  memory_results : option (list (MemoryResult Score))
}.
Arguments memory_query {Score} _.
Arguments memory_results {Score} _.

(** [now !== lastConnected], for a boolean [now] and a [lastConnected] that
    starts as [null]. *)
Definition differs (now : bool) (lastConnected : option bool) : bool :=
  match lastConnected with
  | Some last => negb (Bool.eqb now last)
  | None => true
  end.

Section Hooks.

Context {E : Env}.

(** One tick of the health check set up by [setInterval].  The variable
    [lastConnected] of the enclosing [init] is passed in and handed back. *)
Definition health_tick (lastConnected : option bool) : M E (option bool) :=
  let! held := gets client in
  match held with
  | None => ret lastConnected
  | Some c =>
      let! now := Client.ping c in
      if differs now lastConnected
      then
        log (if now then Info else Warn)
          ("Obsidian vault " +:+ (if now then "connected" else "disconnected"));;
        ret (Some now)
      else ret lastConnected
  end.

(** [{ content: r.matches[0]?.context ?? r.filename,
       source: `obsidian:${r.filename}`, score: r.score }] *)
Definition memory_entry (r : ObsidianSearchResult (Score E)) : MemoryResult (Score E) :=
  {| memory_content := match matches r with
                       | m :: _ => context m
                       | [] => filename r
                       end;
     memory_source := "obsidian:" +:+ filename r;
     memory_score := score r |}.

(** The memory:search handler.  It pushes onto the shared collection; the
    event as the handler leaves it is the result. *)
Definition on_memory_search (payload : MemorySearchEvent (Score E))
    : M E (MemorySearchEvent (Score E)) :=
  let! held := gets client in
  match held with
  | None => ret payload
  | Some c =>
      let! isconnected := Client.isConnected c in
      if negb isconnected then ret payload else
      try_catch
        (let! c := getClient "search" in
         let! results := Client.search c (memory_query payload) (Some 150) in
         match memory_results payload with
         | None => ret payload
         | Some shared =>
             ret {| memory_query := memory_query payload;
                    memory_results := Some (shared ++ map memory_entry (slice 0 3 results))%list |}
         end)
        (fun _ => ret payload)
  end.

End Hooks.
End Hooks.

(** ** Reading a percent-encoded segment back *)

Module Uri.

Definition hex_value (c : ascii) : N :=
  let n := N_of_ascii c in
  if (n <? 58)%N then (n - 48)%N else (n - 55)%N.

Definition byte_of (hi lo : ascii) : N := (16 * hex_value hi + hex_value lo)%N.

(** The inverse of [encodeURIComponent] on the strings it produces: an
    escape below 128 is one code unit, the two-byte escapes that start with
    C2 or C3 are the code units from 128 to 255. *)
Fixpoint decode_segment (s : string) : string :=
  match s with
  | EmptyString => EmptyString
  | String c rest =>
      if Ascii.eqb c "%" then
        match rest with
        | String hi (String lo rest1) =>
            let b := byte_of hi lo in
            if (b <? 128)%N then String (ascii_of_N b) (decode_segment rest1)
            else
              match rest1 with
              | String _ (String hi2 (String lo2 rest2)) =>
                  String (ascii_of_N ((b - 192) * 64 + (byte_of hi2 lo2 - 128)))
                    (decode_segment rest2)
              | _ => String (ascii_of_N b) (decode_segment rest1)
              end
        | _ => String c (decode_segment rest)
        end
      else String c (decode_segment rest)
  end.

End Uri.

(** ** A concrete environment, for running the model *)

Module Sample.

(** A host that holds a configuration, lets the unsubscribe closures
    listed in [failing_handles] throw, and lets the unregistration of the
    config schema throw when [schema_locked] is set; with [relents] the
    lock is gone once it has made an unregistration throw. *)
Record SampleHost : Type := {
  sample_config : ObsidianConfig;
  failing_handles : list Handle;
  schema_locked : bool;
  relents : bool
}.

Definition after_refusal (h : SampleHost) : SampleHost :=
  {| sample_config := sample_config h; failing_handles := failing_handles h;
     schema_locked := negb (relents h); relents := relents h |}.

Definition sample_host_call (h : SampleHost) (c : HostCall) : option Exn * SampleHost :=
  match c with
  | Unsubscribe n =>
      if existsb (Nat.eqb n) (failing_handles h)
      then (Some (JsOther "listener already removed"), h)
      else (None, h)
  | UnregisterConfigSchema _ =>
      if schema_locked h
      then (Some (JsError "Error" "schema registry is locked"), after_refusal h)
      else (None, h)
  | _ => (None, h)
  end.

(** A server that plays a script: one outcome per request, in order, and
    a refused connection once the script is over.  Scores are integral. *)
Definition refused : FetchOutcome Z := NetworkError (JsError "TypeError" "fetch failed").

Definition play (script : list (FetchOutcome Z)) (_ : Request)
    : FetchOutcome Z * list (FetchOutcome Z) :=
  match script with
  | [] => (refused, [])
  | outcome :: rest => (outcome, rest)
  end.

Definition env : Env :=
  {| Score := Z;
     show_score := decimal;
     ServerState := list (FetchOutcome Z);
     serve := play;
     HostState := SampleHost;
     host_config := sample_config;
     host_call := sample_host_call;
     clock := fun n => {| year := 2026; month := 11; day := 3; hours := 7; minutes := 5;
                          seconds := 9; milliseconds := Z.of_nat n |} |}.

Definition not_json {A : Type} : Result A := Throw (JsError "SyntaxError" "Unexpected end of JSON input").

Definition empty_body : Body Z :=
  {| as_note := not_json; as_results := not_json; as_listing := not_json |}.

Definition respond (code : Z) (reason : string) (b : Body Z) : FetchOutcome Z :=
  Responded {| status := code; statusText := reason; body := b |}.

Definition note_body (n : ObsidianNote) : Body Z :=
  {| as_note := Ok n; as_results := not_json; as_listing := not_json |}.

Definition results_body (rs : list (ObsidianSearchResult Z)) : Body Z :=
  {| as_note := not_json; as_results := Ok rs; as_listing := not_json |}.

Definition listing_body (files : option (list string)) : Body Z :=
  {| as_note := not_json; as_results := not_json; as_listing := Ok files |}.

Definition hit (name : string) (points : Z) (snippets : list string) : ObsidianSearchResult Z :=
  {| filename := name; score := points;
     matches := map (fun s => {| match_start := 0; match_end := 1; context := s |}) snippets |}.

Definition note (name text : string) : ObsidianNote :=
  {| note_path := name; note_content := text;
     stat := {| ctime := 0; mtime := 0; size := Z.of_nat (String.length text) |} |}.

Definition config (mode : option string) (archive : Prim) : ObsidianConfig :=
  {| apiKey := Some "key"; port := Some 27123; vaultPath := Some "WOPR";
     injectContext := mode; maxContextNotes := Some 2; sessionArchive := archive |}.

Definition the_client (flag : bool) : ObsidianClient :=
  {| baseUrl := "http://127.0.0.1:27123";
     headers := [("Authorization", "Bearer key"); ("Content-Type", "application/json")];
     connected := flag |}.

(** The plugin after [init]: context and client held, the poller running
    as timer 7, two event subscriptions to undo. *)
Definition running (h : SampleHost) (flag : bool) (script : list (FetchOutcome Z)) : World env :=
  @Build_World env (Some HostContext) (Some 0%nat) (Some 7%nat) [1%nat; 2%nat]
    [the_client flag] [7%nat] h [] [] script [] 0%nat.

Definition calm_host (mode : option string) (archive : Prim) : SampleHost :=
  {| sample_config := config mode archive; failing_handles := []; schema_locked := false;
     relents := false |}.

Definition locked_host : SampleHost :=
  {| sample_config := config (Some "always") (Boolean false);
     failing_handles := [1%nat]; schema_locked := true; relents := false |}.

Definition three_hits : list (ObsidianSearchResult Z) :=
  [hit "Notes/A.md" 9 ["foo context"]; hit "Notes/B.md" 7 []; hit "Notes/C.md" 5 ["c"]].

(** Worlds and inputs used below. *)
Definition hello : Plugin.MessageInfo := {| Plugin.content := Some "meeting notes" |}.

Definition found : FetchOutcome Z := respond 200 "OK" (results_body three_hits).

(** Archiving on, client connected, server down. *)
Definition idle : World env := running (calm_host (Some "always") (Str "true")) true [].

(** A search that finds three notes; the first is read, the read of the
    second fails. *)
Definition serving : World env :=
  running (calm_host (Some "always") Null) true
    [found; respond 200 "OK" (note_body (note "Notes/A.md" "alpha"));
     respond 500 "Internal Server Error" empty_body].

Definition searching : World env := running (calm_host None Null) true [found].

(** The schema registry refuses the unregistration. *)
Definition locked : World env := running locked_host true [].

Definition teardown : Plugin.SessionDestroyEvent :=
  {| Plugin.session := "s1";
     Plugin.history := [{| Plugin.entry_role := "user"; Plugin.entry_content := "hi" |};
                        {| Plugin.entry_role := "assistant";
                           Plugin.entry_content := "hello" |}] |}.

Definition two_of_foo : Tools.SearchArgs := {| Tools.query := "foo"; Tools.limit := Some 2 |}.

(** A limit below zero. *)
Definition all_but_last : Tools.SearchArgs :=
  {| Tools.query := "foo"; Tools.limit := Some (-1) |}.

(** The setting [maxContextNotes] below zero; the search finds three
    notes, and the reads of the first two succeed. *)
Definition negative_host : SampleHost :=
  {| sample_config :=
       {| apiKey := Some "key"; port := Some 27123; vaultPath := Some "WOPR";
          injectContext := Some "always"; maxContextNotes := Some (-1);
          sessionArchive := Null |};
     failing_handles := []; schema_locked := false; relents := false |}.

Definition trimming : World env :=
  running negative_host true
    [found; respond 200 "OK" (note_body (note "Notes/A.md" "alpha"));
     respond 200 "OK" (note_body (note "Notes/B.md" "beta"))].

(** The schema registry refuses the unregistration once. *)
Definition relenting_host : SampleHost :=
  {| sample_config := config (Some "always") (Boolean false);
     failing_handles := []; schema_locked := true; relents := true |}.

Definition thawing : World env := running relenting_host true [].

End Sample.

(** More worlds and inputs, for the further properties. *)

Module MoreSamples.

Import Sample.

(** The server answers 404 to whatever comes first. *)
Definition missing : World env :=
  running (calm_host None Null) true [respond 404 "Not Found" empty_body].

(** The server answers with a note. *)
Definition holding : World env :=
  running (calm_host None Null) true
    [respond 200 "OK" (note_body (note "Notes/Test.md" "hello"))].

(** The server lists a folder without a [files] field. *)
Definition bare : World env :=
  running (calm_host None Null) true [respond 200 "OK" (listing_body None)].

(** Two answers to a ping: up, then up again. *)
Definition steady : World env :=
  running (calm_host None Null) false
    [respond 200 "OK" empty_body; respond 200 "OK" empty_body].

(** A client built for port 70000, which is no port; the server would
    answer a search. *)
Definition far_client : ObsidianClient :=
  {| baseUrl := "http://127.0.0.1:70000";
     headers := [("Authorization", "Bearer key"); ("Content-Type", "application/json")];
     connected := true |}.

Definition astray : World env :=
  @Build_World env (Some HostContext) (Some 0%nat) (Some 7%nat) [1%nat; 2%nat]
    [far_client] [7%nat] (calm_host (Some "always") Null) [] [] [found] [] 0%nat.

Definition recall : Hooks.MemorySearchEvent Z :=
  {| Hooks.memory_query := "foo";
     Hooks.memory_results :=
       Some [{| Hooks.memory_content := "kept"; Hooks.memory_source := "core";
                Hooks.memory_score := 1 |}] |}.

End MoreSamples.

(** ** Vocabulary of the statements *)

Section Vocabulary.

Context {E : Env}.

(** [w'] differs from [w] at most in the server and the requests sent. *)
Definition network_only (w w' : World E) : Prop :=
  w' = set_vault (vault w') (requests w') w.

(** The liveness request of a client object. *)
Definition ping_request (o : ObsidianClient) : Request :=
  {| req_method := GET; req_url := baseUrl o +:+ "/"; req_query := [];
     req_headers := headers o; req_body := None |}.

(** What the liveness request came to. *)
Definition alive (outcome : FetchOutcome (Score E)) : bool :=
  match outcome with
  | Responded res => ok_status res
  | NetworkError _ => false
  end.

(** The content of a message is absent, empty or white space only. *)
Definition blank (content : option string) : bool :=
  match content with
  | None => true
  | Some s => forallb is_whitespace (list_ascii_of_string s)
  end.

(** The sections the provider builds for the search hits [top], read one
    after the other from the world [w]: a note that is read gives its
    heading and the first 2000 characters of its content, a note whose
    read throws gives its heading and the placeholder. *)
Inductive sections_read (c : ClientRef)
  : list (ObsidianSearchResult (Score E)) -> World E -> list string -> World E -> Prop :=
| sections_none (w : World E) : sections_read c [] w [] w
| sections_note r rest w note w1 notes w2 :
    Client.read c (filename r) w = (Ok note, w1) ->
    sections_read c rest w1 notes w2 ->
    sections_read c (r :: rest) w
      (("### " +:+ filename r +:+ nl +:+ string_slice 0 2000 (note_content note)) :: notes) w2
| sections_placeholder r rest w e w1 notes w2 :
    Client.read c (filename r) w = (Throw e, w1) ->
    sections_read c rest w1 notes w2 ->
    sections_read c (r :: rest) w
      (("### " +:+ filename r +:+ nl +:+ "*(could not read)*") :: notes) w2.

(** The archive setting is the boolean [true] or the string ["true"]. *)
Definition archive_on (setting : Prim) : bool :=
  match setting with
  | Boolean b => b
  | Str s => String.eqb s "true"
  | _ => false
  end.

(** The connectivity flag of the client the plugin holds; [false] when it
    holds none. *)
Definition connected_now (w : World E) : bool :=
  match client w with
  | Some c =>
      match heap w !! c with
      | Some o => connected o
      | None => false
      end
  | None => false
  end.

(** The request that writes [document] at [path] in the vault. *)
Definition write_request (o : ObsidianClient) (path document : string) : Request :=
  {| req_method := PUT;
     req_url := baseUrl o +:+ "/vault/" +:+ encodeURIComponent path;
     req_query := [];
     req_headers := set_header "Content-Type" "text/markdown" (headers o);
     req_body := Some document |}.

(** The host after a sequence of calls, whatever each returned. *)
Definition host_after (h : HostState E) (calls : list HostCall) : HostState E :=
  fold_left (fun s c => snd (host_call E s c)) calls h.

(** The three unregistrations of [shutdown], in source order. *)
Definition unregistrations : list HostCall :=
  [UnregisterConfigSchema "wopr-plugin-obsidian";
   UnregisterContextProvider "obsidian";
   UnregisterExtension "obsidian"].

(** The calls [shutdown] added to the host's record. *)
Definition calls_since (w w' : World E) : list HostCall :=
  drop (length (host_calls w)) (host_calls w').

(** C4 read literally: after [shutdown], whatever failed on the way, the
    poller is stopped, every cleanup was invoked, the registry is empty,
    each of the three unregistrations was made when a context was held,
    and the client reference is released. *)
Definition every_step_ran (w : World E) : Prop :=
  let w' := snd (Plugin.shutdown w) in
  healthTimer w' = None
  /\ (forall t, healthTimer w = Some t -> ~ In t (timers w'))
  /\ (forall h, In h (cleanups w) -> In (Unsubscribe h) (calls_since w w'))
  /\ cleanups w' = []
  /\ (ctx w <> None -> forall u, In u unregistrations -> In u (calls_since w w'))
  /\ client w' = None.

(** The calls made when [calls] are attempted in order from the host [h],
    each only once the one before it returned: the first that throws is
    the last that is made, and what it threw is kept. *)
Fixpoint attempted (h : HostState E) (calls : list HostCall) : list HostCall * option Exn :=
  match calls with
  | [] => ([], None)
  | u :: rest =>
      match host_call E h u with
      | (Some e, _) => ([u], Some e)
      | (None, h') => let '(made, thrown) := attempted h' rest in (u :: made, thrown)
      end
  end.

(** C5 read literally: a second [shutdown] leaves the timer, the cleanup
    registry, the host, the calls made to it and both references as the
    first left them. *)
Definition second_call_unobservable (w : World E) : Prop :=
  let w1 := snd (Plugin.shutdown w) in
  let w2 := snd (Plugin.shutdown w1) in
  healthTimer w2 = healthTimer w1 /\ cleanups w2 = cleanups w1
  /\ host w2 = host w1 /\ host_calls w2 = host_calls w1
  /\ client w2 = client w1 /\ ctx w2 = ctx w1.

(** C2 read literally: a block the provider returns has at most
    [maxContextNotes] sections, 3 for an absent setting. *)
Definition sections_within_bound (session : string) (message : Plugin.MessageInfo)
    (w : World E) : Prop :=
  forall part,
    fst (Plugin.getContext session message w) = Ok (Some part) ->
    exists notes : list string,
      Plugin.part_content part
      = "## Relevant notes from your Obsidian vault:" +:+ nl +:+ nl
        +:+ join (nl +:+ nl +:+ "---" +:+ nl +:+ nl) notes
      /\ Z.of_nat (length notes) <= default 3 (maxContextNotes (host_config E (host w))).

(** C10 read literally: the search of the capability object returns at
    most [limit] results, 10 for an absent limit. *)
Definition extension_within_limit (query : string) (limit : option Z) (w : World E) : Prop :=
  forall found,
    fst (Plugin.extension_search query limit w) = Ok found ->
    Z.of_nat (length found) <= default 10 limit.



(** C9 read literally: when the client's search returns, the payload of
    the search tool holds at most [limit] items, 5 for an absent limit. *)
Definition tool_within_limit (c : ClientRef) (args : Tools.SearchArgs) (w : World E) : Prop :=
  forall results w1,
    Client.search c (Tools.query args) None w = (Ok results, w1) ->
    exists shown,
      Tools.buildA2ATools c (Tools.obsidian_search (Tools.Given args)) w
      = (Ok (Tools.ok (E := E) (JArr (map Tools.search_item shown))), w1)
      /\ Z.of_nat (length shown) <= default 5 (Tools.limit args).

End Vocabulary.

(** ** Vocabulary of the further statements *)

Section MoreVocabulary.

Context {E : Env}.

(** The requests of the client's methods, for a client object [o]. *)
Definition read_request (o : ObsidianClient) (path : string) : Request :=
  {| req_method := GET;
     req_url := baseUrl o +:+ "/vault/" +:+ encodeURIComponent path;
     req_query := [];
     req_headers := set_header "Accept" "application/json" (headers o);
     req_body := None |}.

Definition append_request (o : ObsidianClient) (path content : string) : Request :=
  {| req_method := POST;
     req_url := baseUrl o +:+ "/vault/" +:+ encodeURIComponent path;
     req_query := [];
     req_headers := set_header "Content-Type" "text/markdown" (headers o);
     req_body := Some content |}.

(** The URL of a search, as [new URL] reads it, or what it throws. *)
Definition search_url (o : ObsidianClient) : Result string :=
  new_URL (baseUrl o +:+ "/search/simple/").

(** The request of a search.  It is sent when [search_url] is a URL; the
    record holds the text as written otherwise. *)
Definition search_request (o : ObsidianClient) (query : string) (contextLength : Z) : Request :=
  {| req_method := GET;
     req_url := match search_url o with
                | Ok href => href
                | Throw _ => baseUrl o +:+ "/search/simple/"
                end;
     req_query := [("query", query); ("contextLength", decimal contextLength)];
     req_headers := headers o;
     req_body := None |}.

(** What a search sends: its request, or nothing when the URL is
    rejected. *)
Definition search_sent (o : ObsidianClient) (query : string) (contextLength : Z)
    : list Request :=
  match search_url o with
  | Ok _ => [search_request o query contextLength]
  | Throw _ => []
  end.

Definition list_request (o : ObsidianClient) (folder : string) : Request :=
  {| req_method := GET;
     req_url := baseUrl o +:+ "/vault/"
                +:+ (if truthy folder then encodeURIComponent folder +:+ "/" else EmptyString);
     req_query := [];
     req_headers := headers o;
     req_body := None |}.

(** The world after [req] was sent from [w]. *)
Definition sent (req : Request) (w : World E) : World E :=
  set_vault (snd (serve E (vault w) req)) (requests w ++ [req]) w.

(** The text of the error a response with a bad status is turned into. *)
Definition status_text (res : Response (Score E)) : string :=
  decimal (status res) +:+ " " +:+ statusText res.

(** A character that may occur in an encoded segment. *)
Definition segment_char (c : ascii) : bool :=
  uri_unreserved c || Ascii.eqb c "%".

(** Two worlds with the same client objects and the same server. *)
Definition same_vault_side (w1 w2 : World E) : Prop :=
  heap w1 = heap w2 /\ vault w1 = vault w2.

(** [w'] differs from [w] at most in the server, the requests sent and the
    host's log. *)
Definition network_and_log_only (w w' : World E) : Prop :=
  w' = set_logs (logs w') (set_vault (vault w') (requests w') w).

(** The log entry of a health tick that saw a change. *)
Definition transition_entry (now : bool) : LogLevel * string :=
  (if now then Info else Warn,
   "Obsidian vault " +:+ (if now then "connected" else "disconnected")).

Definition is_unsubscribe (c : HostCall) : bool :=
  match c with
  | Unsubscribe _ => true
  | _ => false
  end.

(** [w'] has the client objects, the server, the requests, the log and
    the clock of [w]. *)
Definition host_side_only (w w' : World E) : Prop :=
  heap w' = heap w /\ vault w' = vault w /\ requests w' = requests w
  /\ logs w' = logs w /\ ticks w' = ticks w.

(** A computation that leaves all of these alone, however it ends. *)
Definition keeps_vault_side {A : Type} (m : M E A) : Prop :=
  forall w : World E, host_side_only w (snd (m w)).

End MoreVocabulary.

(** * Properties *)

(** ** The library functions *)

Section LibraryFacts.

Lemma pair_of_fst {A B : Type} (p : A * B) (a : A) : fst p = a -> p = (a, snd p).
Proof. destruct p as [x y]. simpl. now intros ->. Qed.

Lemma relative_index_range (len i : Z) :
  0 <= len -> 0 <= relative_index len i <= len.
Proof.
  intros Hlen. unfold relative_index.
  destruct (Z.ltb_spec i 0); lia.
Qed.

Lemma slice_from_start {A : Type} (n : Z) (l : list A) :
  slice 0 n l = take (Z.to_nat (relative_index (Z.of_nat (length l)) n)) l.
Proof.
  unfold slice. cbn [relative_index]. 
  replace (relative_index (Z.of_nat (length l)) 0) with 0.
  - now rewrite Z.sub_0_r.
  - unfold relative_index. simpl. lia.
Qed.

Lemma slice_prefix {A : Type} (n : Z) (l : list A) :
  slice 0 n l `prefix_of` l.
Proof. rewrite slice_from_start. apply prefix_take. Qed.

Lemma slice_at_most {A : Type} (n : Z) (l : list A) :
  0 <= n -> Z.of_nat (length (slice 0 n l)) <= n.
Proof.
  intros Hn. rewrite slice_from_start, length_take.
  unfold relative_index. destruct (Z.ltb_spec n 0); lia.
Qed.

Lemma slice_all {A : Type} (n : Z) (l : list A) :
  Z.of_nat (length l) <= n -> slice 0 n l = l.
Proof.
  intros Hn. rewrite slice_from_start. apply take_ge.
  unfold relative_index. destruct (Z.ltb_spec n 0); lia.
Qed.

Lemma slice_cut {A : Type} (n : Z) (l : list A) :
  0 <= n <= Z.of_nat (length l) -> slice 0 n l = take (Z.to_nat n) l.
Proof.
  intros Hn. rewrite slice_from_start. f_equal. 
  unfold relative_index. destruct (Z.ltb_spec n 0); lia.
Qed.

(** [slice(0, n)] for a count: the first [n] items. *)
Lemma slice_take {A : Type} (n : Z) (l : list A) :
  0 <= n -> slice 0 n l = take (Z.to_nat n) l.
Proof.
  intros Hn. rewrite slice_from_start. unfold relative_index.
  destruct (Z.ltb_spec n 0); [lia|].
  destruct (Z.le_ge_cases n (Z.of_nat (length l))).
  - f_equal. lia.
  - rewrite !take_ge by lia. reflexivity.
Qed.

(** [slice(0, n)] for a negative [n]: all but the last [-n] items. *)
Lemma slice_drop_last {A : Type} (n : Z) (l : list A) :
  n < 0 -> slice 0 n l = take (length l - Z.to_nat (- n)) l.
Proof.
  intros Hn. rewrite slice_from_start. unfold relative_index.
  destruct (Z.ltb_spec n 0); [|lia]. f_equal. lia.
Qed.

Lemma slice_length {A : Type} (n : Z) (l : list A) :
  Z.of_nat (length (slice 0 n l))
  = if n <? 0 then Z.max (Z.of_nat (length l) + n) 0 else Z.min n (Z.of_nat (length l)).
Proof.
  rewrite slice_from_start, length_take. unfold relative_index.
  destruct (Z.ltb_spec n 0); lia.
Qed.


Lemma string_of_list_ascii_app (a b : list ascii) :
  string_of_list_ascii (a ++ b) = string_of_list_ascii a +:+ string_of_list_ascii b.
Proof. induction a as [|c a IH]; simpl; [reflexivity | now rewrite IH]. Qed.

Lemma string_length_of_list (l : list ascii) :
  String.length (string_of_list_ascii l) = length l.
Proof. induction l as [|c l IH]; simpl; [reflexivity | now rewrite IH]. Qed.

Lemma string_slice_at_most (n : Z) (s : string) :
  0 <= n -> Z.of_nat (String.length (string_slice 0 n s)) <= n.
Proof.
  intros Hn. unfold string_slice. rewrite string_length_of_list.
  now apply slice_at_most.
Qed.

Lemma string_slice_prefix (n : Z) (s : string) :
  exists rest, s = string_slice 0 n s +:+ rest.
Proof.
  destruct (slice_prefix n (list_ascii_of_string s)) as [rest Hrest].
  exists (string_of_list_ascii rest). unfold string_slice.
  rewrite <- string_of_list_ascii_app, <- Hrest.
  symmetry. apply string_of_list_ascii_of_string.
Qed.

Lemma string_slice_short (n : Z) (s : string) :
  Z.of_nat (String.length s) <= n -> string_slice 0 n s = s.
Proof.
  intros Hn. unfold string_slice. rewrite slice_all.
  - apply string_of_list_ascii_of_string.
  - rewrite <- (string_of_list_ascii_of_string s) in Hn.
    now rewrite string_length_of_list in Hn.
Qed.

(** *** trim: a string trims to the empty string exactly when it holds
    white space only *)

Lemma trim_start_nil (l : list ascii) :
  trim_start l = [] <-> forallb is_whitespace l = true.
Proof.
  induction l as [|c l IH]; simpl; [tauto|].
  destruct (is_whitespace c); simpl; [exact IH|].
  split; discriminate.
Qed.

Lemma trim_start_blank (l : list ascii) :
  forallb is_whitespace (trim_start l) = true <-> forallb is_whitespace l = true.
Proof.
  induction l as [|c l IH]; simpl; [tauto|].
  destruct (is_whitespace c) eqn:Hc; simpl; [exact IH|].
  rewrite Hc. simpl. tauto.
Qed.

Lemma forallb_rev {A : Type} (f : A -> bool) (l : list A) :
  forallb f (rev l) = forallb f l.
Proof.
  induction l as [|a l IH]; simpl; [reflexivity|].
  rewrite forallb_app, IH. simpl. rewrite andb_true_r. apply andb_comm.
Qed.

Lemma trim_falsy (s : string) :
  truthy (trim s) = false <-> forallb is_whitespace (list_ascii_of_string s) = true.
Proof.
  unfold trim, trim_end.
  set (l := list_ascii_of_string s).
  assert (Hempty : forall k : list ascii, truthy (string_of_list_ascii k) = false <-> k = []).
  { intros [|c k]; simpl; split; congruence. }
  rewrite Hempty.
  assert (Hrev : forall k : list ascii, rev k = [] <-> k = []).
  { intros k. split; intros H.
    - apply (f_equal (@rev ascii)) in H. now rewrite rev_involutive in H.
    - now subst. }
  rewrite Hrev, trim_start_nil, forallb_rev. apply trim_start_blank.
Qed.

(** *** String(n) of a number is never the text of a boolean *)

Lemma decimal_not_true (n : Z) : decimal n <> "true".
Proof.
  unfold decimal. destruct (Z.to_int n) as [d|d]; destruct d; discriminate.
Qed.

(** *** The first ten characters of an ISO timestamp *)

Lemma iso_date_prefix (d : Date) :
  0 <= year d <= 9999 ->
  string_slice 0 10 (toISOString d) = calendar_date d.
Proof.
  intros Hy. unfold toISOString, iso_year.
  replace ((0 <=? year d) && (year d <=? 9999)) with true
    by (symmetry; apply andb_true_intro; split; apply Z.leb_le; lia).
  reflexivity.
Qed.

End LibraryFacts.

(** ** The client *)

Section ClientFacts.

Context {E : Env}.

Lemma network_only_refl (w : World E) : network_only w w.
Proof. unfold network_only. now destruct w. Qed.

Lemma network_only_trans (w1 w2 w3 : World E) :
  network_only w1 w2 -> network_only w2 w3 -> network_only w1 w3.
Proof. unfold network_only. intros H12 H23. rewrite H23, H12. reflexivity. Qed.

Lemma network_only_heap (w w' : World E) : network_only w w' -> heap w' = heap w.
Proof. intros H. rewrite H. reflexivity. Qed.

Lemma network_only_client (w w' : World E) : network_only w w' -> client w' = client w.
Proof. intros H. rewrite H. reflexivity. Qed.

Lemma network_only_ctx (w w' : World E) : network_only w w' -> ctx w' = ctx w.
Proof. intros H. rewrite H. reflexivity. Qed.

Lemma network_only_host (w w' : World E) : network_only w w' -> host w' = host w.
Proof. intros H. rewrite H. reflexivity. Qed.

Lemma fetch_network_only (req : Request) (w : World E) :
  network_only w (snd (fetch req w)).
Proof.
  unfold fetch. destruct (serve E (vault w) req) as [[e|res] s]; reflexivity.
Qed.

(** Every method but [ping] is one fetch followed by pure steps. *)
Ltac one_fetch :=
  unfold bind, deref;
  match goal with
  | |- context [heap ?w !! ?this] =>
      destruct (heap w !! this); [| apply network_only_refl]
  end;
  match goal with
  | |- context [fetch ?req ?w] =>
      let Hf := fresh "Hf" in
      pose proof (fetch_network_only req w) as Hf;
      destruct (fetch req w) as [[?res | ?e] ?w1]; simpl in *; [| exact Hf];
      destruct (negb (ok_status res)); [exact Hf |]
  end.

Lemma read_network_only (this : ClientRef) (path : string) (w : World E) :
  network_only w (snd (Client.read this path w)).
Proof.
  unfold Client.read. one_fetch.
  unfold json. now destruct (as_note (body res)).
Qed.

Lemma write_network_only (this : ClientRef) (path content : string) (w : World E) :
  network_only w (snd (Client.write this path content w)).
Proof. unfold Client.write. one_fetch. exact Hf. Qed.

Lemma append_network_only (this : ClientRef) (path content : string) (w : World E) :
  network_only w (snd (Client.append this path content w)).
Proof. unfold Client.append. one_fetch. exact Hf. Qed.

Lemma search_network_only (this : ClientRef) (query : string) (len : option Z) (w : World E) :
  network_only w (snd (Client.search this query len w)).
Proof.
  unfold Client.search. unfold bind at 1. unfold deref.
  destruct (heap w !! this) as [o|]; [| apply network_only_refl].
  unfold bind at 1. unfold library.
  destruct (new_URL (baseUrl o +:+ "/search/simple/")) as [url|e];
    [| apply network_only_refl].
  unfold bind.
  match goal with
  | |- context [fetch ?req ?w] =>
      pose proof (fetch_network_only req w) as Hf;
      destruct (fetch req w) as [[res | e] w1]; simpl in *; [| exact Hf];
      destruct (negb (ok_status res)); [exact Hf |]
  end.
  unfold json. now destruct (as_results (body res)).
Qed.

Lemma list_network_only (this : ClientRef) (folder : option string) (w : World E) :
  network_only w (snd (Client.list this folder w)).
Proof.
  unfold Client.list. one_fetch.
  unfold json. now destruct (as_listing (body res)).
Qed.

Lemma isConnected_at (this : ClientRef) (o : ObsidianClient) (w : World E) :
  heap w !! this = Some o -> Client.isConnected this w = (Ok (connected o), w).
Proof.
  intros H. unfold Client.isConnected, bind, deref, ret. now rewrite H.
Qed.

Lemma isConnected_heap (this : ClientRef) (w w' : World E) :
  heap w' = heap w ->
  fst (Client.isConnected this w') = fst (Client.isConnected this w).
Proof.
  intros H. unfold Client.isConnected, bind, deref, ret. rewrite H.
  now destruct (heap w !! this).
Qed.

Lemma ok_status_range (res : Response (Score E)) :
  ok_status res = true <-> 200 <= status res <= 299.
Proof.
  unfold ok_status. rewrite andb_true_iff, !Z.leb_le. tauto.
Qed.

Lemma ping_run (this : ClientRef) (o : ObsidianClient) (w : World E) :
  heap w !! this = Some o ->
  Client.ping this w
  = (Ok (alive (fst (serve E (vault w) (ping_request o)))),
     set_heap
       (<[this := {| baseUrl := baseUrl o; headers := headers o;
                     connected := alive (fst (serve E (vault w) (ping_request o))) |}]>
          (heap w))
       (set_vault (snd (serve E (vault w) (ping_request o)))
          (requests w ++ [ping_request o]) w)).
Proof.
  intros Hobj.
  assert (Hlt : (this < length (heap w))%nat) by (eapply lookup_lt_Some; eassumption).
  unfold Client.ping, try_catch, bind, deref, fetch, assign_connected, Client.isConnected,
    ret, deref, bind.
  fold (ping_request o). rewrite Hobj. fold (ping_request o).
  destruct (serve E (vault w) (ping_request o)) as [[e|res] s]; simpl;
    rewrite Hobj; simpl; rewrite ?list_lookup_insert_eq by assumption; reflexivity.
Qed.

(** C7. [ping] never throws.  Whatever the liveness request to the server
    root comes to, [ping] returns [true] and leaves the connected flag
    [true] exactly when the server responded with a status from 200 to
    299; on a transport failure or any other status it returns [false]
    and leaves the flag [false]. *)
Theorem ping_reports_liveness (this : ClientRef) (o : ObsidianClient) (w : World E) :
  heap w !! this = Some o ->
  let outcome := fst (serve E (vault w) (ping_request o)) in
  exists (answer : bool) (w' : World E),
    Client.ping this w = (Ok answer, w')
    /\ requests w' = (requests w ++ [ping_request o])%list
    /\ heap w' !! this
       = Some {| baseUrl := baseUrl o; headers := headers o; connected := answer |}
    /\ Client.isConnected this w' = (Ok answer, w')
    /\ (answer = true <-> exists res, outcome = Responded res /\ 200 <= status res <= 299)
    /\ (answer = false <->
        (exists e, outcome = NetworkError e)
        \/ (exists res, outcome = Responded res /\ ~ 200 <= status res <= 299)).
Proof.
  intros Hobj outcome.
  assert (Hlt : (this < length (heap w))%nat) by (eapply lookup_lt_Some; eassumption).
  eexists _, _. split; [apply ping_run; exact Hobj|].
  fold outcome.
  assert (Hcell : forall x, <[this := x]> (heap w) !! this = Some x)
    by (intros x; now apply list_lookup_insert_eq).
  split; [reflexivity|]. split; [apply Hcell|].
  split; [apply (isConnected_at this {| baseUrl := baseUrl o; headers := headers o;
                                         connected := alive outcome |}); apply Hcell|].
  destruct outcome as [e|res]; simpl.
  - split; split; try discriminate.
    + intros [res [Hres _]]. discriminate.
    + intros _. left. eauto.
    + reflexivity.
  - split; split.
    + intros Hok. exists res. split; [reflexivity | now apply ok_status_range].
    + intros [res' [Hres Hok]]. inversion Hres; subst res'. now apply ok_status_range.
    + intros Hno. right. exists res. split; [reflexivity|].
      rewrite <- ok_status_range. congruence.
    + intros [[e He]|[res' [Hres Hno]]]; [discriminate|].
      inversion Hres; subst res'. rewrite <- ok_status_range in Hno.
      now destruct (ok_status res).
Qed.

(** C8. The connected flag is written by [ping] only: a call of [read],
    [write], [append], [search] or [list], whether it returns or throws,
    leaves every client object, and so the flag [isConnected] reads, as it
    was. *)
Theorem connected_flag_kept (this : ClientRef) (w : World E) :
  (forall path,
      let w' := snd (Client.read this path w) in
      heap w' = heap w
      /\ fst (Client.isConnected this w') = fst (Client.isConnected this w))
  /\ (forall path content,
      let w' := snd (Client.write this path content w) in
      heap w' = heap w
      /\ fst (Client.isConnected this w') = fst (Client.isConnected this w))
  /\ (forall path content,
      let w' := snd (Client.append this path content w) in
      heap w' = heap w
      /\ fst (Client.isConnected this w') = fst (Client.isConnected this w))
  /\ (forall query contextLength,
      let w' := snd (Client.search this query contextLength w) in
      heap w' = heap w
      /\ fst (Client.isConnected this w') = fst (Client.isConnected this w))
  /\ (forall folder,
      let w' := snd (Client.list this folder w) in
      heap w' = heap w
      /\ fst (Client.isConnected this w') = fst (Client.isConnected this w)).
Proof.
  repeat split; intros;
    try (apply isConnected_heap); apply network_only_heap;
    auto using read_network_only, write_network_only, append_network_only,
      search_network_only, list_network_only.
Qed.

End ClientFacts.

(** ** The tool adapter *)

Section ToolFacts.

Context {E : Env}.

Import Tools.


(** C9, as the code has it.  Whatever results the client's search returns
    for the query, the search tool returns the payload of
    [results.slice(0, limit)], with 5 for a limit the caller does not give:
    a prefix of the results, cut after retrieval and in the order the
    server gave; each item carries the file name, the score and the
    context of the first match, the empty string when there is no match.
    For [0 <= limit] these are the first [limit] results, so at most
    [limit]; a negative limit counts from the end, and the payload then
    holds all the results but the last [-limit]. *)
Theorem search_tool_truncates (c : ClientRef) (args : SearchArgs)
    (results : list (ObsidianSearchResult (Score E))) (w w1 : World E) :
  Client.search c (query args) None w = (Ok results, w1) ->
  let bound := default 5 (limit args) in
  let shown := slice 0 bound results in
  let item (r : ObsidianSearchResult (Score E)) : Json (Score E) :=
    JObj [("path", JStr (filename r)); ("score", JNum (score r));
          ("context", JStr (match matches r with
                            | m :: _ => context m
                            | [] => EmptyString
                            end))] in
  buildA2ATools c (obsidian_search (Given args)) w
  = (Ok (ok (E := E) (JArr (map item shown))), w1)
  /\ (limit args = None -> bound = 5)
  /\ shown `prefix_of` results
  /\ length (map item shown) = length shown
  /\ (0 <= bound ->
      shown = take (Z.to_nat bound) results /\ Z.of_nat (length shown) <= bound)
  /\ (bound < 0 ->
      shown = take (length results - Z.to_nat (- bound)) results
      /\ Z.of_nat (length shown) = Z.max (Z.of_nat (length results) + bound) 0)
  /\ (Z.of_nat (length results) <= bound -> shown = results).
Proof.
  intros Hsearch bound shown item. simpl.
  unfold search_handler, destructure, try_catch, bind, ret. rewrite Hsearch.
  split; [reflexivity|].
  split; [intros Hnone; subst bound; now rewrite Hnone|].
  split; [apply slice_prefix|].
  split; [apply length_map|].
  split; [intros Hb; split; [now apply slice_take | now apply slice_at_most]|].
  split; [|apply slice_all].
  intros Hb. split; [now apply slice_drop_last|].
  subst shown. rewrite slice_length. destruct (Z.ltb_spec bound 0); [reflexivity | lia].
Qed.

End ToolFacts.

(** ** The plugin *)

Section PluginFacts.

Context {E : Env}.

Import Plugin.

Lemma getConfig_run (w : World E) :
  ctx w = Some HostContext -> getConfig w = (Ok (host_config E (host w)), w).
Proof. intros H. unfold getConfig. now rewrite H. Qed.

Lemma getClient_run (method : string) (c : ClientRef) (w : World E) :
  client w = Some c -> getClient method w = (Ok c, w).
Proof. intros H. unfold getClient. now rewrite H. Qed.

Lemma log_returns (level : LogLevel) (message : string) (w : World E) :
  exists w', log level message w = (Ok tt, w') /\ requests w' = requests w.
Proof.
  unfold log. destruct (ctx w) as [[]|]; eexists; split; reflexivity.
Qed.

Lemma not_always_spec (mode : option string) :
  not_always mode = false <-> mode = Some "always".
Proof.
  destruct mode as [s|]; simpl; [|split; discriminate].
  rewrite negb_false_iff, String.eqb_eq. split; congruence.
Qed.

Lemma blank_falsy (query : string) :
  negb (truthy (trim query)) = blank (Some query).
Proof.
  simpl. destruct (forallb is_whitespace (list_ascii_of_string query)) eqn:Hb.
  - apply trim_falsy in Hb. now rewrite Hb.
  - destruct (truthy (trim query)) eqn:Ht; [reflexivity|].
    apply trim_falsy in Ht. congruence.
Qed.

(** The provider up to the search: with the mode ["always"], a connected
    client and a message that is not blank, what remains is the guarded
    search. *)
Lemma getContext_searches (session query : string) (message : MessageInfo)
    (c : ClientRef) (o : ObsidianClient) (w : World E) :
  ctx w = Some HostContext -> client w = Some c -> heap w !! c = Some o ->
  injectContext (host_config E (host w)) = Some "always" ->
  connected o = true ->
  content message = Some query -> blank (Some query) = false ->
  getContext session message w
  = try_catch
      (let! results := Client.search c query None in
       let top := slice 0 (default 3 (maxContextNotes (host_config E (host w)))) results in
       if (length top =? 0)%nat then ret None else
       let! notes := promise_all_map note_section top in
       ret (Some (context_block top notes)))
      (fun error =>
         log Warn ("Obsidian context fetch failed: " +:+ error_message error);;
         ret None) w.
Proof.
  intros Hctx Hclient Hobj Hmode Hconn Hcontent Hblank.
  unfold getContext. unfold bind at 1. rewrite (getConfig_run w Hctx).
  apply not_always_spec in Hmode. rewrite Hmode.
  unfold bind at 1. rewrite (getClient_run _ c w Hclient).
  unfold bind at 1. rewrite (isConnected_at c o w Hobj), Hconn. simpl.
  rewrite Hcontent, blank_falsy, Hblank.
  unfold try_catch. unfold bind at 1. rewrite (getClient_run _ c w Hclient).
  reflexivity.
Qed.

(** C1. For every inbound message, with the plugin running, the context
    provider returns [null] whenever the injection mode of the live
    configuration is not ["always"], or the client's connected flag is
    false, or the content of the message is absent, empty or white space
    only, or the search throws; in none of these cases does it throw, and
    in the first three it sends nothing to the vault. *)
Theorem no_context_cases (session : string) (message : MessageInfo)
    (c : ClientRef) (o : ObsidianClient) (w : World E) :
  ctx w = Some HostContext -> client w = Some c -> heap w !! c = Some o ->
  (injectContext (host_config E (host w)) <> Some "always"
   \/ connected o = false
   \/ blank (content message) = true
   \/ (exists query e w1,
         content message = Some query
         /\ Client.search c query None w = (Throw e, w1))) ->
  exists w' : World E,
    getContext session message w = (Ok None, w')
    /\ (injectContext (host_config E (host w)) <> Some "always"
        \/ connected o = false
        \/ blank (content message) = true -> requests w' = requests w).
Proof.
  intros Hctx Hclient Hobj Hcases.
  destruct (not_always (injectContext (host_config E (host w)))) eqn:Hmode.
  { exists w. unfold getContext. unfold bind at 1.
    rewrite (getConfig_run w Hctx), Hmode. split; reflexivity. }
  destruct (connected o) eqn:Hconn; cycle 1.
  { exists w. unfold getContext. unfold bind at 1.
    rewrite (getConfig_run w Hctx), Hmode.
    unfold bind at 1. rewrite (getClient_run _ c w Hclient).
    unfold bind at 1. rewrite (isConnected_at c o w Hobj), Hconn.
    split; reflexivity. }
  destruct (blank (content message)) eqn:Hblank.
  { exists w. unfold getContext. unfold bind at 1.
    rewrite (getConfig_run w Hctx), Hmode.
    unfold bind at 1. rewrite (getClient_run _ c w Hclient).
    unfold bind at 1. rewrite (isConnected_at c o w Hobj), Hconn. simpl.
    destruct (content message) as [query|]; [|split; reflexivity].
    rewrite blank_falsy, Hblank. split; reflexivity. }
  apply not_always_spec in Hmode.
  destruct Hcases as [Hno | [Hno | [Hno | (query & e & w1 & Hcontent & Hsearch)]]];
    try congruence.
  rewrite Hcontent in Hblank.
  rewrite (getContext_searches session query message c o w) by assumption.
  unfold try_catch. unfold bind at 1. rewrite Hsearch.
  destruct (log_returns Warn ("Obsidian context fetch failed: " +:+ error_message e) w1)
    as (w2 & Hlog & _).
  exists w2. unfold bind, ret. rewrite Hlog.
  split; [reflexivity|]. intros [Hno | [Hno | Hno]]; congruence.
Qed.

Lemma note_section_run (c : ClientRef) (r : ObsidianSearchResult (Score E)) (w : World E) :
  client w = Some c ->
  note_section r w
  = match Client.read c (filename r) w with
    | (Ok note, w1) =>
        (Ok ("### " +:+ filename r +:+ nl +:+ string_slice 0 2000 (note_content note)), w1)
    | (Throw _, w1) => (Ok ("### " +:+ filename r +:+ nl +:+ "*(could not read)*"), w1)
    end.
Proof.
  intros Hclient. unfold note_section, try_catch. unfold bind at 1.
  rewrite (getClient_run _ c w Hclient). unfold bind, ret.
  now destruct (Client.read c (filename r) w) as [[note|e] w1].
Qed.

(** The tasks of [Promise.all] never reject, and their results are the
    sections of the hits, in the order of the hits. *)
Lemma sections_run (c : ClientRef) (top : list (ObsidianSearchResult (Score E)))
    (w : World E) :
  client w = Some c ->
  exists (notes : list string) (w' : World E),
    promise_all_map note_section top w = (Ok notes, w')
    /\ sections_read c top w notes w'
    /\ length notes = length top.
Proof.
  revert w. induction top as [|r rest IH]; intros w Hclient.
  - exists [], w. repeat split. constructor.
  - simpl. rewrite (note_section_run c r w Hclient).
    pose proof (read_network_only c (filename r) w) as Hframe.
    destruct (Client.read c (filename r) w) as [[note|e] w1] eqn:Hread; simpl in Hframe;
      (destruct (IH w1) as (notes & w2 & Hrun & Hrel & Hlen);
       [rewrite (network_only_client _ _ Hframe); exact Hclient|]);
      rewrite Hrun; eexists _, w2; (split; [reflexivity|]); split.
    + eapply sections_note; eassumption.
    + simpl. now rewrite Hlen.
    + eapply sections_placeholder; eassumption.
    + simpl. now rewrite Hlen.
Qed.

(** C2, as the code has it.  With the mode ["always"], a connected
    client, a message that is not blank and a search that returns, the
    provider cuts the results with [slice(0, maxContextNotes)] (3 when the
    setting is absent); when that leaves at least one hit it returns one
    block of role ["system"], whose
    content is the heading followed by the sections of these hits, in the
    order of the search, joined by a horizontal rule.  Each section is the
    line [### filename] followed by the first 2000 characters of the note,
    or by the placeholder when the read of the note throws.  The hits kept
    are [results.slice(0, maxContextNotes)]: for [0 <= maxContextNotes] the
    first [maxContextNotes] hits, so at most that many sections; for a
    negative setting all the hits but the last [-maxContextNotes]. *)
Theorem context_block_shape (session query : string) (message : MessageInfo)
    (c : ClientRef) (o : ObsidianClient)
    (results : list (ObsidianSearchResult (Score E))) (w w1 : World E) :
  ctx w = Some HostContext -> client w = Some c -> heap w !! c = Some o ->
  injectContext (host_config E (host w)) = Some "always" ->
  connected o = true ->
  content message = Some query -> blank (Some query) = false ->
  Client.search c query None w = (Ok results, w1) ->
  let bound := default 3 (maxContextNotes (host_config E (host w))) in
  let top := slice 0 bound results in
  top <> [] ->
  exists (notes : list string) (w' : World E),
    getContext session message w
    = (Ok (Some {| part_content :=
                     "## Relevant notes from your Obsidian vault:" +:+ nl +:+ nl
                     +:+ join (nl +:+ nl +:+ "---" +:+ nl +:+ nl) notes;
                   role := "system";
                   metadata := {| source := "obsidian"; priority := 30;
                                  noteCount := Z.of_nat (length top) |} |}), w')
    /\ sections_read c top w1 notes w'
    /\ length notes = length top
    /\ top `prefix_of` results
    /\ (maxContextNotes (host_config E (host w)) = None -> bound = 3)
    /\ (0 <= bound ->
        top = take (Z.to_nat bound) results /\ Z.of_nat (length notes) <= bound)
    /\ (bound < 0 ->
        top = take (length results - Z.to_nat (- bound)) results
        /\ Z.of_nat (length notes) = Z.of_nat (length results) + bound)
    /\ (forall text : string,
          Z.of_nat (String.length (string_slice 0 2000 text)) <= 2000
          /\ (exists rest, text = string_slice 0 2000 text +:+ rest)
          /\ (Z.of_nat (String.length text) <= 2000 -> string_slice 0 2000 text = text)).
Proof.
  intros Hctx Hclient Hobj Hmode Hconn Hcontent Hblank Hsearch bound top Htop.
  rewrite (getContext_searches session query message c o w) by assumption.
  unfold try_catch. unfold bind at 1. rewrite Hsearch.
  fold bound. fold top.
  destruct (length top =? 0)%nat eqn:Hlen.
  { apply Nat.eqb_eq in Hlen. destruct top; [congruence | discriminate]. }
  pose proof (search_network_only c query None w) as Hframe.
  rewrite Hsearch in Hframe. simpl in Hframe.
  destruct (sections_run c top w1) as (notes & w' & Hrun & Hrel & Hcount).
  { rewrite (network_only_client _ _ Hframe). exact Hclient. }
  exists notes, w'. unfold bind, ret. rewrite Hrun.
  split; [reflexivity|]. split; [exact Hrel|]. split; [exact Hcount|].
  split; [apply slice_prefix|].
  split; [intros Hnone; subst bound; now rewrite Hnone|].
  split; [intros Hb; split; [now apply slice_take|];
          rewrite Hcount; now apply slice_at_most|].
  split.
  { intros Hb. split; [now apply slice_drop_last|].
    rewrite Hcount. pose proof (slice_length bound results) as Hkept. fold top in Hkept.
    destruct (Z.ltb_spec bound 0); [|lia].
    destruct top; [congruence|]. simpl length in *. lia. }
  intros text. split; [now apply string_slice_at_most|].
  split; [apply string_slice_prefix | apply string_slice_short].
Qed.

Lemma archive_off_on (setting : Prim) : archive_off setting = negb (archive_on setting).
Proof.
  destruct setting as [| |[]|n|s]; try reflexivity; simpl.
  - unfold archive_off. simpl.
    destruct (String.eqb_spec (decimal n) "true") as [Heq|]; [|reflexivity].
    now apply decimal_not_true in Heq.
Qed.

Lemma archive_on_spec (setting : Prim) :
  archive_on setting = true <-> setting = Boolean true \/ setting = Str "true".
Proof.
  destruct setting as [| |[]|n|s]; simpl; try (split; [discriminate | intros [?|?]; discriminate]).
  - split; auto.
  - rewrite String.eqb_eq. split; [intros ->; auto | intros [?|?]; congruence].
Qed.

Lemma write_sends (c : ClientRef) (o : ObsidianClient) (path document : string)
    (w : World E) :
  heap w !! c = Some o ->
  requests (snd (Client.write c path document w))
  = (requests w ++ [write_request o path document])%list.
Proof.
  intros Hobj. unfold Client.write, bind, deref, fetch. rewrite Hobj.
  fold (write_request o path document).
  destruct (serve E (vault w) (write_request o path document)) as [[e|res] s]; simpl;
    [reflexivity|].
  now destruct (negb (ok_status res)).
Qed.

Lemma log_keeps_requests (level : LogLevel) (message : string) (w : World E) :
  requests (snd (log level message w)) = requests w.
Proof. unfold log. now destruct (ctx w) as [[]|]. Qed.

(** C3. For every session-teardown event, with the plugin running: when
    the archive setting is [true] (the boolean, or the string ["true"])
    and the held client's connected flag is true, the handler sends one
    request, the write of the session document at
    [<vaultFolder>/sessions/<date>-<sessionId>.md], where the date is the
    first ten characters of the ISO timestamp, that is [YYYY-MM-DD]; in
    every other case it sends no request, so nothing is written. *)
Theorem session_archive_written (payload : SessionDestroyEvent) (w : World E) :
  ctx w = Some HostContext ->
  let cfg := host_config E (host w) in
  let w' := snd (on_session_destroy payload w) in
  let today := clock E (ticks w) in
  let path :=
    default "WOPR" (vaultPath cfg) +:+ "/sessions/"
    +:+ string_slice 0 10 (toISOString today) +:+ "-" +:+ session payload +:+ ".md" in
  (archive_on (sessionArchive cfg) = true <->
     sessionArchive cfg = Boolean true \/ sessionArchive cfg = Str "true")
  /\ (archive_on (sessionArchive cfg) && connected_now w = true ->
      exists (c : ClientRef) (o : ObsidianClient) (document : string),
        client w = Some c /\ heap w !! c = Some o
        /\ requests w' = (requests w ++ [write_request o path document])%list)
  /\ (archive_on (sessionArchive cfg) && connected_now w = false ->
      requests w' = requests w /\ vault w' = vault w)
  /\ (0 <= year today <= 9999 ->
      path = default "WOPR" (vaultPath cfg) +:+ "/sessions/"
             +:+ calendar_date today +:+ "-" +:+ session payload +:+ ".md").
Proof.
  intros Hctx cfg w' today path.
  split; [apply archive_on_spec|].
  assert (Hrun : archive_on (sessionArchive cfg) = false -> w' = w).
  { intros Hoff. subst w'. unfold on_session_destroy. unfold bind at 1.
    rewrite (getConfig_run w Hctx). fold cfg.
    now rewrite archive_off_on, Hoff. }
  split; [| split].
  - intros Hon. apply andb_prop in Hon as [Hon Hconn].
    unfold connected_now in Hconn.
    destruct (client w) as [c|] eqn:Hclient; [|discriminate].
    destruct (heap w !! c) as [o|] eqn:Hobj; [|discriminate].
    exists c, o. eexists. split; [reflexivity|]. split; [exact Hobj|].
    subst w'. unfold on_session_destroy. unfold bind at 1.
    rewrite (getConfig_run w Hctx). fold cfg.
    rewrite archive_off_on, Hon. cbn [negb].
    unfold bind at 1. unfold gets. cbv beta. rewrite Hclient.
    unfold bind at 1. rewrite (isConnected_at c o w Hobj), Hconn. cbn [negb].
    unfold try_catch, new_Date. unfold bind at 1. unfold bind at 1.
    unfold getClient at 1. simpl client. rewrite Hclient.
    unfold bind at 1. unfold bind at 1. fold today.
    match goal with
    | |- context [Client.write c ?p ?d ?w0] =>
        pose proof (write_sends c o p d w0 Hobj) as Hsent;
        destruct (Client.write c p d w0) as [[[]|e] w2]
    end; simpl in Hsent; cbv beta iota.
    + match goal with
      | |- context [log Info ?m w2] =>
          destruct (log_returns Info m w2) as (w3 & Hlog & Hreq); rewrite Hlog
      end.
      simpl. rewrite Hreq. exact Hsent.
    + rewrite log_keeps_requests. exact Hsent.
  - intros Hno. apply andb_false_iff in Hno as [Hoff | Hdown].
    + now rewrite (Hrun Hoff).
    + destruct (archive_on (sessionArchive cfg)) eqn:Hon; [|now rewrite (Hrun eq_refl)].
      enough (Hsame : w' = w) by now rewrite Hsame.
      subst w'. unfold on_session_destroy. unfold bind at 1.
      rewrite (getConfig_run w Hctx). fold cfg.
      rewrite archive_off_on, Hon. cbn [negb].
      unfold bind at 1. unfold gets. cbv beta.
      unfold connected_now in Hdown.
      destruct (client w) as [c|] eqn:Hclient; [|reflexivity].
      unfold Client.isConnected, bind, deref, ret.
      destruct (heap w !! c) as [o|] eqn:Hobj; [|reflexivity].
      now rewrite Hdown.
  - intros Hyear. subst path. now rewrite (iso_date_prefix today Hyear).
Qed.

(** C10, as the code has it.  The search of the exported capability
    object returns [r.slice(0, limit)] of the results [r] of the client's
    search, with 10 for a limit the caller does not give: a prefix, in the
    order the client returned them.  For [0 <= limit] these are the first
    [limit] results, so at most [limit]; a negative limit counts from the
    end, and all the results but the last [-limit] are returned.  Its
    [isConnected] returns [false], and does not throw, once the client
    reference is released. *)
Theorem extension_contract :
  (forall (query : string) (limit : option Z) (c : ClientRef)
          (results : list (ObsidianSearchResult (Score E))) (w w1 : World E),
      client w = Some c ->
      Client.search c query None w = (Ok results, w1) ->
      let bound := default 10 limit in
      extension_search query limit w = (Ok (slice 0 bound results), w1)
      /\ (limit = None -> bound = 10)
      /\ slice 0 bound results `prefix_of` results
      /\ (0 <= bound ->
          slice 0 bound results = take (Z.to_nat bound) results
          /\ Z.of_nat (length (slice 0 bound results)) <= bound)
      /\ (bound < 0 ->
          slice 0 bound results = take (length results - Z.to_nat (- bound)) results
          /\ Z.of_nat (length (slice 0 bound results))
             = Z.max (Z.of_nat (length results) + bound) 0)
      /\ (Z.of_nat (length results) <= bound -> slice 0 bound results = results))
  /\ (forall w : World E,
        client w = None -> extension_isConnected w = (Ok false, w)).
Proof.
  split.
  - intros query limit c results w w1 Hclient Hsearch bound.
    split.
    + unfold extension_search. unfold bind at 1.
      rewrite (getClient_run _ c w Hclient). unfold bind, ret. now rewrite Hsearch.
    + split; [intros ->; reflexivity|].
      split; [apply slice_prefix|].
      split; [intros Hb; split; [now apply slice_take | now apply slice_at_most]|].
      split; [|apply slice_all].
      intros Hb. split; [now apply slice_drop_last|].
      rewrite slice_length. destruct (Z.ltb_spec bound 0); [reflexivity | lia].
  - intros w Hclient. unfold extension_isConnected, bind, gets, ret.
    now rewrite Hclient.
Qed.

(** *** shutdown *)

Lemma set_host_same (w : World E) : set_host (host w) (host_calls w) w = w.
Proof. now destruct w. Qed.

(** The loop over the cleanups calls each of them, in order, and goes on
    whatever each does. *)
Lemma cleanups_run (registry : list Handle) (w : World E) :
  for_of registry
    (fun cleanup => try_catch (call_host (Unsubscribe cleanup)) (fun _ => ret tt)) w
  = (Ok tt,
     set_host (host_after (host w) (map Unsubscribe registry))
       (host_calls w ++ map Unsubscribe registry) w).
Proof.
  revert w. induction registry as [|h rest IH]; intros w.
  - simpl. unfold ret, host_after. simpl. now rewrite app_nil_r, set_host_same.
  - cbn [for_of]. unfold bind at 1. unfold try_catch, call_host, ret.
    destruct (host_call E (host w) (Unsubscribe h)) as [[e|] s] eqn:Hcall;
      rewrite IH; simpl; unfold host_after; simpl; rewrite Hcall; simpl;
      now rewrite <- app_assoc.
Qed.

Lemma bind_ok {A B : Type} (m : M E A) (k : A -> M E B) (w w1 : World E) (a : A) :
  m w = (Ok a, w1) -> bind m k w = k a w1.
Proof. intros H. unfold bind. now rewrite H. Qed.

Lemma bind_throw {A B : Type} (m : M E A) (k : A -> M E B) (w w1 : World E) (e : Exn) :
  m w = (Throw e, w1) -> bind m k w = (Throw e, w1).
Proof. intros H. unfold bind. now rewrite H. Qed.

Lemma poller_stops (w : World E) :
  (let! timer := gets healthTimer in
   match timer with
   | Some t => clearInterval t;; modify (set_healthTimer None)
   | None => ret tt
   end) w
  = (Ok tt,
     match healthTimer w with
     | Some t =>
         set_healthTimer None
           (set_timers (List.filter (fun t' => negb (Nat.eqb t' t)) (timers w)) w)
     | None => w
     end).
Proof.
  unfold bind, gets, clearInterval, modify, ret. now destruct (healthTimer w).
Qed.

Lemma registry_drains (w : World E) :
  (let! registry := gets cleanups in
   for_of registry (fun cleanup =>
     try_catch (call_host (Unsubscribe cleanup)) (fun _ => ret tt))) w
  = (Ok tt,
     set_host (host_after (host w) (map Unsubscribe (cleanups w)))
       (host_calls w ++ map Unsubscribe (cleanups w)) w).
Proof. unfold bind at 1. unfold gets. apply cleanups_run. Qed.

(** The world once the poller is stopped and the registry drained: what
    remains of [shutdown] is the unregistrations and the release of the
    references. *)
Lemma shutdown_first_steps (w : World E) :
  exists w0 : World E,
    shutdown w
    = (if_ctx (call_host (UnregisterConfigSchema "wopr-plugin-obsidian"));;
       if_ctx (call_host (UnregisterContextProvider "obsidian"));;
       if_ctx (call_host (UnregisterExtension "obsidian"));;
       modify (set_client None);;
       modify (set_ctx None)) w0
    /\ healthTimer w0 = None
    /\ (forall t, healthTimer w = Some t -> ~ In t (timers w0))
    /\ cleanups w0 = []
    /\ host_calls w0 = (host_calls w ++ map Unsubscribe (cleanups w))%list
    /\ host w0 = host_after (host w) (map Unsubscribe (cleanups w))
    /\ ctx w0 = ctx w /\ client w0 = client w
    /\ heap w0 = heap w /\ requests w0 = requests w.
Proof.
  unfold shutdown.
  rewrite (bind_ok _ _ _ _ _ (poller_stops w)).
  rewrite (bind_ok _ _ _ _ _ (registry_drains _)).
  rewrite (bind_ok _ _ _ _ tt (eq_refl : modify (set_cleanups []) _ = (Ok tt, _))).
  eexists. split; [reflexivity|].
  destruct (healthTimer w) as [t|] eqn:Htimer; simpl;
    repeat split; try reflexivity; try assumption.
  - intros t' Ht' Hin. inversion Ht'; subst t'.
    apply filter_In in Hin as [_ Hne]. now rewrite Nat.eqb_refl in Hne.
  - intros t' Ht'. discriminate.
Qed.

Lemma host_after_app (h : HostState E) (calls more : list HostCall) :
  host_after h (calls ++ more) = host_after (host_after h calls) more.
Proof. unfold host_after. apply fold_left_app. Qed.

(** What [shutdown] comes to: the first steps always run; the
    unregistrations [made] are a prefix of the three, and the references
    are released exactly when [shutdown] returns. *)
Lemma shutdown_outcome (w : World E) :
  let w' := snd (shutdown w) in
  let drained := map Unsubscribe (cleanups w) in
  healthTimer w' = None
  /\ (forall t, healthTimer w = Some t -> ~ In t (timers w'))
  /\ cleanups w' = []
  /\ heap w' = heap w
  /\ exists made : list HostCall,
      host_calls w' = (host_calls w ++ drained ++ made)%list
      /\ made `prefix_of` unregistrations
      /\ (ctx w = None -> made = [])
      /\ (fst (shutdown w) = Ok tt ->
          (ctx w <> None -> made = unregistrations)
          /\ client w' = None /\ ctx w' = None)
      /\ (forall e, fst (shutdown w) = Throw e ->
          ctx w' = ctx w /\ client w' = client w
          /\ exists before u,
              made = (before ++ [u])%list
              /\ fst (host_call E (host_after (host w) (drained ++ before)) u) = Some e)
      /\ ((forall s u, In u unregistrations -> fst (host_call E s u) = None) ->
          fst (shutdown w) = Ok tt).
Proof.
  intros w' drained. subst w'.
  destruct (shutdown_first_steps w)
    as (w0 & Hrun & Htimer & Htimers & Hreg & Hcalls & Hhost & Hctx & Hclient & Hheap & _).
  rewrite Hrun. fold drained in Hcalls, Hhost.
  unfold if_ctx, bind, call_host, modify, unregistrations.
  destruct (ctx w0) as [[]|] eqn:Hctx0.
  - destruct (host_call E (host w0) (UnregisterConfigSchema "wopr-plugin-obsidian"))
      as [[e1|] h1] eqn:H1; simpl.
    { repeat (split; [assumption|]).
      exists [UnregisterConfigSchema "wopr-plugin-obsidian"].
      rewrite Hcalls, <- app_assoc. split; [reflexivity|].
      split; [eexists; reflexivity|].
      split; [congruence|]. split; [discriminate|].
      split.
      - intros e He. inversion He; subst e.
        split; [congruence|]. split; [assumption|].
        exists [], (UnregisterConfigSchema "wopr-plugin-obsidian").
        split; [reflexivity|]. now rewrite app_nil_r, <- Hhost, H1.
      - intros Hnever. specialize (Hnever (host w0) _ (or_introl eq_refl)).
        rewrite H1 in Hnever. discriminate. }
    rewrite Hctx0.
    destruct (host_call E h1 (UnregisterContextProvider "obsidian"))
      as [[e2|] h2] eqn:H2; simpl.
    { repeat (split; [assumption|]).
      exists [UnregisterConfigSchema "wopr-plugin-obsidian";
              UnregisterContextProvider "obsidian"].
      rewrite Hcalls, <- !app_assoc. split; [reflexivity|].
      split; [eexists; reflexivity|].
      split; [congruence|]. split; [discriminate|].
      split.
      - intros e He. inversion He; subst e.
        split; [congruence|]. split; [assumption|].
        exists [UnregisterConfigSchema "wopr-plugin-obsidian"],
               (UnregisterContextProvider "obsidian").
        split; [reflexivity|].
        rewrite host_after_app, <- Hhost. unfold host_after at 1. simpl.
        rewrite H1. simpl. now rewrite H2.
      - intros Hnever.
        specialize (Hnever h1 _ (or_intror (or_introl eq_refl))).
        rewrite H2 in Hnever. discriminate. }
    rewrite Hctx0.
    destruct (host_call E h2 (UnregisterExtension "obsidian"))
      as [[e3|] h3] eqn:H3; simpl.
    { repeat (split; [assumption|]).
      exists unregistrations. unfold unregistrations.
      rewrite Hcalls, <- !app_assoc. split; [reflexivity|].
      split; [reflexivity|].
      split; [congruence|]. split; [discriminate|].
      split.
      - intros e He. inversion He; subst e.
        split; [congruence|]. split; [assumption|].
        exists [UnregisterConfigSchema "wopr-plugin-obsidian";
                UnregisterContextProvider "obsidian"],
               (UnregisterExtension "obsidian").
        split; [reflexivity|].
        rewrite host_after_app, <- Hhost. unfold host_after at 1. simpl.
        rewrite H1. simpl. rewrite H2. simpl. now rewrite H3.
      - intros Hnever.
        specialize (Hnever h2 _ (or_intror (or_intror (or_introl eq_refl)))).
        rewrite H3 in Hnever. discriminate. }
    repeat (split; [assumption|]).
    exists unregistrations. unfold unregistrations.
    rewrite Hcalls, <- !app_assoc. split; [reflexivity|].
    split; [reflexivity|].
    split; [congruence|].
    split; [intros _; repeat split; reflexivity|].
    split; [discriminate | reflexivity].
  - simpl. rewrite !Hctx0. simpl. rewrite ?Hctx0. simpl.
    repeat (split; [assumption|]).
    exists []. rewrite Hcalls, app_nil_r. split; [reflexivity|].
    split; [apply prefix_nil|].
    split; [reflexivity|].
    split; [intros _; split; [congruence | split; reflexivity]|].
    split; [discriminate | reflexivity].
Qed.

Lemma shutdown_done (w : World E) :
  healthTimer w = None -> cleanups w = [] -> ctx w = None -> client w = None ->
  shutdown w = (Ok tt, w).
Proof.
  destruct w. simpl. intros -> -> -> ->. reflexivity.
Qed.

(** Calls attempted in order stop at the first that throws. *)
Lemma attempted_stops (h : HostState E) (before after : list HostCall) (u : HostCall)
    (e : Exn) :
  (forall b1 v b2, before = (b1 ++ v :: b2)%list ->
                   fst (host_call E (host_after h b1) v) = None) ->
  fst (host_call E (host_after h before) u) = Some e ->
  attempted h (before ++ u :: after) = ((before ++ [u])%list, Some e).
Proof.
  revert h. induction before as [|b before IH]; intros h Hbefore Hu.
  - simpl in *. unfold host_after in Hu. simpl in Hu.
    destruct (host_call E h u) as [[e'|] h']; simpl in Hu; congruence.
  - pose proof (Hbefore [] b before eq_refl) as Hb. unfold host_after in Hb. simpl in Hb.
    cbn [app attempted]. destruct (host_call E h b) as [[e'|] h'] eqn:Hcall;
      simpl in Hb; [discriminate|].
    rewrite (IH h'); [reflexivity| |].
    + intros b1 v b2 Heq. specialize (Hbefore (b :: b1) v b2).
      unfold host_after in *. simpl in Hbefore. rewrite Hcall in Hbefore.
      apply Hbefore. now rewrite Heq.
    + unfold host_after in *. simpl in Hu. now rewrite Hcall in Hu.
Qed.

Lemma attempted_all (h : HostState E) (calls : list HostCall) :
  (forall b1 v b2, calls = (b1 ++ v :: b2)%list ->
                   fst (host_call E (host_after h b1) v) = None) ->
  attempted h calls = (calls, None).
Proof.
  revert h. induction calls as [|b calls IH]; intros h Hall; [reflexivity|].
  pose proof (Hall [] b calls eq_refl) as Hb. unfold host_after in Hb. simpl in Hb.
  cbn [attempted]. destruct (host_call E h b) as [[e'|] h'] eqn:Hcall;
    simpl in Hb; [discriminate|].
  rewrite (IH h'); [reflexivity|].
  intros b1 v b2 Heq. specialize (Hall (b :: b1) v b2).
  unfold host_after in *. simpl in Hall. rewrite Hcall in Hall.
  apply Hall. now rewrite Heq.
Qed.

(** How [shutdown] ends, for a plugin that holds a context: the
    unregistrations are attempted in order from the host the cleanups
    left; [shutdown] throws what the first failing one throws, with both
    references still held, and returns, with both released, when none
    fails. *)
Lemma shutdown_decided (w : World E) :
  ctx w <> None ->
  let w' := snd (shutdown w) in
  let drained := map Unsubscribe (cleanups w) in
  let '(made, thrown) := attempted (host_after (host w) drained) unregistrations in
  host_calls w' = (host_calls w ++ drained ++ made)%list
  /\ match thrown with
     | Some e => fst (shutdown w) = Throw e /\ client w' = client w /\ ctx w' = ctx w
     | None => fst (shutdown w) = Ok tt /\ client w' = None /\ ctx w' = None
     end.
Proof.
  intros Hheld w' drained. subst w'.
  destruct (shutdown_first_steps w)
    as (w0 & Hrun & _ & _ & _ & Hcalls & Hhost & Hctx & Hclient & _).
  rewrite Hrun. fold drained in Hcalls, Hhost. rewrite <- Hhost.
  unfold if_ctx, bind, call_host, modify, unregistrations. cbn [attempted].
  destruct (ctx w0) as [[]|] eqn:Hctx0; [|congruence].
  destruct (host_call E (host w0) (UnregisterConfigSchema "wopr-plugin-obsidian"))
    as [[e1|] h1]; simpl.
  { rewrite Hcalls, <- app_assoc. repeat split; congruence. }
  rewrite Hctx0.
  destruct (host_call E h1 (UnregisterContextProvider "obsidian")) as [[e2|] h2]; simpl.
  { rewrite Hcalls, <- !app_assoc. repeat split; congruence. }
  rewrite Hctx0.
  destruct (host_call E h2 (UnregisterExtension "obsidian")) as [[e3|] h3]; simpl.
  { rewrite Hcalls, <- !app_assoc. repeat split; congruence. }
  rewrite Hcalls, <- !app_assoc. repeat split.
Qed.

(** C4, as the code has it.  In every case [shutdown] stops the poller,
    invokes every accumulated cleanup, in order and whatever each of them
    does, and clears the registry.  It then attempts the unregistrations
    of the config schema, the context provider and the capability export
    in that order, each only after the ones before it returned, and
    releases the client and context references when all three returned (at
    once when no context is held).  An unregistration that throws ends
    [shutdown] with that exception: the later unregistrations are not
    made and both references stay held. *)
Theorem shutdown_steps_in_order (w : World E) :
  let w' := snd (shutdown w) in
  let drained := map Unsubscribe (cleanups w) in
  healthTimer w' = None
  /\ (forall t, healthTimer w = Some t -> ~ In t (timers w'))
  /\ cleanups w' = []
  /\ drained `prefix_of` calls_since w w'
  /\ (ctx w = None ->
      fst (shutdown w) = Ok tt /\ calls_since w w' = drained
      /\ client w' = None /\ ctx w' = None)
  /\ (ctx w <> None ->
      (forall (before after : list HostCall) (u : HostCall) (e : Exn),
          unregistrations = (before ++ u :: after)%list ->
          (forall b1 v b2,
              before = (b1 ++ v :: b2)%list ->
              fst (host_call E (host_after (host w) (drained ++ b1)) v) = None) ->
          fst (host_call E (host_after (host w) (drained ++ before)) u) = Some e ->
          fst (shutdown w) = Throw e
          /\ calls_since w w' = (drained ++ before ++ [u])%list
          /\ client w' = client w /\ ctx w' = ctx w)
      /\ ((forall b1 v b2,
              unregistrations = (b1 ++ v :: b2)%list ->
              fst (host_call E (host_after (host w) (drained ++ b1)) v) = None) ->
          fst (shutdown w) = Ok tt
          /\ calls_since w w' = (drained ++ unregistrations)%list
          /\ client w' = None /\ ctx w' = None)).
Proof.
  intros w' drained.
  destruct (shutdown_outcome w)
    as (Htimer & Htimers & Hreg & _ & made & Hcalls & _ & Hnone & Hok & _).
  fold w' in Htimer, Htimers, Hreg, Hcalls, Hok. fold drained in Hcalls.
  assert (Hsince : calls_since w w' = (drained ++ made)%list).
  { unfold calls_since. rewrite Hcalls. apply drop_app_length. }
  repeat (split; [assumption|]).
  split; [rewrite Hsince; now apply prefix_app_r|].
  split.
  { intros Hno. rewrite Hsince, (Hnone Hno), app_nil_r.
    destruct (shutdown_first_steps w) as (w0 & Hrun & _ & _ & _ & _ & _ & Hctx0 & _).
    assert (Hret : fst (shutdown w) = Ok tt).
    { rewrite Hrun. unfold if_ctx, bind, modify. rewrite Hctx0, Hno. simpl.
      rewrite Hctx0, Hno. simpl. now rewrite Hctx0, Hno. }
    split; [exact Hret|]. split; [reflexivity|]. now apply Hok. }
  intros Hheld.
  pose proof (shutdown_decided w Hheld) as Hdecided. cbv zeta in Hdecided.
  fold w' drained in Hdecided.
  assert (Hshift : forall calls, host_after (host w) (drained ++ calls)
                                 = host_after (host_after (host w) drained) calls)
    by (intros calls; apply host_after_app).
  split.
  - intros before after u e Hsplit Hbefore Hu.
    rewrite Hsplit, (attempted_stops _ before after u e) in Hdecided.
    + destruct Hdecided as (Hmade & Hthrown & Hrefs).
      split; [exact Hthrown|]. split; [|exact Hrefs].
      unfold calls_since. rewrite Hmade. apply drop_app_length.
    + intros b1 v b2 Heq. rewrite <- Hshift. eapply Hbefore; eassumption.
    + now rewrite <- Hshift.
  - intros Hall. rewrite attempted_all in Hdecided.
    + destruct Hdecided as (Hmade & Hret & Hrefs).
      split; [exact Hret|]. split; [|exact Hrefs].
      unfold calls_since. rewrite Hmade. apply drop_app_length.
    + intros b1 v b2 Heq. rewrite <- Hshift. eapply Hall; eassumption.
Qed.

(** C5, as the code has it.  Once [shutdown] has returned, a further call
    returns and changes nothing: the timer, the cleanup registry, what the
    host holds, the calls made to it and both references stay as they are.
    A further call never stops a timer or invokes a cleanup again.  But
    when the first call was ended by an unregistration that threw, the
    context is still held, and the second call is not without effect: it
    attempts the unregistrations again, from the first, and when they now
    return it releases both references. *)
Theorem shutdown_idempotent (w : World E) :
  let w1 := snd (shutdown w) in
  let w2 := snd (shutdown w1) in
  (fst (shutdown w) = Ok tt -> shutdown w1 = (Ok tt, w1))
  /\ healthTimer w2 = healthTimer w1 /\ cleanups w2 = cleanups w1
  /\ (forall e,
        fst (shutdown w) = Throw e ->
        ctx w1 = Some HostContext /\ ctx w1 = ctx w /\ client w1 = client w
        /\ (exists made,
              calls_since w1 w2 = UnregisterConfigSchema "wopr-plugin-obsidian" :: made
              /\ calls_since w1 w2 `prefix_of` unregistrations)
        /\ w2 <> w1
        /\ (fst (shutdown w1) = Ok tt ->
            calls_since w1 w2 = unregistrations /\ client w2 = None /\ ctx w2 = None)).
Proof.
  intros w1 w2.
  destruct (shutdown_outcome w)
    as (Htimer & _ & Hreg & _ & made & _ & _ & Hnone & Hok & Hthrew & _).
  fold w1 in Htimer, Hreg, Hok, Hthrew.
  destruct (shutdown_outcome w1)
    as (Htimer2 & _ & Hreg2 & _ & made2 & Hcalls2 & Hprefix2 & _ & Hok2 & _).
  fold w2 in Htimer2, Hreg2, Hcalls2, Hok2.
  rewrite Hreg in Hcalls2. simpl in Hcalls2.
  assert (Hsince : calls_since w1 w2 = made2).
  { unfold calls_since. rewrite Hcalls2. apply drop_app_length. }
  split.
  { intros Hret. destruct (Hok Hret) as (_ & Hclient & Hctx).
    assert (Hpair : shutdown w = (Ok tt, w1)).
    { subst w1. destruct (shutdown w) as [r v]. simpl in Hret. now subst r. }
    now apply shutdown_done. }
  split; [congruence|]. split; [congruence|].
  intros e Hthrow. destruct (Hthrew e Hthrow) as (Hctx1 & Hclient1 & before & u & Hmade & _).
  assert (Hheld : ctx w <> None).
  { intros Hno. rewrite (Hnone Hno) in Hmade. now destruct before. }
  assert (Hheld1 : ctx w1 = Some HostContext).
  { rewrite Hctx1. destruct (ctx w) as [[]|]; congruence. }
  split; [exact Hheld1|]. split; [exact Hctx1|]. split; [exact Hclient1|].
  pose proof (shutdown_decided w1) as Hdecided. cbv zeta in Hdecided.
  fold w2 in Hdecided. rewrite Hreg in Hdecided. simpl in Hdecided.
  unfold host_after in Hdecided. simpl in Hdecided.
  assert (Hfirst : exists rest,
             made2 = UnregisterConfigSchema "wopr-plugin-obsidian" :: rest).
  { destruct (host_call E (host w1) (UnregisterConfigSchema "wopr-plugin-obsidian"))
      as [[e1|] h1]; simpl in Hdecided.
    - destruct Hdecided as (Hcalls & _); [congruence|].
      rewrite Hcalls2 in Hcalls. apply app_inv_head in Hcalls. eauto.
    - destruct (host_call E h1 (UnregisterContextProvider "obsidian")) as [[e2|] h2];
        simpl in Hdecided;
        [|destruct (host_call E h2 (UnregisterExtension "obsidian")) as [[e3|] h3];
          simpl in Hdecided];
        (destruct Hdecided as (Hcalls & _); [congruence|]);
        rewrite Hcalls2 in Hcalls; apply app_inv_head in Hcalls; eauto. }
  destruct Hfirst as [rest Hrest].
  split; [exists rest; rewrite Hsince; split; [exact Hrest | exact Hprefix2]|].
  split.
  { intros Hsame. rewrite Hsame in Hcalls2.
    rewrite <- (app_nil_r (host_calls w1)) in Hcalls2 at 1.
    apply app_inv_head in Hcalls2. congruence. }
  intros Hret. destruct (Hok2 Hret) as (Hall & Hrefs).
  split; [rewrite Hsince; apply Hall; congruence | exact Hrefs].
Qed.

End PluginFacts.

(** ** The repository's tests, replayed on the model *)

Section Replayed.

Import Sample.

Example ping_true_when_server_responds_ok :
  fst (Client.ping 0%nat (running (calm_host None Null) false [respond 200 "OK" empty_body]))
  = Ok true.
Proof. reflexivity. Qed.

Example ping_false_when_fetch_throws :
  fst (Client.ping 0%nat (running (calm_host None Null) true [])) = Ok false.
Proof. reflexivity. Qed.

Example read_encodes_the_path :
  map req_url
    (requests (snd (Client.read 0%nat "Notes/Test.md"
                      (running (calm_host None Null) true
                         [respond 200 "OK" (note_body (note "Notes/Test.md" "hello"))]))))
  = ["http://127.0.0.1:27123/vault/Notes%2FTest.md"].
Proof. reflexivity. Qed.

Example read_throws_on_non_ok_response :
  fst (Client.read 0%nat "missing.md"
         (running (calm_host None Null) true [respond 404 "Error" empty_body]))
  = Throw (JsError "Error"
             ("Failed to read note " +:+ dquote +:+ "missing.md" +:+ dquote +:+ ": 404 Error")).
Proof. reflexivity. Qed.

Example write_sends_put_request :
  map (fun r => (req_method r, req_body r))
    (requests (snd (Client.write 0%nat "WOPR/test.md" "# Hello"
                      (running (calm_host None Null) true [respond 204 "No Content" empty_body]))))
  = [(PUT, Some "# Hello")].
Proof. reflexivity. Qed.

Example list_defaults_to_root :
  map req_url
    (requests (snd (Tools.buildA2ATools 0%nat (Tools.obsidian_list (Some {| Tools.folder := None |}))
                      (running (calm_host None Null) true
                         [respond 200 "OK" (listing_body None)]))))
  = ["http://127.0.0.1:27123/vault/"].
Proof. reflexivity. Qed.

Example search_tool_returns_error_on_failure :
  fst (Tools.buildA2ATools 0%nat (Tools.obsidian_search (Tools.Given two_of_foo))
         (running (calm_host None Null) true []))
  = Ok (Tools.err (JsError "TypeError" "fetch failed")).
Proof. reflexivity. Qed.

Example cleanups_go_on_after_a_throw :
  host_calls (snd (Plugin.shutdown locked))
  = [Unsubscribe 1%nat; Unsubscribe 2%nat; UnregisterConfigSchema "wopr-plugin-obsidian"].
Proof. reflexivity. Qed.

End Replayed.

(** ** The theorems at work on the sample environment *)

Section Witnesses.

Import Sample.
Import Plugin.

Lemma no_context_cases_witness :
  ctx idle = Some HostContext /\ client idle = Some 0%nat
  /\ heap idle !! 0%nat = Some (the_client true)
  /\ (exists e w1, Client.search 0%nat "meeting notes" None idle = (Throw e, w1))
  /\ fst (getContext "s1" hello idle) = Ok None.
Proof.
  split; [reflexivity|]. split; [reflexivity|]. split; [reflexivity|].
  split; [eexists _, _; reflexivity|].
  destruct (no_context_cases (E := env) "s1" hello 0%nat (the_client true) idle
              eq_refl eq_refl eq_refl) as (w' & Hrun & _).
  - right. right. right. eexists _, _, _. split; reflexivity.
  - now rewrite Hrun.
Defined.

Lemma context_block_shape_witness :
  Client.search 0%nat "meeting notes" None serving
  = (Ok three_hits, snd (Client.search 0%nat "meeting notes" None serving))
  /\ slice 0 2 three_hits <> []
  /\ exists notes : list string,
      fst (getContext "s1" hello serving)
      = Ok (Some {| part_content :=
                      "## Relevant notes from your Obsidian vault:" +:+ nl +:+ nl
                      +:+ join (nl +:+ nl +:+ "---" +:+ nl +:+ nl) notes;
                    role := "system";
                    metadata := {| source := "obsidian"; priority := 30; noteCount := 2 |} |})
      /\ length notes = 2%nat
      /\ (maxContextNotes (host_config env (host trimming)) = Some (-1)
          /\ slice 0 (-1) three_hits <> []
          /\ exists kept : list string,
              fst (getContext "s1" hello trimming)
              = Ok (Some {| part_content :=
                              "## Relevant notes from your Obsidian vault:" +:+ nl +:+ nl
                              +:+ join (nl +:+ nl +:+ "---" +:+ nl +:+ nl) kept;
                            role := "system";
                            metadata := {| source := "obsidian"; priority := 30;
                                           noteCount := 2 |} |})
              /\ Z.of_nat (length kept) = 3 + -1).
Proof.
  split; [reflexivity|]. split; [discriminate|].
  destruct (context_block_shape (E := env) "s1" "meeting notes" hello 0%nat
              (the_client true) three_hits serving
              (snd (Client.search 0%nat "meeting notes" None serving))
              eq_refl eq_refl eq_refl eq_refl eq_refl eq_refl eq_refl eq_refl)
    as (notes & w' & Hrun & _ & Hcount & _); [discriminate|].
  exists notes. rewrite Hrun. split; [reflexivity|]. split; [exact Hcount|].
  split; [reflexivity|]. split; [discriminate|].
  destruct (context_block_shape (E := env) "s1" "meeting notes" hello 0%nat
              (the_client true) three_hits trimming
              (snd (Client.search 0%nat "meeting notes" None trimming))
              eq_refl eq_refl eq_refl eq_refl eq_refl eq_refl eq_refl eq_refl)
    as (kept & v' & Hkept & _ & _ & _ & _ & _ & Hnegative & _); [discriminate|].
  exists kept. rewrite Hkept. split; [reflexivity|].
  exact (proj2 (Hnegative eq_refl)).
Defined.

Lemma session_archive_written_witness :
  ctx idle = Some HostContext
  /\ exists (o : ObsidianClient) (document : string),
      requests (snd (on_session_destroy teardown idle))
      = [write_request o "WOPR/sessions/2026-11-03-s1.md" document].
Proof.
  split; [reflexivity|].
  destruct (session_archive_written (E := env) teardown idle eq_refl)
    as (_ & Hwrite & _).
  destruct (Hwrite eq_refl) as (c & o & document & _ & _ & Hsent).
  exists o, document. rewrite Hsent. reflexivity.
Defined.

Lemma shutdown_steps_in_order_witness :
  ctx locked <> None
  /\ fst (shutdown locked) = Throw (JsError "Error" "schema registry is locked")
  /\ calls_since locked (snd (shutdown locked))
     = [Unsubscribe 1%nat; Unsubscribe 2%nat; UnregisterConfigSchema "wopr-plugin-obsidian"]
  /\ client (snd (shutdown locked)) = Some 0%nat.
Proof.
  assert (Hheld : ctx locked <> None) by discriminate.
  split; [exact Hheld|].
  destruct (shutdown_steps_in_order (E := env) locked) as (_ & _ & _ & _ & _ & Hsteps).
  destruct (Hsteps Hheld) as (Hrefused & _).
  destruct (Hrefused [] [UnregisterContextProvider "obsidian"; UnregisterExtension "obsidian"]
              (UnregisterConfigSchema "wopr-plugin-obsidian")
              (JsError "Error" "schema registry is locked") eq_refl)
    as (Hthrow & Hcalls & Hclient & _).
  - intros b1 v b2 Heq. destruct b1; discriminate.
  - reflexivity.
  - split; [exact Hthrow|]. split; [exact Hcalls | exact Hclient].
Defined.

Lemma shutdown_idempotent_witness :
  fst (shutdown thawing) = Throw (JsError "Error" "schema registry is locked")
  /\ fst (shutdown (snd (shutdown thawing))) = Ok tt
  /\ client (snd (shutdown thawing)) = Some 0%nat
  /\ client (snd (shutdown (snd (shutdown thawing)))) = None
  /\ (fst (shutdown idle) = Ok tt
      /\ shutdown (snd (shutdown idle)) = (Ok tt, snd (shutdown idle))).
Proof.
  split; [reflexivity|]. split; [reflexivity|].
  destruct (shutdown_idempotent (E := env) thawing) as (_ & _ & _ & Hthrew).
  destruct (Hthrew _ eq_refl) as (_ & _ & Hclient & _ & _ & Hreturns).
  split; [exact Hclient|].
  split; [exact (proj1 (proj2 (Hreturns eq_refl)))|].
  split; [reflexivity|].
  exact (proj1 (shutdown_idempotent (E := env) idle) eq_refl).
Defined.


Lemma ping_reports_liveness_witness :
  heap idle !! 0%nat = Some (the_client true)
  /\ fst (Client.ping 0%nat idle) = Ok false.
Proof.
  split; [reflexivity|].
  destruct (ping_reports_liveness (E := env) 0%nat (the_client true) idle eq_refl)
    as (answer & w' & Hrun & _ & _ & _ & _ & Hdown).
  rewrite Hrun. simpl. f_equal. apply Hdown. left. eexists. reflexivity.
Defined.

Lemma search_tool_truncates_witness :
  Client.search 0%nat "foo" None searching
  = (Ok three_hits, snd (Client.search 0%nat "foo" None searching))
  /\ fst (Tools.buildA2ATools 0%nat (Tools.obsidian_search (Tools.Given two_of_foo)) searching)
     = Ok (Tools.ok (E := env) (JArr (map (Tools.search_item (E := env)) (take 2 three_hits))))
  /\ fst (Tools.buildA2ATools 0%nat (Tools.obsidian_search (Tools.Given all_but_last))
            searching)
     = Ok (Tools.ok (E := env) (JArr (map (Tools.search_item (E := env)) (take 2 three_hits)))).
Proof.
  split; [reflexivity|].
  destruct (search_tool_truncates (E := env) 0%nat two_of_foo three_hits searching
              (snd (Client.search 0%nat "foo" None searching)) eq_refl)
    as (Hrun & _).
  rewrite Hrun. split; [reflexivity|].
  destruct (search_tool_truncates (E := env) 0%nat all_but_last three_hits searching
              (snd (Client.search 0%nat "foo" None searching)) eq_refl)
    as (Hlast & _ & _ & _ & _ & Hnegative & _).
  rewrite Hlast. rewrite (proj1 (Hnegative eq_refl)). reflexivity.
Defined.

Lemma extension_contract_witness :
  client searching = Some 0%nat
  /\ fst (extension_search "foo" None searching) = Ok three_hits
  /\ fst (extension_search "foo" (Some (-1)) searching) = Ok (take 2 three_hits)
  /\ client (snd (shutdown idle)) = None
  /\ extension_isConnected (snd (shutdown idle)) = (Ok false, snd (shutdown idle)).
Proof.
  destruct (extension_contract (E := env)) as (Hsearch & Hreleased).
  split; [reflexivity|]. split.
  - destruct (Hsearch "foo" None 0%nat three_hits searching
                (snd (Client.search 0%nat "foo" None searching)) eq_refl eq_refl)
      as (Hrun & _).
    rewrite Hrun. reflexivity.
  - split.
    + destruct (Hsearch "foo" (Some (-1)) 0%nat three_hits searching
                  (snd (Client.search 0%nat "foo" None searching)) eq_refl eq_refl)
        as (Hrun & _ & _ & _ & Hnegative & _).
      rewrite Hrun, (proj1 (Hnegative eq_refl)). reflexivity.
    + split; [reflexivity|]. apply Hreleased. reflexivity.
Defined.

(** C4 as stated fails: when the unregistration of the config schema
    throws, the context provider and the capability export are not
    unregistered and the client reference is not released. *)
Lemma shutdown_stops_at_a_throwing_unregistration : ~ every_step_ran locked.
Proof.
  unfold every_step_ran. intros (_ & _ & _ & _ & _ & Hclient).
  vm_compute in Hclient. discriminate.
Qed.

(** C2 as stated fails: with [maxContextNotes] set to -1 and three hits,
    [slice(0, -1)] keeps two of them, and the block has two sections. *)
Lemma negative_bound_keeps_sections : ~ sections_within_bound "s1" hello trimming.
Proof.
  intros Hbound. destruct (Hbound _ eq_refl) as (notes & _ & Hle).
  simpl in Hle. lia.
Qed.

(** C5 as stated fails: when the schema registry refuses the first
    unregistration once, the first [shutdown] throws with the client still
    held, and the second one makes the three unregistrations and releases
    it. *)
Lemma second_shutdown_finishes_the_first : ~ second_call_unobservable thawing.
Proof.
  unfold second_call_unobservable. intros (_ & _ & _ & _ & Hclient & _).
  vm_compute in Hclient. discriminate.
Qed.


(** C9 as stated fails: with the limit -1 and three results the search
    tool returns two items. *)
Lemma negative_limit_in_the_tool : ~ tool_within_limit 0%nat all_but_last searching.
Proof.
  intros Hlimit.
  destruct (Hlimit three_hits _ (pair_of_fst _ _ eq_refl)) as (shown & _ & Hle).
  simpl in Hle. lia.
Qed.

(** C10 as stated fails: with the limit -1 and three results the search
    of the capability object returns two. *)
Lemma negative_limit_in_the_extension :
  ~ extension_within_limit "foo" (Some (-1)) searching.
Proof.
  intros Hlimit. pose proof (Hlimit _ eq_refl) as Hle. vm_compute in Hle.
  now apply Hle.
Qed.

End Witnesses.

(** * Further properties of the code *)

(** ** The client's methods, one by one *)

Section ClientRuns.

Context {E : Env}.

Lemma fetch_run (req : Request) (w : World E) :
  fetch req w
  = match fst (serve E (vault w) req) with
    | NetworkError e => (Throw e, sent req w)
    | Responded res => (Ok res, sent req w)
    end.
Proof.
  unfold fetch, sent. now destruct (serve E (vault w) req) as [[e|res] s].
Qed.

Lemma read_run (this : ClientRef) (o : ObsidianClient) (path : string) (w : World E) :
  heap w !! this = Some o ->
  Client.read this path w
  = match fst (serve E (vault w) (read_request o path)) with
    | NetworkError e => (Throw e, sent (read_request o path) w)
    | Responded res =>
        if ok_status res
        then (as_note (body res), sent (read_request o path) w)
        else (Throw (Client.request_failed ("Failed to read note " +:+ Client.quoted path) res),
              sent (read_request o path) w)
    end.
Proof.
  intros Hobj. unfold Client.read, bind, deref. rewrite Hobj.
  fold (read_request o path). rewrite fetch_run.
  destruct (fst (serve E (vault w) (read_request o path))) as [e|res]; [reflexivity|].
  destruct (ok_status res); [|reflexivity].
  cbn [negb]. unfold json, ret, throw. now destruct (as_note (body res)).
Qed.

Lemma write_run (this : ClientRef) (o : ObsidianClient) (path content : string) (w : World E) :
  heap w !! this = Some o ->
  Client.write this path content w
  = match fst (serve E (vault w) (write_request o path content)) with
    | NetworkError e => (Throw e, sent (write_request o path content) w)
    | Responded res =>
        if ok_status res
        then (Ok tt, sent (write_request o path content) w)
        else (Throw (Client.request_failed ("Failed to write note " +:+ Client.quoted path) res),
              sent (write_request o path content) w)
    end.
Proof.
  intros Hobj. unfold Client.write, bind, deref. rewrite Hobj.
  fold (write_request o path content). rewrite fetch_run.
  destruct (fst (serve E (vault w) (write_request o path content))) as [e|res]; [reflexivity|].
  now destruct (ok_status res).
Qed.

Lemma append_run (this : ClientRef) (o : ObsidianClient) (path content : string) (w : World E) :
  heap w !! this = Some o ->
  Client.append this path content w
  = match fst (serve E (vault w) (append_request o path content)) with
    | NetworkError e => (Throw e, sent (append_request o path content) w)
    | Responded res =>
        if ok_status res
        then (Ok tt, sent (append_request o path content) w)
        else (Throw (Client.request_failed ("Failed to append to note " +:+ Client.quoted path) res),
              sent (append_request o path content) w)
    end.
Proof.
  intros Hobj. unfold Client.append, bind, deref. rewrite Hobj.
  fold (append_request o path content). rewrite fetch_run.
  destruct (fst (serve E (vault w) (append_request o path content))) as [e|res]; [reflexivity|].
  now destruct (ok_status res).
Qed.

Lemma search_run (this : ClientRef) (o : ObsidianClient) (query : string) (len : option Z)
    (w : World E) :
  heap w !! this = Some o ->
  Client.search this query len w
  = match search_url o with
    | Throw e => (Throw e, w)
    | Ok _ =>
        match fst (serve E (vault w) (search_request o query (default 200 len))) with
        | NetworkError e => (Throw e, sent (search_request o query (default 200 len)) w)
        | Responded res =>
            if ok_status res
            then (as_results (body res), sent (search_request o query (default 200 len)) w)
            else (Throw (JsError "Error" ("Search failed: " +:+ status_text res)),
                  sent (search_request o query (default 200 len)) w)
        end
    end.
Proof.
  intros Hobj. unfold Client.search. unfold bind at 1. unfold deref. rewrite Hobj.
  unfold bind at 1. unfold library, search_request. unfold search_url.
  destruct (new_URL (baseUrl o +:+ "/search/simple/")) as [url|e]; [|reflexivity].
  unfold bind. rewrite fetch_run.
  match goal with
  | |- context [serve E (vault w) ?req] => destruct (fst (serve E (vault w) req)) as [e|res]
  end; [reflexivity|].
  destruct (ok_status res); [|reflexivity].
  cbn [negb]. unfold json, ret, throw. now destruct (as_results (body res)).
Qed.

Lemma list_run (this : ClientRef) (o : ObsidianClient) (folder : option string) (w : World E) :
  heap w !! this = Some o ->
  let dir := default EmptyString folder in
  Client.list this folder w
  = match fst (serve E (vault w) (list_request o dir)) with
    | NetworkError e => (Throw e, sent (list_request o dir) w)
    | Responded res =>
        if ok_status res
        then (match as_listing (body res) with
              | Ok files => Ok (default [] files)
              | Throw e => Throw e
              end, sent (list_request o dir) w)
        else (Throw (Client.request_failed ("Failed to list folder " +:+ Client.quoted dir) res),
              sent (list_request o dir) w)
    end.
Proof.
  intros Hobj dir. unfold Client.list, bind, deref. rewrite Hobj.
  fold dir. fold (list_request o dir). rewrite fetch_run.
  destruct (fst (serve E (vault w) (list_request o dir))) as [e|res]; [reflexivity|].
  destruct (ok_status res); [|reflexivity].
  cbn [negb]. unfold json, ret, throw. now destruct (as_listing (body res)).
Qed.

Lemma read_sends (this : ClientRef) (o : ObsidianClient) (path : string) (w : World E) :
  heap w !! this = Some o ->
  requests (snd (Client.read this path w)) = (requests w ++ [read_request o path])%list.
Proof.
  intros Hobj. rewrite (read_run this o) by assumption.
  destruct (fst (serve E (vault w) (read_request o path))) as [e|res]; [reflexivity|].
  now destruct (ok_status res).
Qed.

Lemma search_sends (this : ClientRef) (o : ObsidianClient) (query : string) (len : option Z)
    (w : World E) :
  heap w !! this = Some o ->
  requests (snd (Client.search this query len w))
  = (requests w ++ search_sent o query (default 200 len))%list.
Proof.
  intros Hobj. rewrite (search_run this o) by assumption. unfold search_sent.
  destruct (search_url o) as [url|e]; [|simpl; now rewrite app_nil_r].
  destruct (fst (serve E (vault w) (search_request o query (default 200 len)))) as [e|res];
    [reflexivity|].
  now destruct (ok_status res).
Qed.

Lemma append_sends (this : ClientRef) (o : ObsidianClient) (path content : string)
    (w : World E) :
  heap w !! this = Some o ->
  requests (snd (Client.append this path content w))
  = (requests w ++ [append_request o path content])%list.
Proof.
  intros Hobj. rewrite (append_run this o) by assumption.
  destruct (fst (serve E (vault w) (append_request o path content))) as [e|res];
    [reflexivity|].
  now destruct (ok_status res).
Qed.

(** A search that returns has sent its request. *)
Lemma search_returned (this : ClientRef) (o : ObsidianClient) (query : string)
    (len : option Z) (results : list (ObsidianSearchResult (Score E))) (w w1 : World E) :
  heap w !! this = Some o ->
  Client.search this query len w = (Ok results, w1) ->
  exists href, search_url o = Ok href.
Proof.
  intros Hobj Hrun. rewrite (search_run this o) in Hrun by assumption.
  destruct (search_url o) as [href|e]; [eauto | discriminate].
Qed.

End ClientRuns.

Section ClientContract.

Context {E : Env}.

(** X1. A call of [read], [write], [append] or [list] sends exactly one
    request, the one of the method, whether the call returns or throws: no
    method retries.  [search] builds its URL with [new URL] first: when
    that throws (a base URL whose port is no port), [search] throws the
    same [TypeError] and sends nothing; otherwise it sends exactly one
    request, to the href, with the query and the context length as search
    parameters. *)
Theorem one_request_per_call (this : ClientRef) (o : ObsidianClient) (w : World E) :
  heap w !! this = Some o ->
  (forall path,
      requests (snd (Client.read this path w)) = (requests w ++ [read_request o path])%list)
  /\ (forall path content,
      requests (snd (Client.write this path content w))
      = (requests w ++ [write_request o path content])%list)
  /\ (forall path content,
      requests (snd (Client.append this path content w))
      = (requests w ++ [append_request o path content])%list
      /\ append_request o path content
         = {| req_method := POST;
              req_url := req_url (write_request o path content);
              req_query := req_query (write_request o path content);
              req_headers := req_headers (write_request o path content);
              req_body := req_body (write_request o path content) |})
  /\ (forall query len,
      (forall href,
          new_URL (baseUrl o +:+ "/search/simple/") = Ok href ->
          requests (snd (Client.search this query len w))
          = (requests w ++
             [{| req_method := GET;
                 req_url := href;
                 req_query := [("query", query);
                               ("contextLength", decimal (default 200 len))];
                 req_headers := headers o;
                 req_body := None |}])%list)
      /\ (forall e,
          new_URL (baseUrl o +:+ "/search/simple/") = Throw e ->
          Client.search this query len w = (Throw e, w)))
  /\ (forall folder,
      requests (snd (Client.list this folder w))
      = (requests w ++ [list_request o (default EmptyString folder)])%list).
Proof.
  intros Hobj. repeat split; intros.
  - rewrite (read_run this o) by assumption.
    destruct (fst (serve E (vault w) (read_request o path))) as [e|res]; [reflexivity|].
    now destruct (ok_status res).
  - rewrite (write_run this o) by assumption.
    destruct (fst (serve E (vault w) (write_request o path content))) as [e|res];
      [reflexivity|].
    now destruct (ok_status res).
  - rewrite (append_run this o) by assumption.
    destruct (fst (serve E (vault w) (append_request o path content))) as [e|res];
      [reflexivity|].
    now destruct (ok_status res).
  - rewrite (search_sends this o) by assumption.
    unfold search_sent, search_request, search_url. now rewrite H.
  - rewrite (search_run this o) by assumption. unfold search_url. now rewrite H.
  - rewrite (list_run this o) by assumption.
    destruct (fst (serve E (vault w) (list_request o (default EmptyString folder))))
      as [e|res]; [reflexivity|].
    now destruct (ok_status res).
Qed.

(** X2. When the server answers with a status outside 200..299, each of the
    five methods throws an [Error] whose message names the operation and
    ends with the numeric status and the status text.  ([search] asks the
    server only once [new URL] has accepted its URL; it throws what
    [new URL] throws otherwise.) *)
Theorem bad_status_is_thrown (this : ClientRef) (o : ObsidianClient) (w : World E)
    (res : Response (Score E)) :
  heap w !! this = Some o ->
  ok_status res = false ->
  (forall path,
      fst (serve E (vault w) (read_request o path)) = Responded res ->
      fst (Client.read this path w)
      = Throw (JsError "Error"
                 (("Failed to read note " +:+ dquote +:+ path +:+ dquote)
                  +:+ ": " +:+ decimal (status res) +:+ " " +:+ statusText res)))
  /\ (forall path content,
      fst (serve E (vault w) (write_request o path content)) = Responded res ->
      fst (Client.write this path content w)
      = Throw (JsError "Error"
                 (("Failed to write note " +:+ dquote +:+ path +:+ dquote)
                  +:+ ": " +:+ decimal (status res) +:+ " " +:+ statusText res)))
  /\ (forall path content,
      fst (serve E (vault w) (append_request o path content)) = Responded res ->
      fst (Client.append this path content w)
      = Throw (JsError "Error"
                 (("Failed to append to note " +:+ dquote +:+ path +:+ dquote)
                  +:+ ": " +:+ decimal (status res) +:+ " " +:+ statusText res)))
  /\ (forall query len,
      fst (serve E (vault w) (search_request o query (default 200 len))) = Responded res ->
      fst (Client.search this query len w)
      = Throw match new_URL (baseUrl o +:+ "/search/simple/") with
              | Ok _ =>
                  JsError "Error"
                    ("Search failed: " +:+ decimal (status res) +:+ " " +:+ statusText res)
              | Throw invalid => invalid
              end)
  /\ (forall folder,
      fst (serve E (vault w) (list_request o (default EmptyString folder))) = Responded res ->
      fst (Client.list this folder w)
      = Throw (JsError "Error"
                 (("Failed to list folder " +:+ dquote +:+ default EmptyString folder +:+ dquote)
                  +:+ ": " +:+ decimal (status res) +:+ " " +:+ statusText res))).
Proof.
  intros Hobj Hbad. repeat split; intros *; intros Hserve.
  - rewrite (read_run this o) by assumption. now rewrite Hserve, Hbad.
  - rewrite (write_run this o) by assumption. now rewrite Hserve, Hbad.
  - rewrite (append_run this o) by assumption. now rewrite Hserve, Hbad.
  - rewrite (search_run this o) by assumption. unfold search_url.
    destruct (new_URL _); [now rewrite Hserve, Hbad | reflexivity].
  - rewrite (list_run this o) by assumption. cbv zeta. now rewrite Hserve, Hbad.
Qed.

(** X3. When the request itself fails, each of the five methods throws the
    very exception [fetch] rejected with, while [ping] on the same failure
    returns [false].  ([search] gets to [fetch] only once [new URL] has
    accepted its URL; it throws what [new URL] throws otherwise.) *)
Theorem transport_failure_propagates (this : ClientRef) (o : ObsidianClient) (w : World E)
    (e : Exn) :
  heap w !! this = Some o ->
  (forall path,
      fst (serve E (vault w) (read_request o path)) = NetworkError e ->
      fst (Client.read this path w) = Throw e)
  /\ (forall path content,
      fst (serve E (vault w) (write_request o path content)) = NetworkError e ->
      fst (Client.write this path content w) = Throw e)
  /\ (forall path content,
      fst (serve E (vault w) (append_request o path content)) = NetworkError e ->
      fst (Client.append this path content w) = Throw e)
  /\ (forall query len,
      fst (serve E (vault w) (search_request o query (default 200 len))) = NetworkError e ->
      fst (Client.search this query len w)
      = Throw match new_URL (baseUrl o +:+ "/search/simple/") with
              | Ok _ => e
              | Throw invalid => invalid
              end)
  /\ (forall folder,
      fst (serve E (vault w) (list_request o (default EmptyString folder))) = NetworkError e ->
      fst (Client.list this folder w) = Throw e)
  /\ (fst (serve E (vault w) (ping_request o)) = NetworkError e ->
      fst (Client.ping this w) = Ok false).
Proof.
  intros Hobj. repeat split; intros *; intros Hserve.
  - rewrite (read_run this o) by assumption. now rewrite Hserve.
  - rewrite (write_run this o) by assumption. now rewrite Hserve.
  - rewrite (append_run this o) by assumption. now rewrite Hserve.
  - rewrite (search_run this o) by assumption. unfold search_url.
    destruct (new_URL _); [now rewrite Hserve | reflexivity].
  - rewrite (list_run this o) by assumption. cbv zeta. now rewrite Hserve.
  - rewrite (ping_run this o) by assumption. now rewrite Hserve.
Qed.

(** X4. On a status from 200 to 299, [read] and [search] return what the
    body parses to and throw what the parse throws; [write] and [append]
    return without looking at the body.  ([search] asks the server only
    once [new URL] has accepted its URL; it throws what [new URL] throws
    otherwise.) *)
Theorem success_results (this : ClientRef) (o : ObsidianClient) (w : World E)
    (res : Response (Score E)) :
  heap w !! this = Some o ->
  ok_status res = true ->
  (forall path,
      fst (serve E (vault w) (read_request o path)) = Responded res ->
      fst (Client.read this path w) = as_note (body res))
  /\ (forall path content,
      fst (serve E (vault w) (write_request o path content)) = Responded res ->
      fst (Client.write this path content w) = Ok tt)
  /\ (forall path content,
      fst (serve E (vault w) (append_request o path content)) = Responded res ->
      fst (Client.append this path content w) = Ok tt)
  /\ (forall query len,
      fst (serve E (vault w) (search_request o query (default 200 len))) = Responded res ->
      fst (Client.search this query len w)
      = match new_URL (baseUrl o +:+ "/search/simple/") with
        | Ok _ => as_results (body res)
        | Throw invalid => Throw invalid
        end).
Proof.
  intros Hobj Hgood. repeat split; intros *; intros Hserve.
  - rewrite (read_run this o) by assumption. now rewrite Hserve, Hgood.
  - rewrite (write_run this o) by assumption. now rewrite Hserve, Hgood.
  - rewrite (append_run this o) by assumption. now rewrite Hserve, Hgood.
  - rewrite (search_run this o) by assumption. unfold search_url.
    destruct (new_URL _); [now rewrite Hserve, Hgood | reflexivity].
Qed.

(** X5. [list] without a folder and [list] of the empty folder are the same
    call, a GET of [<base>/vault/]; a named folder is listed at
    [<base>/vault/<encoded folder>/].  When the server answers 2xx with a
    body that has no [files] field the result is the empty list, and a
    [files] field is returned as it is. *)
Theorem list_root_and_missing_files (this : ClientRef) (o : ObsidianClient) (w : World E) :
  heap w !! this = Some o ->
  Client.list this None w = Client.list this (Some EmptyString) w
  /\ req_url (list_request o EmptyString) = baseUrl o +:+ "/vault/"
  /\ (forall c folder,
        req_url (list_request o (String c folder))
        = baseUrl o +:+ "/vault/" +:+ encodeURIComponent (String c folder) +:+ "/")
  /\ (forall folder res,
        fst (serve E (vault w) (list_request o (default EmptyString folder))) = Responded res ->
        ok_status res = true ->
        (as_listing (body res) = Ok None -> fst (Client.list this folder w) = Ok [])
        /\ (forall files, as_listing (body res) = Ok (Some files) ->
                          fst (Client.list this folder w) = Ok files)
        /\ (forall e, as_listing (body res) = Throw e ->
                      fst (Client.list this folder w) = Throw e)).
Proof.
  intros Hobj. split; [reflexivity|].
  split; [reflexivity|].
  split; [reflexivity|].
  intros folder res Hserve Hgood.
  rewrite (list_run this o) by assumption. cbv zeta. rewrite Hserve, Hgood. simpl.
  repeat split; intros *; intros ->; reflexivity.
Qed.

End ClientContract.

(** ** The vault path in the URL *)

Section VaultPath.

Context {E : Env}.

Lemma chars_app (a b : string) :
  list_ascii_of_string (a +:+ b) = (list_ascii_of_string a ++ list_ascii_of_string b)%list.
Proof. induction a as [|c a IH]; simpl; [reflexivity | now rewrite IH]. Qed.

Lemma encode_unit_chars (c : ascii) :
  forallb segment_char (list_ascii_of_string (encode_unit c)) = true.
Proof. destruct c as [[] [] [] [] [] [] [] []]; vm_compute; reflexivity. Qed.

Lemma encoded_chars (s : string) :
  forallb segment_char (list_ascii_of_string (encodeURIComponent s)) = true.
Proof.
  induction s as [|c s IH]; simpl; [reflexivity|].
  now rewrite chars_app, forallb_app, encode_unit_chars, IH.
Qed.

(** X6. The path of a note goes into the URL as one opaque segment: the
    URL of the one request that [read], [write] or [append] sends is the
    base URL, [/vault/] and a segment that holds only letters, digits,
    [- _ . ! ~ * ' ( )] and percent escapes, so no slash, question mark,
    hash, ampersand or space of the path reaches the URL as such. *)
Theorem vault_path_is_one_segment (this : ClientRef) (o : ObsidianClient)
    (path content : string) (w : World E) :
  heap w !! this = Some o ->
  exists segment : string,
    map req_url (requests (snd (Client.read this path w)))
    = (map req_url (requests w) ++ [baseUrl o +:+ "/vault/" +:+ segment])%list
    /\ map req_url (requests (snd (Client.write this path content w)))
       = (map req_url (requests w) ++ [baseUrl o +:+ "/vault/" +:+ segment])%list
    /\ map req_url (requests (snd (Client.append this path content w)))
       = (map req_url (requests w) ++ [baseUrl o +:+ "/vault/" +:+ segment])%list
    /\ forallb segment_char (list_ascii_of_string segment) = true
    /\ forall c : ascii,
        In c (list_ascii_of_string segment) ->
        c <> "/"%char /\ c <> "?"%char /\ c <> "#"%char /\ c <> "&"%char /\ c <> " "%char.
Proof.
  intros Hobj. exists (encodeURIComponent path).
  split; [rewrite (read_sends this o) by assumption; now rewrite map_app|].
  split; [rewrite (write_sends this o) by assumption; now rewrite map_app|].
  split; [rewrite (append_sends this o) by assumption; now rewrite map_app|].
  split; [apply encoded_chars|].
  intros c Hin.
  pose proof (encoded_chars path) as Hall. rewrite forallb_forall in Hall.
  specialize (Hall c Hin).
  repeat split; intros ->; discriminate.
Qed.

Lemma decode_unit (c : ascii) (rest : string) :
  Uri.decode_segment (encode_unit c +:+ rest) = String c (Uri.decode_segment rest).
Proof. destruct c as [[] [] [] [] [] [] [] []]; reflexivity. Qed.

Lemma decode_encode (s : string) : Uri.decode_segment (encodeURIComponent s) = s.
Proof.
  induction s as [|c s IH]; [reflexivity|].
  cbn [encodeURIComponent]. now rewrite decode_unit, IH.
Qed.

Lemma append_cancel (a x y : string) : a +:+ x = a +:+ y -> x = y.
Proof. induction a as [|c a IH]; simpl; [tauto | intros H; inversion H; auto]. Qed.

(** X7. The encoding of a path loses nothing: the segment [read] sends
    decodes back to the path, so the requests that [read], [write] or
    [append] send for two different paths never have the same URL (a path
    that already looks encoded is encoded once more, not taken as it
    is). *)
Theorem distinct_paths_distinct_urls (this : ClientRef) (o : ObsidianClient)
    (p1 p2 : string) (w1 w2 : World E) :
  heap w1 !! this = Some o -> heap w2 !! this = Some o ->
  p1 <> p2 ->
  (exists r1 r2 segment,
      requests (snd (Client.read this p1 w1)) = (requests w1 ++ [r1])%list
      /\ requests (snd (Client.read this p2 w2)) = (requests w2 ++ [r2])%list
      /\ req_url r1 <> req_url r2
      /\ req_url r1 = baseUrl o +:+ "/vault/" +:+ segment
      /\ Uri.decode_segment segment = p1)
  /\ (forall c1 c2, exists r1 r2,
        requests (snd (Client.write this p1 c1 w1)) = (requests w1 ++ [r1])%list
        /\ requests (snd (Client.write this p2 c2 w2)) = (requests w2 ++ [r2])%list
        /\ req_url r1 <> req_url r2)
  /\ (forall c1 c2, exists r1 r2,
        requests (snd (Client.append this p1 c1 w1)) = (requests w1 ++ [r1])%list
        /\ requests (snd (Client.append this p2 c2 w2)) = (requests w2 ++ [r2])%list
        /\ req_url r1 <> req_url r2).
Proof.
  intros Hobj1 Hobj2 Hne.
  assert (Henc : encodeURIComponent p1 <> encodeURIComponent p2).
  { intros Heq. apply Hne. rewrite <- (decode_encode p1), <- (decode_encode p2).
    now rewrite Heq. }
  assert (Hurl : baseUrl o +:+ "/vault/" +:+ encodeURIComponent p1
                 <> baseUrl o +:+ "/vault/" +:+ encodeURIComponent p2).
  { intros Heq. apply append_cancel, append_cancel in Heq. contradiction. }
  split; [|split].
  - exists (read_request o p1), (read_request o p2), (encodeURIComponent p1).
    split; [now apply read_sends|]. split; [now apply read_sends|].
    split; [exact Hurl|]. split; [reflexivity | apply decode_encode].
  - intros c1 c2. exists (write_request o p1 c1), (write_request o p2 c2).
    split; [now apply write_sends|]. split; [now apply write_sends | exact Hurl].
  - intros c1 c2. exists (append_request o p1 c1), (append_request o p2 c2).
    split; [now apply append_sends|]. split; [now apply append_sends | exact Hurl].
Qed.

End VaultPath.

(** ** The life of a client object *)

Section ClientLife.

Context {E : Env}.

(** X8. [new ObsidianClient(port, apiKey)] sends nothing and leaves the
    existing client objects as they are; the new object is a fresh one, it
    reports disconnected, and after its first [ping] it reports what that
    ping found. *)
Theorem fresh_client_is_disconnected (port : Z) (apiKey : string) (w : World E) :
  let this := length (heap w) in
  let w' := snd (Client.new_ObsidianClient port apiKey w) in
  Client.new_ObsidianClient port apiKey w = (Ok this, w')
  /\ heap w !! this = None
  /\ (forall r o, heap w !! r = Some o -> heap w' !! r = Some o)
  /\ requests w' = requests w
  /\ Client.isConnected this w' = (Ok false, w')
  /\ exists o,
      heap w' !! this = Some o
      /\ baseUrl o = "http://127.0.0.1:" +:+ decimal port
      /\ fst (Client.isConnected this (snd (Client.ping this w')))
         = Ok (alive (fst (serve E (vault w) (ping_request o)))).
Proof.
  intros this w'. subst this w'. unfold Client.new_ObsidianClient. simpl.
  split; [reflexivity|].
  split; [apply lookup_ge_None; lia|].
  split; [intros r o Hr; now apply lookup_app_l_Some|].
  split; [reflexivity|].
  match goal with
  | |- context [(heap w ++ [?x])%list] => set (o := x)
  end.
  assert (Hobj : (heap w ++ [o])%list !! length (heap w) = Some o).
  { rewrite lookup_app_r by lia. now rewrite Nat.sub_diag. }
  split; [apply (isConnected_at _ o); exact Hobj|].
  exists o. split; [exact Hobj|]. split; [reflexivity|].
  rewrite (ping_run (length (heap w)) o) by exact Hobj.
  simpl. unfold Client.isConnected, bind, deref, ret. simpl.
  rewrite list_lookup_insert_eq; [reflexivity|].
  rewrite length_app. simpl. lia.
Qed.

(** X9. The connected flag is that of the last [ping]: a second [ping]
    overrides the first, and any of the other five methods called after a
    [ping] leaves its answer in place. *)
Theorem last_ping_wins (this : ClientRef) (o : ObsidianClient) (w : World E) :
  heap w !! this = Some o ->
  let w1 := snd (Client.ping this w) in
  let first := alive (fst (serve E (vault w) (ping_request o))) in
  fst (Client.isConnected this w1) = Ok first
  /\ fst (Client.isConnected this (snd (Client.ping this w1)))
     = Ok (alive (fst (serve E (vault w1) (ping_request o))))
  /\ (forall path, fst (Client.isConnected this (snd (Client.read this path w1))) = Ok first)
  /\ (forall path content,
        fst (Client.isConnected this (snd (Client.write this path content w1))) = Ok first)
  /\ (forall path content,
        fst (Client.isConnected this (snd (Client.append this path content w1))) = Ok first)
  /\ (forall query len,
        fst (Client.isConnected this (snd (Client.search this query len w1))) = Ok first)
  /\ (forall folder,
        fst (Client.isConnected this (snd (Client.list this folder w1))) = Ok first).
Proof.
  intros Hobj w1 first.
  assert (Hlt : (this < length (heap w))%nat) by (eapply lookup_lt_Some; eassumption).
  assert (Hobj1 : heap w1 !! this
                  = Some {| baseUrl := baseUrl o; headers := headers o; connected := first |}).
  { subst w1. rewrite (ping_run this o) by assumption. simpl.
    now apply list_lookup_insert_eq. }
  assert (Hflag : fst (Client.isConnected this w1) = Ok first)
    by now rewrite (isConnected_at this _ w1 Hobj1).
  split; [exact Hflag|]. split.
  - rewrite (ping_run this _ w1 Hobj1). simpl.
    unfold Client.isConnected, bind, deref, ret. simpl.
    rewrite list_lookup_insert_eq; [reflexivity|].
    now apply lookup_lt_Some in Hobj1.
  - repeat split; intros; rewrite <- Hflag; apply isConnected_heap, network_only_heap;
      auto using read_network_only, write_network_only, append_network_only,
        search_network_only, list_network_only.
Qed.

End ClientLife.

(** ** The port and the URL of a search *)

Section SearchUrl.

Context {E : Env}.

Lemma strip_prefix_app (p s : string) : strip_prefix p (p +:+ s) = Some s.
Proof.
  induction p as [|c p IH]; simpl; [now destruct s|]. now rewrite Ascii.eqb_refl.
Qed.

Lemma append_assoc (a b c : string) : (a +:+ b) +:+ c = a +:+ (b +:+ c).
Proof.
  induction a as [|x a IH]; [reflexivity|].
  change (String x ((a +:+ b) +:+ c) = String x (a +:+ b +:+ c)). now rewrite IH.
Qed.

Lemma read_port_step (c : ascii) (rest : string) (seen : bool) (value : N) :
  is_digit c = true ->
  read_port (String c rest) seen value
  = read_port rest true (10 * value + (N_of_ascii c - 48))%N.
Proof. intros Hdigit. cbn [read_port]. now rewrite Hdigit. Qed.

(** One digit of [NilEmpty.string_of_uint] read by [read_port]. *)
Ltac read_digit k :=
  match goal with
  | |- read_port (NilEmpty.string_of_uint (?D ?d) +:+ ?r) ?seen ?v = _ =>
      change (NilEmpty.string_of_uint (D d) +:+ r)
        with (String k (NilEmpty.string_of_uint d +:+ r));
      rewrite (read_port_step k) by reflexivity;
      let n := eval vm_compute in (N_of_ascii k - 48)%N in
      change (N_of_ascii k - 48)%N with n
  end.

(** Reading back the digits of a number: the accumulated value. *)
Lemma read_port_more (d : Decimal.uint) (tail : string) (acc : positive) :
  read_port (NilEmpty.string_of_uint d +:+ String "/" tail) true (N.pos acc)
  = (true, N.pos (Pos.of_uint_acc d acc), String "/" tail).
Proof.
  revert acc. induction d as [|d IH|d IH|d IH|d IH|d IH|d IH|d IH|d IH|d IH|d IH];
    intros acc; [reflexivity|..]; cbn [Pos.of_uint_acc].
  - read_digit "0"%char. rewrite <- IH. f_equal; lia.
  - read_digit "1"%char. rewrite <- IH. f_equal; lia.
  - read_digit "2"%char. rewrite <- IH. f_equal; lia.
  - read_digit "3"%char. rewrite <- IH. f_equal; lia.
  - read_digit "4"%char. rewrite <- IH. f_equal; lia.
  - read_digit "5"%char. rewrite <- IH. f_equal; lia.
  - read_digit "6"%char. rewrite <- IH. f_equal; lia.
  - read_digit "7"%char. rewrite <- IH. f_equal; lia.
  - read_digit "8"%char. rewrite <- IH. f_equal; lia.
  - read_digit "9"%char. rewrite <- IH. f_equal; lia.
Qed.

Lemma read_port_digits (d : Decimal.uint) (tail : string) (seen : bool) :
  read_port (NilEmpty.string_of_uint d +:+ String "/" tail) seen 0
  = (match d with
     | Decimal.Nil => seen
     | _ => true
     end, Pos.of_uint d, String "/" tail).
Proof.
  revert seen. induction d as [|d IH|d IH|d IH|d IH|d IH|d IH|d IH|d IH|d IH|d IH];
    intros seen; [reflexivity|..]; cbn [Pos.of_uint].
  - read_digit "0"%char. change (10 * 0 + 0)%N with 0%N. rewrite IH. now destruct d.
  - read_digit "1"%char. apply read_port_more.
  - read_digit "2"%char. apply read_port_more.
  - read_digit "3"%char. apply read_port_more.
  - read_digit "4"%char. apply read_port_more.
  - read_digit "5"%char. apply read_port_more.
  - read_digit "6"%char. apply read_port_more.
  - read_digit "7"%char. apply read_port_more.
  - read_digit "8"%char. apply read_port_more.
  - read_digit "9"%char. apply read_port_more.
Qed.

(** The port of a URL written with [${port}], for a port that is a natural
    number. *)
Lemma read_port_decimal (port : Z) (tail : string) :
  0 <= port ->
  read_port (decimal port +:+ String "/" tail) false 0
  = (true, Z.to_N port, String "/" tail).
Proof.
  intros Hport. destruct port as [|p|p]; [reflexivity| |lia].
  unfold decimal. cbn [Z.to_int NilZero.string_of_int]. unfold NilZero.string_of_uint.
  pose proof (DecimalPos.Unsigned.to_uint_nonnil p) as Hnonnil.
  pose proof (DecimalPos.Unsigned.of_to p) as Hback.
  destruct (Pos.to_uint p) as [|d|d|d|d|d|d|d|d|d|d] eqn:Hd; [congruence|..];
    rewrite read_port_digits, Hback; reflexivity.
Qed.

(** [new URL] on the search URL of a client built for [port]. *)
Lemma search_url_of_port (port : Z) :
  new_URL (("http://127.0.0.1:" +:+ decimal port) +:+ "/search/simple/")
  = if (0 <=? port) && (port <=? 65535)
    then Ok ("http://127.0.0.1"
             +:+ (if port =? 80 then EmptyString else ":" +:+ decimal port)
             +:+ "/search/simple/")
    else Throw (JsError "TypeError" "Invalid URL").
Proof.
  unfold new_URL. rewrite append_assoc, strip_prefix_app.
  destruct (Z.leb_spec 0 port) as [Hnat|Hneg]; cycle 1.
  { destruct port as [|p|p]; try lia. reflexivity. }
  change "/search/simple/" with (String "/" "search/simple/").
  rewrite (read_port_decimal port "search/simple/" Hnat).
  rewrite Ascii.eqb_refl. cbn [andb].
  destruct (Z.leb_spec port 65535) as [Hsmall|Hbig].
  - replace (Z.to_N port <=? 65535)%N with true by (symmetry; apply N.leb_le; lia).
    rewrite Z2N.id by assumption.
    destruct (Z.eqb_spec port 80) as [->|Hother]; [reflexivity|].
    replace (Z.to_N port =? 80)%N with false by (symmetry; apply N.eqb_neq; lia).
    reflexivity.
  - replace (Z.to_N port <=? 65535)%N with false by (symmetry; apply N.leb_gt; lia).
    reflexivity.
Qed.

(** X24. The port the client was built for decides whether it can search.
    Built for a port from 0 to 65535, it sends each search to
    [http://127.0.0.1:<port>/search/simple/], the port being left out of
    the URL when it is 80.  Built for any other integer, it never sends a
    search: [new URL] rejects the URL, and [search] throws the [TypeError]
    before [fetch] is called. *)
Theorem search_needs_a_port (port : Z) (apiKey query : string) (len : option Z)
    (w : World E) :
  let this := length (heap w) in
  let w1 := snd (Client.new_ObsidianClient port apiKey w) in
  (0 <= port <= 65535 ->
   map req_url (requests (snd (Client.search this query len w1)))
   = (map req_url (requests w)
      ++ ["http://127.0.0.1"
          +:+ (if port =? 80 then EmptyString else ":" +:+ decimal port)
          +:+ "/search/simple/"])%list)
  /\ (port < 0 \/ 65535 < port ->
      Client.search this query len w1 = (Throw (JsError "TypeError" "Invalid URL"), w1)).
Proof.
  intros this w1. subst this w1. unfold Client.new_ObsidianClient. cbn [snd].
  match goal with
  | |- context [(heap w ++ [?x])%list] => set (o := x)
  end.
  set (w1 := set_heap (heap w ++ [o]) w).
  assert (Hobj : heap w1 !! length (heap w) = Some o).
  { subst w1. simpl. rewrite lookup_app_r by lia. now rewrite Nat.sub_diag. }
  pose proof (search_url_of_port port) as Hurl.
  split.
  - intros [Hlow Hhigh].
    replace ((0 <=? port) && (port <=? 65535)) with true in Hurl
      by (symmetry; apply andb_true_iff; split; apply Z.leb_le; lia).
    rewrite (search_sends _ o query len w1 Hobj), map_app.
    unfold search_sent, search_request, search_url. subst o. cbn [baseUrl].
    rewrite Hurl. reflexivity.
  - intros Hout.
    replace ((0 <=? port) && (port <=? 65535)) with false in Hurl
      by (symmetry; apply andb_false_iff;
          destruct Hout; [left; apply Z.leb_gt | right; apply Z.leb_gt]; lia).
    rewrite (search_run _ o query len w1 Hobj). unfold search_url. subst o. cbn [baseUrl].
    now rewrite Hurl.
Qed.

End SearchUrl.

(** ** The tools and the state of the plugin *)

Section ToolsApart.

Context {E : Env}.

Import Tools.

Lemma fetch_same_side (req : Request) (w1 w2 : World E) :
  same_vault_side w1 w2 ->
  fst (fetch req w1) = fst (fetch req w2)
  /\ same_vault_side (snd (fetch req w1)) (snd (fetch req w2)).
Proof.
  intros [Hheap Hvault]. unfold fetch. rewrite Hvault.
  destruct (serve E (vault w2) req) as [[e|res] s]; simpl; repeat split; assumption.
Qed.

(** A method that is one fetch and pure steps sees only the client objects
    and the server. *)
Ltac one_fetch_on_both Hheap :=
  unfold bind, deref; rewrite Hheap;
  match goal with
  | |- context [heap ?w !! ?this] =>
      destruct (heap w !! this); [| repeat split; assumption]
  end;
  match goal with
  | H : same_vault_side ?w1 ?w2 |- context [fetch ?req ?w1] =>
      destruct (fetch_same_side req w1 w2 H) as [Hres Hside];
      destruct (fetch req w1) as [[?res1 | ?e1] ?v1];
      destruct (fetch req w2) as [[?res2 | ?e2] ?v2];
      simpl in Hres, Hside; inversion Hres; subst; simpl; [| split; [reflexivity | exact Hside]]
  end.

Lemma read_same_side (this : ClientRef) (path : string) (w1 w2 : World E) :
  same_vault_side w1 w2 ->
  fst (Client.read this path w1) = fst (Client.read this path w2)
  /\ same_vault_side (snd (Client.read this path w1)) (snd (Client.read this path w2)).
Proof.
  intros Hside0. pose proof Hside0 as [Hheap Hvault]. unfold Client.read.
  one_fetch_on_both Hheap.
  destruct (negb (ok_status res2)); simpl; [split; [reflexivity | exact Hside]|].
  unfold json. destruct (as_note (body res2)); simpl; split; (reflexivity || exact Hside).
Qed.

Lemma write_same_side (this : ClientRef) (path content : string) (w1 w2 : World E) :
  same_vault_side w1 w2 ->
  fst (Client.write this path content w1) = fst (Client.write this path content w2)
  /\ same_vault_side (snd (Client.write this path content w1))
       (snd (Client.write this path content w2)).
Proof.
  intros Hside0. pose proof Hside0 as [Hheap Hvault]. unfold Client.write.
  one_fetch_on_both Hheap.
  destruct (negb (ok_status res2)); simpl; split; (reflexivity || exact Hside).
Qed.

Lemma append_same_side (this : ClientRef) (path content : string) (w1 w2 : World E) :
  same_vault_side w1 w2 ->
  fst (Client.append this path content w1) = fst (Client.append this path content w2)
  /\ same_vault_side (snd (Client.append this path content w1))
       (snd (Client.append this path content w2)).
Proof.
  intros Hside0. pose proof Hside0 as [Hheap Hvault]. unfold Client.append.
  one_fetch_on_both Hheap.
  destruct (negb (ok_status res2)); simpl; split; (reflexivity || exact Hside).
Qed.

Lemma search_same_side (this : ClientRef) (query : string) (len : option Z) (w1 w2 : World E) :
  same_vault_side w1 w2 ->
  fst (Client.search this query len w1) = fst (Client.search this query len w2)
  /\ same_vault_side (snd (Client.search this query len w1))
       (snd (Client.search this query len w2)).
Proof.
  intros Hside0. pose proof Hside0 as [Hheap Hvault]. unfold Client.search.
  unfold bind, deref, library. rewrite Hheap.
  destruct (heap w2 !! this) as [o|]; [| repeat split; assumption].
  destruct (new_URL (baseUrl o +:+ "/search/simple/")) as [url|invalid];
    [| simpl; repeat split; assumption].
  match goal with
  | |- context [fetch ?req w1] =>
      destruct (fetch_same_side req w1 w2 Hside0) as [Hres Hside];
      destruct (fetch req w1) as [[res1 | e1] v1];
      destruct (fetch req w2) as [[res2 | e2] v2];
      simpl in Hres, Hside; inversion Hres; subst; simpl; [| split; [reflexivity | exact Hside]]
  end.
  destruct (negb (ok_status res2)); simpl; [split; [reflexivity | exact Hside]|].
  unfold json. destruct (as_results (body res2)); simpl; split; (reflexivity || exact Hside).
Qed.

Lemma list_same_side (this : ClientRef) (folder : option string) (w1 w2 : World E) :
  same_vault_side w1 w2 ->
  fst (Client.list this folder w1) = fst (Client.list this folder w2)
  /\ same_vault_side (snd (Client.list this folder w1)) (snd (Client.list this folder w2)).
Proof.
  intros Hside0. pose proof Hside0 as [Hheap Hvault]. unfold Client.list.
  one_fetch_on_both Hheap.
  destruct (negb (ok_status res2)); simpl; [split; [reflexivity | exact Hside]|].
  unfold json. destruct (as_listing (body res2)); simpl; split; (reflexivity || exact Hside).
Qed.

(** X10. A tool call changes nothing but the server and the record of
    requests: it writes no log, and it leaves the connected flag, the
    module variables, the timers and the host as they were. *)
Theorem tools_touch_the_network_only (c : ClientRef) (call : ToolCall) (w : World E) :
  let w' := snd (buildA2ATools c call w) in
  network_only w w'
  /\ heap w' = heap w /\ logs w' = logs w /\ host_calls w' = host_calls w
  /\ ctx w' = ctx w /\ client w' = client w.
Proof.
  intros w'.
  assert (Hframe : network_only w w').
  { subst w'.
    destruct call as [[v|args]|[v|args]|[v|args]|[v|args]|args];
      try apply network_only_refl; simpl;
      unfold search_handler, read_handler, write_handler, append_handler, list_handler,
        destructure, try_catch, bind, ret.
    - pose proof (search_network_only c (query args) None w) as H.
      now destruct (Client.search c (query args) None w) as [[results|e] w1].
    - pose proof (read_network_only c (path args) w) as H.
      now destruct (Client.read c (path args) w) as [[note|e] w1].
    - pose proof (write_network_only c (write_path args) (write_content args) w) as H.
      now destruct (Client.write c (write_path args) (write_content args) w) as [[[]|e] w1].
    - pose proof (append_network_only c (write_path args) (write_content args) w) as H.
      now destruct (Client.append c (write_path args) (write_content args) w) as [[[]|e] w1].
    - pose proof (list_network_only c (Some (default EmptyString (args ≫= folder))) w) as H.
      now destruct (Client.list c (Some (default EmptyString (args ≫= folder))) w)
        as [[files|e] w1]. }
  split; [exact Hframe|]. rewrite Hframe. repeat split; reflexivity.
Qed.

Lemma tools_same_side (c : ClientRef) (call : ToolCall) (w1 w2 : World E) :
  same_vault_side w1 w2 ->
  fst (buildA2ATools c call w1) = fst (buildA2ATools c call w2).
Proof.
  intros Hside.
  destruct call as [[v|args]|[v|args]|[v|args]|[v|args]|args]; try reflexivity; simpl;
    unfold search_handler, read_handler, write_handler, append_handler, list_handler,
      destructure, try_catch, bind, ret.
  - destruct (search_same_side c (query args) None w1 w2 Hside) as [Hres _].
    destruct (Client.search c (query args) None w1) as [[r1|e1] v1],
             (Client.search c (query args) None w2) as [[r2|e2] v2];
      simpl in Hres; inversion Hres; reflexivity.
  - destruct (read_same_side c (path args) w1 w2 Hside) as [Hres _].
    destruct (Client.read c (path args) w1) as [[r1|e1] v1],
             (Client.read c (path args) w2) as [[r2|e2] v2];
      simpl in Hres; inversion Hres; reflexivity.
  - destruct (write_same_side c (write_path args) (write_content args) w1 w2 Hside)
      as [Hres _].
    destruct (Client.write c (write_path args) (write_content args) w1) as [[[]|e1] v1],
             (Client.write c (write_path args) (write_content args) w2) as [[[]|e2] v2];
      simpl in Hres; inversion Hres; reflexivity.
  - destruct (append_same_side c (write_path args) (write_content args) w1 w2 Hside)
      as [Hres _].
    destruct (Client.append c (write_path args) (write_content args) w1) as [[[]|e1] v1],
             (Client.append c (write_path args) (write_content args) w2) as [[[]|e2] v2];
      simpl in Hres; inversion Hres; reflexivity.
  - destruct (list_same_side c (Some (default EmptyString (args ≫= folder))) w1 w2 Hside)
      as [Hres _].
    destruct (Client.list c (Some (default EmptyString (args ≫= folder))) w1)
      as [[r1|e1] v1],
             (Client.list c (Some (default EmptyString (args ≫= folder))) w2)
      as [[r2|e2] v2];
      simpl in Hres; inversion Hres; reflexivity.
Qed.

(** X11. What a tool returns depends on the client object it was built
    with and on the server only: in two worlds with the same client objects
    and the same server, whatever the plugin holds, the same call returns
    the same envelope. *)
Theorem tools_see_client_and_server_only (c : ClientRef) (call : ToolCall)
    (w1 w2 : World E) :
  heap w1 = heap w2 -> vault w1 = vault w2 ->
  fst (buildA2ATools c call w1) = fst (buildA2ATools c call w2).
Proof.
  intros Hheap Hvault. apply tools_same_side. split; assumption.
Qed.

(** X12. The list tool treats an absent argument object, an object without
    [folder] and the empty folder alike: each lists the root of the vault,
    and the payload names the folder as the empty string. *)
Theorem list_tool_defaults_to_root (c : ClientRef) (w : World E) :
  buildA2ATools c (obsidian_list None) w
  = buildA2ATools c (obsidian_list (Some {| folder := Some EmptyString |})) w
  /\ buildA2ATools c (obsidian_list (Some {| folder := None |})) w
     = buildA2ATools c (obsidian_list (Some {| folder := Some EmptyString |})) w
  /\ (forall o, heap w !! c = Some o ->
        requests (snd (buildA2ATools c (obsidian_list None) w))
        = (requests w ++ [list_request o EmptyString])%list
        /\ req_url (list_request o EmptyString) = baseUrl o +:+ "/vault/")
  /\ (forall files w1,
        Client.list c (Some EmptyString) w = (Ok files, w1) ->
        fst (buildA2ATools c (obsidian_list None) w)
        = Ok (ok (E := E) (JObj [("folder", JStr EmptyString);
                                 ("files", JArr (map JStr files))]))).
Proof.
  split; [reflexivity|]. split; [reflexivity|]. split.
  - intros o Hobj. split; [|reflexivity].
    simpl. unfold list_handler, try_catch, bind, ret. simpl.
    pose proof (list_run c o (Some EmptyString) w Hobj) as Hrun. cbv zeta in Hrun.
    simpl in Hrun. rewrite Hrun.
    destruct (fst (serve E (vault w) (list_request o EmptyString))) as [e|res];
      [reflexivity|].
    destruct (ok_status res); [|reflexivity].
    now destruct (as_listing (body res)).
  - intros files w1 Hlist. simpl. unfold list_handler, try_catch, bind, ret. simpl.
    now rewrite Hlist.
Qed.

End ToolsApart.

(** ** The context provider, in every case *)

Section ProviderRuns.

Context {E : Env}.

Import Plugin.

Lemma network_to_log (w w' : World E) : network_only w w' -> network_and_log_only w w'.
Proof. unfold network_only, network_and_log_only. intros H. rewrite H. reflexivity. Qed.

Lemma network_and_log_refl (w : World E) : network_and_log_only w w.
Proof. apply network_to_log, network_only_refl. Qed.

Lemma network_and_log_trans (w1 w2 w3 : World E) :
  network_and_log_only w1 w2 -> network_and_log_only w2 w3 -> network_and_log_only w1 w3.
Proof.
  unfold network_and_log_only. intros H12 H23. rewrite H23, H12. reflexivity.
Qed.

Lemma log_run (level : LogLevel) (message : string) (w : World E) :
  ctx w = Some HostContext ->
  log level message w = (Ok tt, set_logs (logs w ++ [(level, message)]) w).
Proof. intros H. unfold log. now rewrite H. Qed.

Lemma log_frame (level : LogLevel) (message : string) (w : World E) :
  network_and_log_only w (snd (log level message w)).
Proof.
  unfold log. destruct (ctx w) as [[]|]; simpl;
    [reflexivity | apply network_and_log_refl].
Qed.

(** The reads of the sections are the only requests of that phase. *)
Lemma sections_read_frame (c : ClientRef) (o : ObsidianClient)
    (top : list (ObsidianSearchResult (Score E))) (w w' : World E) (notes : list string) :
  sections_read c top w notes w' ->
  heap w !! c = Some o ->
  network_only w w'
  /\ requests w' = (requests w ++ map (fun r => read_request o (filename r)) top)%list.
Proof.
  intros Hrel. induction Hrel as [w | r rest w note w1 notes w2 Hread Hrel IH
                                    | r rest w e w1 notes w2 Hread Hrel IH]; intros Hobj.
  - split; [apply network_only_refl | now rewrite app_nil_r].
  - pose proof (read_network_only c (filename r) w) as Hframe.
    pose proof (read_sends c o (filename r) w Hobj) as Hsent.
    rewrite Hread in Hframe, Hsent. simpl in Hframe, Hsent.
    destruct IH as [Hframe2 Hsent2].
    { rewrite (network_only_heap _ _ Hframe). exact Hobj. }
    split; [eapply network_only_trans; eassumption|].
    rewrite Hsent2, Hsent, <- app_assoc. reflexivity.
  - pose proof (read_network_only c (filename r) w) as Hframe.
    pose proof (read_sends c o (filename r) w Hobj) as Hsent.
    rewrite Hread in Hframe, Hsent. simpl in Hframe, Hsent.
    destruct IH as [Hframe2 Hsent2].
    { rewrite (network_only_heap _ _ Hframe). exact Hobj. }
    split; [eapply network_only_trans; eassumption|].
    rewrite Hsent2, Hsent, <- app_assoc. reflexivity.
Qed.

(** The provider in full, for a running plugin: what it returns, what it
    sends and what it logs. *)
Lemma getContext_outcome (session : string) (message : MessageInfo)
    (c : ClientRef) (o : ObsidianClient) (w : World E) :
  ctx w = Some HostContext -> client w = Some c -> heap w !! c = Some o ->
  let cfg := host_config E (host w) in
  exists (r : option ContextPart) (w' : World E),
    getContext session message w = (Ok r, w')
    /\ network_and_log_only w w'
    /\ ((injectContext cfg <> Some "always" \/ connected o = false
         \/ blank (content message) = true) ->
        r = None /\ w' = w)
    /\ (forall query,
          injectContext cfg = Some "always" -> connected o = true ->
          content message = Some query -> blank (Some query) = false ->
          match Client.search c query None w with
          | (Throw e, w1) =>
              r = None
              /\ requests w' = (requests w ++ search_sent o query 200)%list
              /\ logs w' = (logs w ++ [(Warn, "Obsidian context fetch failed: "
                                               +:+ error_message e)])%list
          | (Ok results, w1) =>
              let top := slice 0 (default 3 (maxContextNotes cfg)) results in
              requests w'
              = (requests w ++ search_request o query 200
                   :: map (fun hit => read_request o (filename hit)) top)%list
              /\ logs w' = logs w
              /\ (top = [] -> r = None)
              /\ (top <> [] -> exists notes,
                     r = Some (context_block top notes) /\ length notes = length top)
          end).
Proof.
  intros Hctx Hclient Hobj cfg.
  destruct (not_always (injectContext cfg)) eqn:Hmode.
  { exists None, w. unfold getContext. unfold bind at 1.
    rewrite (getConfig_run w Hctx). fold cfg. rewrite Hmode.
    split; [reflexivity|]. split; [apply network_and_log_refl|].
    split; [auto|]. intros query Halways. apply not_always_spec in Halways. congruence. }
  destruct (connected o) eqn:Hconn; cycle 1.
  { exists None, w. unfold getContext. unfold bind at 1.
    rewrite (getConfig_run w Hctx). fold cfg. rewrite Hmode.
    unfold bind at 1. rewrite (getClient_run _ c w Hclient).
    unfold bind at 1. rewrite (isConnected_at c o w Hobj), Hconn.
    split; [reflexivity|]. split; [apply network_and_log_refl|].
    split; [auto|]. intros; congruence. }
  destruct (blank (content message)) eqn:Hblank.
  { exists None, w. unfold getContext. unfold bind at 1.
    rewrite (getConfig_run w Hctx). fold cfg. rewrite Hmode.
    unfold bind at 1. rewrite (getClient_run _ c w Hclient).
    unfold bind at 1. rewrite (isConnected_at c o w Hobj), Hconn. simpl.
    split.
    - destruct (content message) as [query|]; [|reflexivity].
      now rewrite blank_falsy, Hblank.
    - split; [apply network_and_log_refl|]. split; [auto|].
      intros query _ _ Hcontent Hnot. rewrite Hcontent in Hblank.
      simpl in Hblank, Hnot. congruence. }
  apply not_always_spec in Hmode.
  destruct (content message) as [query|] eqn:Hcontent; [|discriminate].
  rewrite (getContext_searches session query message c o w) by assumption.
  fold cfg.
  pose proof (search_network_only c query None w) as Hframe.
  pose proof (search_sends c o query None w Hobj) as Hsent.
  unfold try_catch. unfold bind at 1.
  destruct (Client.search c query None w) as [[results|e] w1] eqn:Hsearch;
    simpl in Hframe, Hsent.
  - destruct (search_returned c o query None results w w1 Hobj Hsearch) as [href Hurl].
    unfold search_sent in Hsent. rewrite Hurl in Hsent.
    set (top := slice 0 (default 3 (maxContextNotes cfg)) results).
    destruct (length top =? 0)%nat eqn:Hlen.
    + apply Nat.eqb_eq in Hlen. assert (Htop : top = []) by now destruct top.
      exists None, w1. unfold ret.
      split; [reflexivity|]. split; [now apply network_to_log|].
      split; [intros [H|[H|H]]; congruence|].
      intros query' _ _ Hq _. inversion Hq; subst query'. rewrite Hsearch. fold top.
      rewrite Htop, Hsent. simpl.
      split; [reflexivity|]. split; [now rewrite Hframe|].
      split; [reflexivity | congruence].
    + destruct (sections_run c top w1) as (notes & w2 & Hrun & Hrel & Hcount).
      { rewrite (network_only_client _ _ Hframe). exact Hclient. }
      destruct (sections_read_frame c o top w1 w2 notes Hrel) as [Hframe2 Hsent2].
      { rewrite (network_only_heap _ _ Hframe). exact Hobj. }
      exists (Some (context_block top notes)), w2. unfold bind, ret. rewrite Hrun.
      split; [reflexivity|].
      split; [apply network_to_log; eapply network_only_trans; eassumption|].
      split; [intros [H|[H|H]]; congruence|].
      intros query' _ _ Hq _. inversion Hq; subst query'. rewrite Hsearch. fold top.
      split; [rewrite Hsent2, Hsent, <- app_assoc; reflexivity|].
      split; [rewrite Hframe2, Hframe; reflexivity|].
      split.
      * intros Htop. rewrite Htop in Hlen. discriminate.
      * intros _. exists notes. split; [reflexivity | exact Hcount].
  - assert (Hctx1 : ctx w1 = Some HostContext)
      by (rewrite (network_only_ctx _ _ Hframe); exact Hctx).
    exists None. eexists. unfold bind, ret. rewrite (log_run _ _ w1 Hctx1).
    split; [reflexivity|].
    split.
    { eapply network_and_log_trans; [apply network_to_log; eassumption|].
      reflexivity. }
    split; [intros [H|[H|H]]; congruence|].
    intros query' _ _ Hq _. inversion Hq; subst query'. rewrite Hsearch. simpl.
    split; [reflexivity|]. split; [exact Hsent|].
    rewrite Hframe. reflexivity.
Qed.

(** X13. For a running plugin the context provider never throws, whatever
    the message, the configuration and the server: it returns a block or
    [null].  It changes nothing but the server, the record of requests and
    the host's log; the connected flag and the module state stay as they
    were. *)
Theorem provider_never_throws (session : string) (message : MessageInfo)
    (c : ClientRef) (o : ObsidianClient) (w : World E) :
  ctx w = Some HostContext -> client w = Some c -> heap w !! c = Some o ->
  exists (r : option ContextPart) (w' : World E),
    getContext session message w = (Ok r, w')
    /\ network_and_log_only w w'
    /\ heap w' = heap w /\ ctx w' = ctx w /\ client w' = client w
    /\ host_calls w' = host_calls w.
Proof.
  intros Hctx Hclient Hobj.
  destruct (getContext_outcome session message c o w Hctx Hclient Hobj)
    as (r & w' & Hrun & Hframe & _).
  exists r, w'. split; [exact Hrun|]. split; [exact Hframe|].
  rewrite Hframe. repeat split; reflexivity.
Qed.

(** X14. When the search returns, the provider sends the search, with the
    context length 200, and then one read per hit it keeps, in the order of
    the hits, and nothing else: a hit beyond [maxContextNotes] is never
    read.  It logs nothing, and when no hit is kept (no result, or a bound
    that leaves none) it returns [null] after the search alone. *)
Theorem provider_reads_what_it_keeps (session query : string) (message : MessageInfo)
    (c : ClientRef) (o : ObsidianClient)
    (results : list (ObsidianSearchResult (Score E))) (w w1 : World E) :
  ctx w = Some HostContext -> client w = Some c -> heap w !! c = Some o ->
  injectContext (host_config E (host w)) = Some "always" ->
  connected o = true ->
  content message = Some query -> blank (Some query) = false ->
  Client.search c query None w = (Ok results, w1) ->
  let top := slice 0 (default 3 (maxContextNotes (host_config E (host w)))) results in
  let w' := snd (getContext session message w) in
  requests w'
  = (requests w ++ search_request o query 200
       :: map (fun hit => read_request o (filename hit)) top)%list
  /\ logs w' = logs w
  /\ (top = [] -> fst (getContext session message w) = Ok None)
  /\ (results = [] -> top = [])
  /\ (default 3 (maxContextNotes (host_config E (host w))) = 0 -> top = []).
Proof.
  intros Hctx Hclient Hobj Hmode Hconn Hcontent Hblank Hsearch top w'.
  destruct (getContext_outcome session message c o w Hctx Hclient Hobj)
    as (r & w2 & Hrun & _ & _ & Hcases).
  specialize (Hcases query Hmode Hconn Hcontent Hblank). rewrite Hsearch in Hcases.
  destruct Hcases as (Hsent & Hlogs & Hnone & _).
  subst w'. rewrite Hrun. simpl.
  split; [exact Hsent|]. split; [exact Hlogs|].
  split; [intros Htop; now rewrite (Hnone Htop)|].
  split.
  - intros ->. subst top. unfold slice. simpl. now rewrite take_nil.
  - intros Hzero. subst top. rewrite Hzero, slice_from_start.
    unfold relative_index. simpl.
    replace (Z.min 0 (Z.of_nat (length results))) with 0 by lia. reflexivity.
Qed.

(** X15. When the search throws, the provider returns [null] after that one
    request (after none when it is [new URL] that threw) and logs one
    warning, which carries the message of what was thrown. *)
Theorem provider_warns_when_search_fails (session query : string) (message : MessageInfo)
    (c : ClientRef) (o : ObsidianClient) (e : Exn) (w w1 : World E) :
  ctx w = Some HostContext -> client w = Some c -> heap w !! c = Some o ->
  injectContext (host_config E (host w)) = Some "always" ->
  connected o = true ->
  content message = Some query -> blank (Some query) = false ->
  Client.search c query None w = (Throw e, w1) ->
  let w' := snd (getContext session message w) in
  fst (getContext session message w) = Ok None
  /\ requests w'
     = (requests w ++ match new_URL (baseUrl o +:+ "/search/simple/") with
                      | Ok _ => [search_request o query 200]
                      | Throw _ => []
                      end)%list
  /\ logs w' = (logs w ++ [(Warn, "Obsidian context fetch failed: " +:+ error_message e)])%list.
Proof.
  intros Hctx Hclient Hobj Hmode Hconn Hcontent Hblank Hsearch w'.
  destruct (getContext_outcome session message c o w Hctx Hclient Hobj)
    as (r & w2 & Hrun & _ & _ & Hcases).
  specialize (Hcases query Hmode Hconn Hcontent Hblank). rewrite Hsearch in Hcases.
  destruct Hcases as (Hnone & Hsent & Hlogs).
  subst w'. rewrite Hrun. simpl. subst r.
  split; [reflexivity|]. split; [exact Hsent | exact Hlogs].
Qed.

End ProviderRuns.

(** ** The session handler, in every case *)

Section ArchiveRuns.

Context {E : Env}.

Import Plugin.

(** X16. For a running plugin the session handler never throws, whatever
    the server does.  When it archives, it reads the clock twice, sends the
    one write, whose document is the title line, the timestamp line and the
    history as [**role:** content] paragraphs, and logs one entry: an info
    with the path when the write returned, a warning with the message of
    the failure when it threw.  When it does not archive it changes
    nothing. *)
Theorem archive_handler_degrades (payload : SessionDestroyEvent) (w : World E) :
  ctx w = Some HostContext ->
  (forall c, client w = Some c -> is_Some (heap w !! c)) ->
  let cfg := host_config E (host w) in
  exists w' : World E,
    on_session_destroy payload w = (Ok tt, w')
    /\ (archive_on (sessionArchive cfg) && connected_now w = false -> w' = w)
    /\ (forall c o,
          archive_on (sessionArchive cfg) && connected_now w = true ->
          client w = Some c -> heap w !! c = Some o ->
          let path :=
            archive_path cfg (string_slice 0 10 (toISOString (clock E (ticks w))))
              (session payload) in
          let document :=
            "# Session " +:+ session payload +:+ nl
            +:+ "*" +:+ toISOString (clock E (S (ticks w))) +:+ "*" +:+ nl +:+ nl
            +:+ join (nl +:+ nl)
                  (map (fun m => "**" +:+ entry_role m +:+ ":** " +:+ entry_content m)
                     (history payload)) in
          requests w' = (requests w ++ [write_request o path document])%list
          /\ ticks w' = S (S (ticks w))
          /\ heap w' = heap w
          /\ logs w'
             = (logs w ++
                [match fst (serve E (vault w) (write_request o path document)) with
                 | NetworkError e => (Warn, "Failed to archive session: " +:+ error_message e)
                 | Responded res =>
                     if ok_status res
                     then (Info, "Session archived to vault: " +:+ path)
                     else (Warn, "Failed to archive session: "
                                 +:+ error_message
                                       (Client.request_failed
                                          ("Failed to write note " +:+ Client.quoted path) res))
                 end])%list).
Proof.
  intros Hctx Hvalid cfg.
  destruct (archive_on (sessionArchive cfg)) eqn:Hon; cycle 1.
  { exists w. unfold on_session_destroy. unfold bind at 1.
    rewrite (getConfig_run w Hctx). fold cfg. rewrite archive_off_on, Hon.
    split; [reflexivity|]. split; [reflexivity|]. intros c o Hno. discriminate. }
  destruct (client w) as [c|] eqn:Hclient; cycle 1.
  { exists w. unfold on_session_destroy. unfold bind at 1.
    rewrite (getConfig_run w Hctx). fold cfg. rewrite archive_off_on, Hon. cbn [negb].
    unfold bind at 1. unfold gets. cbv beta. rewrite Hclient.
    split; [reflexivity|]. split; [reflexivity|]. intros c o _ Hc. discriminate. }
  destruct (Hvalid c eq_refl) as [o Hobj].
  destruct (connected o) eqn:Hconn; cycle 1.
  { exists w. unfold on_session_destroy. unfold bind at 1.
    rewrite (getConfig_run w Hctx). fold cfg. rewrite archive_off_on, Hon. cbn [negb].
    unfold bind at 1. unfold gets. cbv beta. rewrite Hclient.
    unfold bind at 1. rewrite (isConnected_at c o w Hobj), Hconn.
    split; [reflexivity|]. split; [reflexivity|].
    intros c' o' Hyes. unfold connected_now in Hyes. rewrite Hclient, Hobj, Hconn in Hyes.
    discriminate. }
  set (path := archive_path cfg (string_slice 0 10 (toISOString (clock E (ticks w))))
                 (session payload)).
  set (document := "# Session " +:+ session payload +:+ nl
                   +:+ "*" +:+ toISOString (clock E (S (ticks w))) +:+ "*" +:+ nl +:+ nl
                   +:+ join (nl +:+ nl)
                         (map (fun m => "**" +:+ entry_role m +:+ ":** " +:+ entry_content m)
                            (history payload))).
  set (w0 := set_ticks (S (S (ticks w))) (set_ticks (S (ticks w)) w)).
  assert (Hobj0 : heap w0 !! c = Some o) by exact Hobj.
  assert (Hstart : on_session_destroy payload w
                   = try_catch
                       (Client.write c path document;;
                        log Info ("Session archived to vault: " +:+ path))
                       (fun error =>
                          log Warn ("Failed to archive session: " +:+ error_message error))
                       w0).
  { unfold on_session_destroy. unfold bind at 1.
    rewrite (getConfig_run w Hctx). fold cfg. rewrite archive_off_on, Hon. cbn [negb].
    unfold bind at 1. unfold gets. cbv beta. rewrite Hclient.
    unfold bind at 1. rewrite (isConnected_at c o w Hobj), Hconn. cbn [negb].
    unfold try_catch, new_Date. unfold bind at 1. unfold bind at 1.
    unfold getClient at 1. simpl client. rewrite Hclient.
    unfold bind at 1. reflexivity. }
  rewrite Hstart. unfold try_catch. unfold bind at 1.
  rewrite (write_run c o path document w0 Hobj0).
  change (vault w0) with (vault w).
  assert (Hctx1 : ctx (sent (write_request o path document) w0) = Some HostContext)
    by exact Hctx.
  destruct (fst (serve E (vault w) (write_request o path document))) as [e|res] eqn:Hserve.
  - rewrite (log_run _ _ _ Hctx1). eexists. split; [reflexivity|].
    split; [intros Hno; unfold connected_now in Hno;
            rewrite Hclient, Hobj, Hconn in Hno; discriminate|].
    intros c' o' _ Hc' Ho'. inversion Hc'; subst c'.
    rewrite Hobj in Ho'. inversion Ho'; subst o'.
    cbv zeta. rewrite Hserve. repeat split; reflexivity.
  - destruct (ok_status res) eqn:Hok.
    + rewrite (log_run _ _ _ Hctx1). eexists. split; [reflexivity|].
      split; [intros Hno; unfold connected_now in Hno;
              rewrite Hclient, Hobj, Hconn in Hno; discriminate|].
      intros c' o' _ Hc' Ho'. inversion Hc'; subst c'.
      rewrite Hobj in Ho'. inversion Ho'; subst o'.
      cbv zeta. rewrite Hserve, Hok. repeat split; reflexivity.
    + rewrite (log_run _ _ _ Hctx1). eexists. split; [reflexivity|].
      split; [intros Hno; unfold connected_now in Hno;
              rewrite Hclient, Hobj, Hconn in Hno; discriminate|].
      intros c' o' _ Hc' Ho'. inversion Hc'; subst c'.
      rewrite Hobj in Ho'. inversion Ho'; subst o'.
      cbv zeta. rewrite Hserve, Hok. repeat split; reflexivity.
Qed.

End ArchiveRuns.

(** ** shutdown and what comes after it *)

Section AfterShutdown.

Context {E : Env}.

Import Plugin.
Import Hooks.

Lemma host_side_refl (w : World E) : host_side_only w w.
Proof. repeat split. Qed.

Lemma host_side_trans (w1 w2 w3 : World E) :
  host_side_only w1 w2 -> host_side_only w2 w3 -> host_side_only w1 w3.
Proof.
  intros (H1 & H2 & H3 & H4 & H5) (K1 & K2 & K3 & K4 & K5).
  repeat split; congruence.
Qed.

Lemma keeps_ret {A : Type} (a : A) : keeps_vault_side (ret (E := E) a).
Proof. intros w. apply host_side_refl. Qed.

Lemma keeps_bind {A B : Type} (m : M E A) (k : A -> M E B) :
  keeps_vault_side m -> (forall a, keeps_vault_side (k a)) -> keeps_vault_side (bind m k).
Proof.
  intros Hm Hk w. unfold bind. specialize (Hm w).
  destruct (m w) as [[a|e] w1]; simpl in Hm; [|exact Hm].
  eapply host_side_trans; [exact Hm | apply Hk].
Qed.

Lemma keeps_try_catch {A : Type} (m : M E A) (handler : Exn -> M E A) :
  keeps_vault_side m -> (forall e, keeps_vault_side (handler e)) ->
  keeps_vault_side (try_catch m handler).
Proof.
  intros Hm Hh w. unfold try_catch. specialize (Hm w).
  destruct (m w) as [[a|e] w1]; simpl in Hm; [exact Hm|].
  eapply host_side_trans; [exact Hm | apply Hh].
Qed.

Lemma keeps_for_of {A : Type} (items : list A) (body : A -> M E unit) :
  (forall a, keeps_vault_side (body a)) -> keeps_vault_side (for_of items body).
Proof.
  intros Hbody. induction items as [|a rest IH]; simpl.
  - apply keeps_ret.
  - apply keeps_bind; [apply Hbody | intros _; exact IH].
Qed.

Lemma keeps_gets {A : Type} (var : World E -> A) : keeps_vault_side (gets var).
Proof. intros w. apply host_side_refl. Qed.

Lemma keeps_call_host (c : HostCall) : keeps_vault_side (call_host (E := E) c).
Proof.
  intros w. unfold call_host.
  destruct (host_call E (host w) c) as [[e|] h]; repeat split.
Qed.

Lemma keeps_if_ctx (call : M E unit) : keeps_vault_side call -> keeps_vault_side (if_ctx call).
Proof.
  intros Hcall w. unfold if_ctx. destruct (ctx w) as [[]|]; [apply Hcall | apply host_side_refl].
Qed.

Lemma keeps_modify (assign : World E -> World E) :
  (forall w, host_side_only w (assign w)) -> keeps_vault_side (modify assign).
Proof. intros H w. apply H. Qed.

Lemma shutdown_keeps_vault_side : keeps_vault_side (shutdown (E := E)).
Proof.
  unfold shutdown.
  apply keeps_bind; [|intros _].
  { apply keeps_bind; [apply keeps_gets|]. intros [t|]; [|apply keeps_ret].
    apply keeps_bind; [|intros _; apply keeps_modify]; intros v; repeat split. }
  apply keeps_bind; [|intros _].
  { apply keeps_bind; [apply keeps_gets|]. intros registry.
    apply keeps_for_of. intros h.
    apply keeps_try_catch; [apply keeps_call_host | intros e; apply keeps_ret]. }
  apply keeps_bind; [apply keeps_modify; intros v; repeat split | intros _].
  do 3 (apply keeps_bind; [apply keeps_if_ctx, keeps_call_host | intros _]).
  apply keeps_bind; [|intros _]; apply keeps_modify; intros v; repeat split.
Qed.

(** X17. [shutdown] talks to the host and to the timers only: however it
    ends, it sends no request to the vault, writes no log entry, does not
    read the clock and leaves every client object, and so the connected
    flag, as it was. *)
Theorem shutdown_leaves_the_vault_alone (w : World E) :
  let w' := snd (shutdown w) in
  requests w' = requests w /\ vault w' = vault w /\ heap w' = heap w
  /\ logs w' = logs w /\ ticks w' = ticks w.
Proof.
  intros w'. destruct (shutdown_keeps_vault_side w) as (H1 & H2 & H3 & H4 & H5).
  now repeat split.
Qed.

(** X18. A tool built before [shutdown] answers after it as it would have
    before: [shutdown] releases the plugin's reference to the client, not
    the client object the tools hold. *)
Theorem tools_outlive_shutdown (c : ClientRef) (call : Tools.ToolCall) (w : World E) :
  fst (Tools.buildA2ATools c call (snd (shutdown w))) = fst (Tools.buildA2ATools c call w).
Proof.
  apply tools_same_side.
  destruct (shutdown_keeps_vault_side w) as (H1 & H2 & _). split; assumption.
Qed.

(** X19. After a [shutdown] that returned, the provider and the session
    handler throw a [TypeError] at once (they read the configuration
    through the released context), and so do the five operations of the
    capability object (they call a method on the released client); none of
    them sends a request.  [isConnected], the health tick and the
    memory-search handler are guarded: they return and change nothing. *)
Theorem callbacks_after_shutdown (w w' : World E) :
  shutdown w = (Ok tt, w') ->
  (forall session message,
      getContext session message w' = (Throw (null_access "getConfig"), w'))
  /\ (forall payload, on_session_destroy payload w' = (Throw (null_access "getConfig"), w'))
  /\ (forall query limit, extension_search query limit w' = (Throw (null_access "search"), w'))
  /\ (forall path, extension_read path w' = (Throw (null_access "read"), w'))
  /\ (forall path content,
        extension_write path content w' = (Throw (null_access "write"), w'))
  /\ (forall path content,
        extension_append path content w' = (Throw (null_access "append"), w'))
  /\ (forall folder, extension_list folder w' = (Throw (null_access "list"), w'))
  /\ extension_isConnected w' = (Ok false, w')
  /\ (forall lastConnected, health_tick lastConnected w' = (Ok lastConnected, w'))
  /\ (forall payload, on_memory_search payload w' = (Ok payload, w')).
Proof.
  intros Hrun.
  destruct (shutdown_outcome w) as (_ & _ & _ & _ & made & _ & _ & _ & Hok & _).
  rewrite Hrun in Hok. simpl in Hok. destruct (Hok eq_refl) as (_ & Hclient & Hctx).
  repeat split; intros;
    unfold getContext, on_session_destroy, extension_search, extension_read,
      extension_write, extension_append, extension_list, extension_isConnected,
      health_tick, on_memory_search, bind, getConfig, getClient, gets, ret;
    rewrite ?Hctx, ?Hclient; reflexivity.
Qed.

(** X20. The cleanups are invoked once at most: a [shutdown] that follows
    another one, even one that threw at an unregistration, calls no cleanup
    again; all it may still call are the unregistrations, in their order. *)
Theorem cleanups_run_once (w : World E) :
  let w1 := snd (shutdown w) in
  let w2 := snd (shutdown w1) in
  forallb (fun c => negb (is_unsubscribe c)) (calls_since w1 w2) = true
  /\ calls_since w1 w2 `prefix_of` unregistrations
  /\ cleanups w2 = []
  /\ (fst (shutdown w) = Ok tt -> calls_since w1 w2 = []).
Proof.
  intros w1 w2.
  destruct (shutdown_outcome w) as (_ & _ & Hreg & _ & made1 & _ & _ & _ & Hok1 & _).
  fold w1 in Hreg, Hok1.
  destruct (shutdown_outcome w1)
    as (_ & _ & Hreg2 & _ & made & Hcalls & Hprefix & Hnone & _).
  fold w2 in Hreg2, Hcalls.
  assert (Hsince : calls_since w1 w2 = made).
  { unfold calls_since. rewrite Hcalls, Hreg. simpl. apply drop_app_length. }
  rewrite Hsince. split; [|split; [exact Hprefix | split; [exact Hreg2|]]].
  - destruct Hprefix as [rest Hrest]. unfold unregistrations in Hrest.
    destruct made as [|a [|b [|c [|d made]]]]; try reflexivity;
      inversion Hrest; subst; reflexivity.
  - intros Hret. destruct (Hok1 Hret) as (_ & _ & Hctx). now apply Hnone.
Qed.

End AfterShutdown.

(** ** The health check and the memory-search hook *)

Section HookRuns.

Context {E : Env}.

Import Plugin.
Import Hooks.

Lemma differs_spec (now : bool) (lastConnected : option bool) :
  differs now lastConnected = false <-> lastConnected = Some now.
Proof.
  destruct lastConnected as [last|]; simpl; [|split; discriminate].
  destruct now, last; simpl; split; congruence.
Qed.

(** One tick, for a plugin that holds a client and a context. *)
Lemma health_tick_run (lastConnected : option bool) (c : ClientRef) (o : ObsidianClient)
    (w : World E) :
  client w = Some c -> heap w !! c = Some o -> ctx w = Some HostContext ->
  let now := alive (fst (serve E (vault w) (ping_request o))) in
  let pinged := snd (Client.ping c w) in
  health_tick lastConnected w
  = (Ok (Some now),
     if differs now lastConnected
     then set_logs (logs w ++ [transition_entry now]) pinged
     else pinged)
  /\ client pinged = Some c /\ ctx pinged = Some HostContext
  /\ heap pinged !! c
     = Some {| baseUrl := baseUrl o; headers := headers o; connected := now |}
  /\ requests pinged = (requests w ++ [ping_request o])%list
  /\ logs pinged = logs w.
Proof.
  intros Hclient Hobj Hctx now pinged.
  assert (Hlt : (c < length (heap w))%nat) by (eapply lookup_lt_Some; eassumption).
  assert (Hping : Client.ping c w = (Ok now, pinged)).
  { subst pinged now. now rewrite (ping_run c o w Hobj). }
  assert (Hfacts : client pinged = Some c /\ ctx pinged = Some HostContext
                   /\ heap pinged !! c
                      = Some {| baseUrl := baseUrl o; headers := headers o; connected := now |}
                   /\ requests pinged = (requests w ++ [ping_request o])%list
                   /\ logs pinged = logs w).
  { subst pinged. rewrite (ping_run c o w Hobj). simpl.
    repeat split; try assumption. now apply list_lookup_insert_eq. }
  split; [|exact Hfacts].
  destruct Hfacts as (_ & Hctx1 & _ & _ & Hlogs).
  clearbody pinged.
  unfold health_tick. unfold bind at 1. unfold gets. cbv beta. rewrite Hclient.
  unfold bind at 1. rewrite Hping.
  destruct (differs now lastConnected) eqn:Hd.
  - unfold bind, ret. rewrite (log_run _ _ pinged Hctx1), Hlogs.
    unfold transition_entry. reflexivity.
  - apply differs_spec in Hd. rewrite Hd. reflexivity.
Qed.

(** X21. A health tick of a running plugin pings once and hands back what
    the ping found.  It logs only when that differs from what the tick
    before had found (always on the first tick): an info for connected, a
    warning for disconnected.  So two ticks in a row that find the same
    state log once. *)
Theorem health_tick_logs_transitions (lastConnected : option bool) (c : ClientRef)
    (o : ObsidianClient) (w : World E) :
  client w = Some c -> heap w !! c = Some o -> ctx w = Some HostContext ->
  let now := alive (fst (serve E (vault w) (ping_request o))) in
  let w' := snd (health_tick lastConnected w) in
  fst (health_tick lastConnected w) = Ok (Some now)
  /\ requests w' = (requests w ++ [ping_request o])%list
  /\ fst (Client.isConnected c w') = Ok now
  /\ (lastConnected = Some now -> logs w' = logs w)
  /\ (lastConnected <> Some now ->
      logs w' = (logs w ++ [(if now then Info else Warn,
                             "Obsidian vault "
                             +:+ (if now then "connected" else "disconnected"))])%list)
  /\ (alive (fst (serve E (vault w') (ping_request o))) = now ->
      logs (snd (health_tick (Some now) w')) = logs w').
Proof.
  intros Hclient Hobj Hctx now w'.
  destruct (health_tick_run lastConnected c o w Hclient Hobj Hctx)
    as (Hrun & Hclient1 & Hctx1 & Hobj1 & Hsent & Hlogs).
  fold now in Hrun, Hobj1.
  set (pinged := snd (Client.ping c w)) in *.
  assert (Hw' : w' = if differs now lastConnected
                     then set_logs (logs w ++ [transition_entry now]) pinged
                     else pinged) by (subst w'; now rewrite Hrun).
  assert (Hclient' : client w' = Some c)
    by (rewrite Hw'; now destruct (differs now lastConnected)).
  assert (Hctx' : ctx w' = Some HostContext)
    by (rewrite Hw'; now destruct (differs now lastConnected)).
  assert (Hobj' : heap w' !! c
                  = Some {| baseUrl := baseUrl o; headers := headers o; connected := now |})
    by (rewrite Hw'; now destruct (differs now lastConnected)).
  split; [now rewrite Hrun|].
  split; [rewrite Hw'; now destruct (differs now lastConnected)|].
  split; [now rewrite (isConnected_at c _ w' Hobj')|].
  split; [|split].
  - intros Hsame. apply differs_spec in Hsame. now rewrite Hw', Hsame.
  - intros Hchange. rewrite Hw'.
    destruct (differs now lastConnected) eqn:Hd.
    + reflexivity.
    + apply differs_spec in Hd. contradiction.
  - intros Hstill.
    destruct (health_tick_run (Some now) c _ w' Hclient' Hobj' Hctx')
      as (Hrun2 & _ & _ & _ & _ & Hlogs2).
    simpl baseUrl in Hrun2. simpl headers in Hrun2.
    change (ping_request {| baseUrl := baseUrl o; headers := headers o; connected := now |})
      with (ping_request o) in Hrun2.
    rewrite Hstill in Hrun2. rewrite Hrun2.
    replace (differs now (Some now)) with false
      by (symmetry; now apply differs_spec).
    exact Hlogs2.
Qed.

(** X22. The memory-search handler never throws for a plugin whose client
    reference is sound, and it never removes or reorders what the shared
    collection holds.  With a connected client it runs the vault search of
    the event's query with the context length 150, and when that returns
    and the event has a collection it appends one entry per hit for the
    first three hits, in their order: the entry of a hit has the source
    [obsidian:<filename>], the score of the hit and, as content, the
    context of its first match, or its file name when it has no match.
    With no client, a disconnected client, a search that throws or an
    event without a collection the event is left as it was; only a
    connected client sends the search. *)
Theorem memory_search_appends (payload : MemorySearchEvent (Score E)) (w : World E) :
  (forall c, client w = Some c -> is_Some (heap w !! c)) ->
  exists (after : MemorySearchEvent (Score E)) (w' : World E),
    on_memory_search payload w = (Ok after, w')
    /\ memory_query after = memory_query payload
    /\ network_only w w'
    /\ (connected_now w = false -> after = payload /\ w' = w)
    /\ (forall c o,
          client w = Some c -> heap w !! c = Some o -> connected o = true ->
          w' = snd (Client.search c (memory_query payload) (Some 150) w)
          /\ requests w'
             = (requests w ++ match new_URL (baseUrl o +:+ "/search/simple/") with
                              | Ok _ => [search_request o (memory_query payload) 150]
                              | Throw _ => []
                              end)%list
          /\ match fst (Client.search c (memory_query payload) (Some 150) w),
                   memory_results payload with
             | Ok results, Some shared =>
                 after
                 = {| memory_query := memory_query payload;
                      memory_results :=
                        Some (shared ++
                              map (fun hit =>
                                     {| memory_content :=
                                          match matches hit with
                                          | first :: _ => context first
                                          | [] => filename hit
                                          end;
                                        memory_source := "obsidian:" +:+ filename hit;
                                        memory_score := score hit |})
                                (take 3 results))%list |}
             | _, _ => after = payload
             end)
    /\ (memory_results payload = None -> memory_results after = None)
    /\ (forall shared,
          memory_results payload = Some shared ->
          exists added,
            memory_results after = Some (shared ++ added)%list /\ (length added <= 3)%nat).
Proof.
  intros Hvalid.
  assert (Hquiet : forall shared, memory_results payload = Some shared ->
            exists added,
              memory_results payload = Some (shared ++ added)%list
              /\ (length added <= 3)%nat).
  { intros shared Hs. exists []. rewrite app_nil_r. split; [exact Hs | auto with arith]. }
  destruct (client w) as [c|] eqn:Hclient; cycle 1.
  { exists payload, w. unfold on_memory_search, bind, gets, ret. rewrite Hclient.
    split; [reflexivity|]. split; [reflexivity|]. split; [apply network_only_refl|].
    split; [auto|]. split; [intros c o Hc; discriminate|]. split; [auto | exact Hquiet]. }
  destruct (Hvalid c eq_refl) as [o Hobj].
  destruct (connected o) eqn:Hconn; cycle 1.
  { exists payload, w. unfold on_memory_search. unfold bind at 1. unfold gets. cbv beta.
    rewrite Hclient. unfold bind at 1. rewrite (isConnected_at c o w Hobj), Hconn.
    split; [reflexivity|]. split; [reflexivity|]. split; [apply network_only_refl|].
    split; [auto|].
    split; [intros c' o' Hc' Ho' Hyes; inversion Hc'; subst c';
            rewrite Hobj in Ho'; inversion Ho'; subst o'; congruence|].
    split; [auto | exact Hquiet]. }
  assert (Hstart : on_memory_search payload w
                   = match Client.search c (memory_query payload) (Some 150) w with
                     | (Ok results, w1) =>
                         (Ok match memory_results payload with
                             | None => payload
                             | Some shared =>
                                 {| memory_query := memory_query payload;
                                    memory_results :=
                                      Some (shared ++ map memory_entry (take 3 results))%list |}
                             end, w1)
                     | (Throw _, w1) => (Ok payload, w1)
                     end).
  { unfold on_memory_search. unfold bind at 1. unfold gets. cbv beta.
    rewrite Hclient. unfold bind at 1. rewrite (isConnected_at c o w Hobj), Hconn.
    cbn [negb]. unfold try_catch. unfold bind at 1.
    rewrite (getClient_run _ c w Hclient). unfold bind, ret.
    destruct (Client.search c (memory_query payload) (Some 150) w) as [[results|e] w1];
      [|reflexivity].
    rewrite (slice_take 3 results) by lia.
    now destruct (memory_results payload). }
  pose proof (search_network_only c (memory_query payload) (Some 150) w) as Hframe.
  pose proof (search_sends c o (memory_query payload) (Some 150) w Hobj) as Hsent.
  assert (Hdown : connected_now w = false -> False).
  { unfold connected_now. rewrite Hclient, Hobj, Hconn. discriminate. }
  rewrite Hstart.
  destruct (Client.search c (memory_query payload) (Some 150) w) as [[results|e] w1]
    eqn:Hsearch; simpl in Hframe, Hsent.
  - eexists _, w1. split; [reflexivity|].
    split; [now destruct (memory_results payload)|].
    split; [exact Hframe|]. split; [intros H; destruct (Hdown H)|].
    split.
    { intros c' o' Hc' Ho' _. inversion Hc'; subst c'.
      rewrite Hobj in Ho'. inversion Ho'; subst o'.
      rewrite Hsearch. split; [reflexivity|]. split; [exact Hsent|]. simpl.
      now destruct (memory_results payload). }
    split; [intros Hnone; now rewrite Hnone|].
    intros shared Hs. rewrite Hs. simpl.
    exists (map memory_entry (take 3 results)). split; [reflexivity|].
    rewrite length_map, length_take. lia.
  - exists payload, w1. split; [reflexivity|]. split; [reflexivity|].
    split; [exact Hframe|]. split; [intros H; destruct (Hdown H)|].
    split.
    { intros c' o' Hc' Ho' _. inversion Hc'; subst c'.
      rewrite Hobj in Ho'. inversion Ho'; subst o'.
      rewrite Hsearch. split; [reflexivity|]. split; [exact Hsent | reflexivity]. }
    split; [auto | exact Hquiet].
Qed.

End HookRuns.

(** ** The hooks and the last tick *)

Section AfterATick.

Context {E : Env}.

Import Plugin.
Import Hooks.

(** What the tick leaves of the plugin's state. *)
Lemma health_tick_leaves (lastConnected : option bool) (c : ClientRef) (o : ObsidianClient)
    (w : World E) :
  client w = Some c -> heap w !! c = Some o -> ctx w = Some HostContext ->
  let now := alive (fst (serve E (vault w) (ping_request o))) in
  let w' := snd (health_tick lastConnected w) in
  client w' = Some c /\ ctx w' = Some HostContext
  /\ heap w' !! c = Some {| baseUrl := baseUrl o; headers := headers o; connected := now |}.
Proof.
  intros Hclient Hobj Hctx now w'.
  destruct (health_tick_run lastConnected c o w Hclient Hobj Hctx)
    as (Hrun & Hc & Hx & Hh & _ & _).
  subst w'. rewrite Hrun. cbn [snd].
  destruct (differs _ lastConnected); simpl; auto.
Qed.

(** X23. The hooks go by the flag the last ping left, not by the server.
    After a health tick that found the vault down, the provider returns
    [null], the session handler archives nothing and the memory-search
    handler leaves the event alone; none of them sends a request or writes
    a log entry, whatever the configuration says.  The capability's
    [isConnected] reports what the tick found, and after a tick that found
    the vault up the memory-search handler sends its search (unless
    [new URL] rejects the URL of the search, when it sends nothing). *)
Theorem hooks_follow_the_last_tick (lastConnected : option bool) (c : ClientRef)
    (o : ObsidianClient) (w : World E) :
  client w = Some c -> heap w !! c = Some o -> ctx w = Some HostContext ->
  let now := alive (fst (serve E (vault w) (ping_request o))) in
  let w' := snd (health_tick lastConnected w) in
  extension_isConnected w' = (Ok now, w')
  /\ (now = false ->
      (forall session message, getContext session message w' = (Ok None, w'))
      /\ (forall payload, on_session_destroy payload w' = (Ok tt, w'))
      /\ (forall payload, on_memory_search payload w' = (Ok payload, w')))
  /\ (now = true ->
      forall payload,
        requests (snd (on_memory_search payload w'))
        = (requests w' ++ match new_URL (baseUrl o +:+ "/search/simple/") with
                          | Ok _ => [search_request o (memory_query payload) 150]
                          | Throw _ => []
                          end)%list).
Proof.
  intros Hclient Hobj Hctx now w'.
  destruct (health_tick_leaves lastConnected c o w Hclient Hobj Hctx) as (Hc & Hx & Hh).
  fold now in Hh. fold w' in Hc, Hx, Hh. clearbody w' now.
  split; [|split].
  - unfold extension_isConnected, bind, gets. rewrite Hc.
    now rewrite (isConnected_at c _ w' Hh).
  - intros Hdown. subst now. split; [|split].
    + intros session message. unfold getContext. unfold bind at 1.
      rewrite (getConfig_run w' Hx).
      destruct (not_always _); [reflexivity|].
      unfold bind at 1. rewrite (getClient_run _ c w' Hc).
      unfold bind at 1. now rewrite (isConnected_at c _ w' Hh).
    + intros payload. unfold on_session_destroy. unfold bind at 1.
      rewrite (getConfig_run w' Hx).
      destruct (archive_off _); [reflexivity|].
      unfold bind at 1. unfold gets. cbv beta. rewrite Hc.
      unfold bind at 1. now rewrite (isConnected_at c _ w' Hh).
    + intros payload. unfold on_memory_search. unfold bind at 1. unfold gets. cbv beta.
      rewrite Hc. unfold bind at 1. now rewrite (isConnected_at c _ w' Hh).
  - intros Hup payload. subst now.
    pose proof (search_sends c _ (memory_query payload) (Some 150) w' Hh) as Hsent.
    unfold on_memory_search. unfold bind at 1. unfold gets. cbv beta.
    rewrite Hc. unfold bind at 1. rewrite (isConnected_at c _ w' Hh).
    cbn [connected negb]. unfold try_catch. unfold bind at 1.
    rewrite (getClient_run _ c w' Hc). unfold bind, ret.
    destruct (Client.search c (memory_query payload) (Some 150) w') as [[results|e] w1];
      simpl in Hsent |- *; [|exact Hsent].
    now destruct (memory_results payload).
Qed.

End AfterATick.

(** ** The further theorems at work on the sample environment *)

Section MoreWitnesses.

Import Sample.
Import MoreSamples.
Import Plugin.
Import Hooks.

Lemma one_request_per_call_witness :
  heap holding !! 0%nat = Some (the_client true)
  /\ map req_url (requests (snd (Client.read 0%nat "Notes/Test.md" holding)))
     = ["http://127.0.0.1:27123/vault/Notes%2FTest.md"]
  /\ new_URL "http://127.0.0.1:27123/search/simple/"
     = Ok "http://127.0.0.1:27123/search/simple/"
  /\ map req_url (requests (snd (Client.search 0%nat "foo" None holding)))
     = ["http://127.0.0.1:27123/search/simple/"]
  /\ heap astray !! 0%nat = Some far_client
  /\ new_URL "http://127.0.0.1:70000/search/simple/" = Throw (JsError "TypeError" "Invalid URL")
  /\ fst (Client.search 0%nat "foo" None astray) = Throw (JsError "TypeError" "Invalid URL")
  /\ requests (snd (Client.search 0%nat "foo" None astray)) = [].
Proof.
  split; [reflexivity|].
  destruct (one_request_per_call (E := env) 0%nat (the_client true) holding eq_refl)
    as (Hread & _ & _ & Hsearch & _).
  split; [rewrite Hread; reflexivity|].
  split; [reflexivity|].
  split; [rewrite (proj1 (Hsearch "foo" None) _ eq_refl); reflexivity|].
  split; [reflexivity|]. split; [reflexivity|].
  destruct (one_request_per_call (E := env) 0%nat far_client astray eq_refl)
    as (_ & _ & _ & Hrejected & _).
  rewrite (proj2 (Hrejected "foo" None) _ eq_refl). split; reflexivity.
Defined.

Lemma bad_status_is_thrown_witness :
  heap missing !! 0%nat = Some (the_client true)
  /\ error_message
       match fst (Client.read 0%nat "missing.md" missing) with
       | Throw e => e
       | Ok _ => JsOther EmptyString
       end
     = "Failed to read note " +:+ dquote +:+ "missing.md" +:+ dquote +:+ ": 404 Not Found".
Proof.
  split; [reflexivity|].
  rewrite (proj1 (bad_status_is_thrown (E := env) 0%nat (the_client true) missing
                    {| status := 404; statusText := "Not Found"; body := empty_body |}
                    eq_refl eq_refl) "missing.md" eq_refl).
  reflexivity.
Defined.

Lemma transport_failure_propagates_witness :
  heap idle !! 0%nat = Some (the_client true)
  /\ fst (Client.write 0%nat "a.md" "text" idle) = Throw (JsError "TypeError" "fetch failed")
  /\ fst (Client.ping 0%nat idle) = Ok false.
Proof.
  split; [reflexivity|].
  destruct (transport_failure_propagates (E := env) 0%nat (the_client true) idle
              (JsError "TypeError" "fetch failed") eq_refl)
    as (_ & Hwrite & _ & _ & _ & Hping).
  split; [apply Hwrite | apply Hping]; reflexivity.
Defined.

Lemma success_results_witness :
  heap holding !! 0%nat = Some (the_client true)
  /\ fst (Client.read 0%nat "Notes/Test.md" holding) = Ok (note "Notes/Test.md" "hello")
  /\ fst (Client.write 0%nat "Notes/Test.md" "text" holding) = Ok tt.
Proof.
  split; [reflexivity|].
  destruct (success_results (E := env) 0%nat (the_client true) holding
              {| status := 200; statusText := "OK";
                 body := note_body (note "Notes/Test.md" "hello") |} eq_refl eq_refl)
    as (Hread & Hwrite & _).
  split; [apply Hread | apply Hwrite]; reflexivity.
Defined.

Lemma list_root_and_missing_files_witness :
  heap bare !! 0%nat = Some (the_client true)
  /\ fst (Client.list 0%nat None bare) = Ok [].
Proof.
  split; [reflexivity|].
  destruct (list_root_and_missing_files (E := env) 0%nat (the_client true) bare eq_refl)
    as (_ & _ & _ & Hbody).
  destruct (Hbody None {| status := 200; statusText := "OK"; body := listing_body None |}
              eq_refl eq_refl) as (Hnone & _).
  apply Hnone. reflexivity.
Defined.

Lemma vault_path_is_one_segment_witness :
  heap holding !! 0%nat = Some (the_client true)
  /\ exists segment,
      map req_url (requests (snd (Client.read 0%nat "a/b c" holding)))
      = ["http://127.0.0.1:27123/vault/" +:+ segment]
      /\ forallb segment_char (list_ascii_of_string segment) = true.
Proof.
  split; [reflexivity|].
  destruct (vault_path_is_one_segment (E := env) 0%nat (the_client true) "a/b c" "text"
              holding eq_refl) as (segment & Hread & _ & _ & Hchars & _).
  exists segment. split; [exact Hread | exact Hchars].
Defined.

Lemma distinct_paths_distinct_urls_witness :
  heap holding !! 0%nat = Some (the_client true)
  /\ "a/b" <> "a%2Fb"
  /\ exists r1 r2,
      requests (snd (Client.read 0%nat "a/b" holding)) = [r1]
      /\ requests (snd (Client.read 0%nat "a%2Fb" holding)) = [r2]
      /\ req_url r1 <> req_url r2.
Proof.
  assert (Hne : "a/b" <> "a%2Fb") by discriminate.
  split; [reflexivity|]. split; [exact Hne|].
  destruct (distinct_paths_distinct_urls (E := env) 0%nat (the_client true) "a/b" "a%2Fb"
              holding holding eq_refl eq_refl Hne)
    as ((r1 & r2 & segment & Hfirst & Hsecond & Hurls & _) & _).
  exists r1, r2. split; [exact Hfirst|]. split; [exact Hsecond | exact Hurls].
Defined.

Lemma last_ping_wins_witness :
  heap steady !! 0%nat = Some (the_client false)
  /\ fst (Client.isConnected 0%nat (snd (Client.ping 0%nat steady))) = Ok true.
Proof.
  split; [reflexivity|].
  exact (proj1 (last_ping_wins (E := env) 0%nat (the_client false) steady eq_refl)).
Defined.

Lemma tools_see_client_and_server_only_witness :
  heap (snd (shutdown searching)) = heap searching
  /\ vault (snd (shutdown searching)) = vault searching
  /\ fst (Tools.buildA2ATools 0%nat (Tools.obsidian_search (Tools.Given two_of_foo)) (snd (shutdown searching)))
     = fst (Tools.buildA2ATools 0%nat (Tools.obsidian_search (Tools.Given two_of_foo)) searching).
Proof.
  assert (Hheap : heap (snd (shutdown searching)) = heap searching) by reflexivity.
  assert (Hvault : vault (snd (shutdown searching)) = vault searching) by reflexivity.
  split; [exact Hheap|]. split; [exact Hvault|].
  exact (tools_see_client_and_server_only (E := env) 0%nat (Tools.obsidian_search (Tools.Given two_of_foo))
           _ _ Hheap Hvault).
Defined.

Lemma provider_never_throws_witness :
  ctx serving = Some HostContext /\ client serving = Some 0%nat
  /\ heap serving !! 0%nat = Some (the_client true)
  /\ exists r, fst (getContext "s1" hello serving) = Ok r.
Proof.
  split; [reflexivity|]. split; [reflexivity|]. split; [reflexivity|].
  destruct (provider_never_throws (E := env) "s1" hello 0%nat (the_client true) serving
              eq_refl eq_refl eq_refl) as (r & w' & Hrun & _).
  exists r. now rewrite Hrun.
Defined.

Lemma provider_reads_what_it_keeps_witness :
  fst (Client.search 0%nat "meeting notes" None serving) = Ok three_hits
  /\ map req_url (requests (snd (getContext "s1" hello serving)))
     = ["http://127.0.0.1:27123/search/simple/";
        "http://127.0.0.1:27123/vault/Notes%2FA.md";
        "http://127.0.0.1:27123/vault/Notes%2FB.md"].
Proof.
  split; [reflexivity|].
  rewrite (proj1 (provider_reads_what_it_keeps (E := env) "s1" "meeting notes" hello 0%nat
                    (the_client true) three_hits serving
                    (snd (Client.search 0%nat "meeting notes" None serving))
                    eq_refl eq_refl eq_refl eq_refl eq_refl eq_refl eq_refl
                    (pair_of_fst _ _ eq_refl))).
  reflexivity.
Defined.

Lemma provider_warns_when_search_fails_witness :
  fst (Client.search 0%nat "meeting notes" None idle) = Throw (JsError "TypeError" "fetch failed")
  /\ logs (snd (getContext "s1" hello idle))
     = [(Warn, "Obsidian context fetch failed: fetch failed")].
Proof.
  split; [reflexivity|].
  rewrite (proj2 (proj2 (provider_warns_when_search_fails (E := env) "s1" "meeting notes"
                           hello 0%nat (the_client true) (JsError "TypeError" "fetch failed")
                           idle (snd (Client.search 0%nat "meeting notes" None idle))
                           eq_refl eq_refl eq_refl eq_refl eq_refl eq_refl eq_refl
                           (pair_of_fst _ _ eq_refl)))).
  reflexivity.
Defined.

Lemma archive_handler_degrades_witness :
  ctx idle = Some HostContext
  /\ (forall c, client idle = Some c -> is_Some (heap idle !! c))
  /\ fst (on_session_destroy teardown idle) = Ok tt.
Proof.
  assert (Hsound : forall c, client idle = Some c -> is_Some (heap idle !! c)).
  { intros c Hc. inversion Hc. eexists. reflexivity. }
  split; [reflexivity|]. split; [exact Hsound|].
  destruct (archive_handler_degrades (E := env) teardown idle eq_refl Hsound)
    as (w' & Hrun & _).
  now rewrite Hrun.
Defined.

Lemma callbacks_after_shutdown_witness :
  fst (shutdown idle) = Ok tt
  /\ fst (getContext "s1" hello (snd (shutdown idle))) = Throw (null_access "getConfig")
  /\ fst (extension_isConnected (snd (shutdown idle))) = Ok false.
Proof.
  split; [reflexivity|].
  destruct (callbacks_after_shutdown (E := env) idle (snd (shutdown idle))
              (pair_of_fst _ _ eq_refl))
    as (Hprovider & _ & _ & _ & _ & _ & _ & Hflag & _).
  split; [now rewrite Hprovider | now rewrite Hflag].
Defined.

Lemma health_tick_logs_transitions_witness :
  client steady = Some 0%nat /\ heap steady !! 0%nat = Some (the_client false)
  /\ ctx steady = Some HostContext
  /\ fst (health_tick None steady) = Ok (Some true)
  /\ logs (snd (health_tick None steady)) = [(Info, "Obsidian vault connected")].
Proof.
  split; [reflexivity|]. split; [reflexivity|]. split; [reflexivity|].
  destruct (health_tick_logs_transitions (E := env) None 0%nat (the_client false) steady
              eq_refl eq_refl eq_refl) as (Hnow & _ & _ & _ & Hlog & _).
  split; [exact Hnow|]. apply Hlog. discriminate.
Defined.

Lemma memory_search_appends_witness :
  (forall c, client searching = Some c -> is_Some (heap searching !! c))
  /\ fst (on_memory_search (E := env) recall searching)
     = Ok {| memory_query := "foo";
             memory_results :=
               Some [{| memory_content := "kept"; memory_source := "core";
                        memory_score := 1 |};
                     {| memory_content := "foo context";
                        memory_source := "obsidian:Notes/A.md"; memory_score := 9 |};
                     {| memory_content := "Notes/B.md";
                        memory_source := "obsidian:Notes/B.md"; memory_score := 7 |};
                     {| memory_content := "c";
                        memory_source := "obsidian:Notes/C.md"; memory_score := 5 |}] |}.
Proof.
  assert (Hsound : forall c, client searching = Some c -> is_Some (heap searching !! c)).
  { intros c Hc. inversion Hc. eexists. reflexivity. }
  split; [exact Hsound|].
  destruct (memory_search_appends (E := env) recall searching Hsound)
    as (after & w' & Hrun & _ & _ & _ & Hpinned & _).
  destruct (Hpinned 0%nat (the_client true) eq_refl eq_refl eq_refl) as (_ & _ & Hafter).
  rewrite Hrun. cbn [fst]. f_equal. exact Hafter.
Defined.

Lemma hooks_follow_the_last_tick_witness :
  client idle = Some 0%nat /\ heap idle !! 0%nat = Some (the_client true)
  /\ ctx idle = Some HostContext
  /\ fst (getContext "s1" hello (snd (health_tick (Some true) idle))) = Ok None
  /\ fst (extension_isConnected (snd (health_tick (Some true) idle))) = Ok false.
Proof.
  split; [reflexivity|]. split; [reflexivity|]. split; [reflexivity|].
  destruct (hooks_follow_the_last_tick (E := env) (Some true) 0%nat (the_client true) idle
              eq_refl eq_refl eq_refl) as (Hflag & Hdown & _).
  destruct (Hdown eq_refl) as (Hprovider & _).
  split; [now rewrite Hprovider | now rewrite Hflag].
Defined.

Lemma list_tool_defaults_to_root_witness :
  heap bare !! 0%nat = Some (the_client true)
  /\ map req_url (requests (snd (Tools.buildA2ATools 0%nat (Tools.obsidian_list None) bare)))
     = ["http://127.0.0.1:27123/vault/"].
Proof.
  split; [reflexivity|].
  destruct (list_tool_defaults_to_root (E := env) 0%nat bare) as (_ & _ & Hsent & _).
  rewrite (proj1 (Hsent (the_client true) eq_refl)). reflexivity.
Defined.

Lemma cleanups_run_once_witness :
  fst (shutdown idle) = Ok tt
  /\ calls_since (snd (shutdown idle)) (snd (shutdown (snd (shutdown idle)))) = [].
Proof.
  split; [reflexivity|].
  destruct (cleanups_run_once (E := env) idle) as (_ & _ & _ & Hnone).
  exact (Hnone eq_refl).
Defined.

Lemma search_needs_a_port_witness :
  0 <= 80 <= 65535 /\ (70000 < 0 \/ 65535 < 70000)
  /\ map req_url
       (requests (snd (Client.search 1%nat "foo" None
                         (snd (Client.new_ObsidianClient 80 "key" idle)))))
     = ["http://127.0.0.1/search/simple/"]
  /\ fst (Client.search 1%nat "foo" None (snd (Client.new_ObsidianClient 70000 "key" idle)))
     = Throw (JsError "TypeError" "Invalid URL").
Proof.
  assert (Hin : 0 <= 80 <= 65535) by lia.
  assert (Hout : 70000 < 0 \/ 65535 < 70000) by (right; lia).
  split; [exact Hin|]. split; [exact Hout|]. split.
  - exact (proj1 (search_needs_a_port (E := env) 80 "key" "foo" None idle) Hin).
  - exact (f_equal fst
             (proj2 (search_needs_a_port (E := env) 70000 "key" "foo" None idle) Hout)).
Defined.

End MoreWitnesses.
